(** * Extraction and conformity engine for CEM/EMI raw reports

    A shallow embedding of the extraction core of the repository
    ([utils.py], [parser_mod.py], [rules.py]) and the properties its
    specification states about it.

    Conventions of the embedding.
    - A Python [str] is a Rocq [string] holding the UTF-8 bytes of the
      text.  Substring tests and replacements on UTF-8 bytes agree with
      the ones on code points.  [lower], [upper] and [strip] act on the
      ASCII letters and the ASCII whitespace characters; the micro sign
      used in the column labels has no case and is left as it is.
    - A Python [dict] is an association list in insertion order: the
      rule engine picks "the first key such that ...", so the order of
      the keys is part of the behaviour.
    - A Python [float] is a binary64 number of [SpecFloat]; the digits
      of a number and of the SampleID pattern are the ASCII digits.
    - A word-processor table is the grid of its cell texts. *)

From Stdlib Require Import List String Ascii Bool Arith ZArith Lia.
From Stdlib Require Import Floats.SpecFloat.
Import ListNotations.
Local Open Scope string_scope.
Local Open Scope list_scope.

(** ** Python string operations *)

Module PyStr.

(** [sub in s] *)
Fixpoint contains (sub s : string) : bool :=
  if String.prefix sub s then true
  else match s with
       | EmptyString => false
       | String _ s' => contains sub s'
       end.

(** The characters removed by [str.strip()] in the ASCII range.  On a
    text of ASCII characters [lstrip], [rstrip] and [strip] are the
    Python methods; [str.strip()] also removes the whitespace beyond
    ASCII, such as the no-break space, which these do not. *)
Definition is_space (c : ascii) : bool :=
  let n := nat_of_ascii c in
  (((9 <=? n) && (n <=? 13)) || ((28 <=? n) && (n <=? 32)))%nat.

Fixpoint lstrip (s : string) : string :=
  match s with
  | EmptyString => EmptyString
  | String c s' => if is_space c then lstrip s' else s
  end.

Fixpoint rev (s : string) : string :=
  match s with
  | EmptyString => EmptyString
  | String c s' => rev s' ++ String c EmptyString
  end.

Definition rstrip (s : string) : string := rev (lstrip (rev s)).

(** [s.strip()] *)
Definition strip (s : string) : string := rstrip (lstrip s).

Definition lower_ascii (c : ascii) : ascii :=
  let n := nat_of_ascii c in
  if ((65 <=? n) && (n <=? 90))%nat then ascii_of_nat (n + 32) else c.

Definition upper_ascii (c : ascii) : ascii :=
  let n := nat_of_ascii c in
  if ((97 <=? n) && (n <=? 122))%nat then ascii_of_nat (n - 32) else c.

Fixpoint map_chars (f : ascii -> ascii) (s : string) : string :=
  match s with
  | EmptyString => EmptyString
  | String c s' => String (f c) (map_chars f s')
  end.

(** [s.lower()] and [s.upper()] *)
Definition lower : string -> string := map_chars lower_ascii.
Definition upper : string -> string := map_chars upper_ascii.

(** [s.replace(old, new)] for a non-empty [old]: the occurrences are
    found from the left and do not overlap.  [skip] counts the
    characters of a matched occurrence that remain to be dropped. *)
Fixpoint replace_from (old new : string) (skip : nat) (s : string) : string :=
  match s with
  | EmptyString => EmptyString
  | String c s' =>
      match skip with
      | S k => replace_from old new k s'
      | O =>
          if String.prefix old s
          then new ++ replace_from old new (String.length old - 1) s'
          else String c (replace_from old new 0 s')
      end
  end.

Fixpoint interleave (new s : string) : string :=
  match s with
  | EmptyString => EmptyString
  | String c s' => String c (new ++ interleave new s')
  end.

Definition replace (old new s : string) : string :=
  match old with
  | EmptyString => new ++ interleave new s
  | _ => replace_from old new 0 s
  end.

(** [s.split(sep)] for a one-character separator: never empty. *)
Fixpoint split (sep : ascii) (s : string) : list string :=
  match s with
  | EmptyString => [EmptyString]
  | String c s' =>
      if Ascii.eqb c sep then EmptyString :: split sep s'
      else match split sep s' with
           | [] => [String c EmptyString]
           | p :: ps => String c p :: ps
           end
  end.

(** [sep.join(parts)] *)
Fixpoint join (sep : string) (parts : list string) : string :=
  match parts with
  | [] => EmptyString
  | [p] => p
  | p :: ps => p ++ sep ++ join sep ps
  end.

(** [any(sub in s for s in cells for sub in keywords)] *)
Definition any_contains (keywords cells : list string) : bool :=
  existsb (fun h => existsb (fun kw => contains kw h) keywords) cells.

Definition is_digit (c : ascii) : bool :=
  let n := nat_of_ascii c in ((48 <=? n) && (n <=? 57))%nat.

End PyStr.

(** ** Python floats

    [float] values are IEEE 754 binary64 numbers.  The module gives the
    four operations the engine uses: [float(s)] on a text, subtraction,
    [round(x, 2)], the comparison with zero, and [str(x)]. *)

Module PyFloat.
Import PyStr.
Local Open Scope Z_scope.

Definition float : Type := spec_float.
Definition prec : Z := 53.
Definition emax : Z := 1024.

Definition pos_zero : float := S754_zero false.

(** The binary64 number nearest to [(-1)^neg * n * 10^e10], ties to
    even: what a correctly rounded decimal-to-binary conversion returns.
    The two early exits only avoid computing huge powers of ten: beyond
    them the value overflows to an infinity or rounds to zero. *)
Definition of_decimal (neg : bool) (n : Z) (e10 : Z) : float :=
  match n with
  | Zpos p =>
      if 400 <? e10 then S754_infinity neg
      else if e10 + (Z.log2 n + 1) <? -400 then S754_zero neg
      else if 0 <=? e10
           then binary_normalize prec emax
                  ((if neg then Z.opp n else n) * 10 ^ e10) 0 neg
           else SFdiv prec emax (S754_finite neg p 0)
                  (S754_finite false (Z.to_pos (10 ^ (- e10))) 0)
  | _ => S754_zero neg
  end.

(** The underscore rule of numeric texts: an underscore stands between
    two digits.  [prev] is the character read before [s]. *)
Fixpoint strip_underscores (prev : ascii) (s : string) : option string :=
  match s with
  | EmptyString => if Ascii.eqb prev "_" then None else Some EmptyString
  | String c s' =>
      if Ascii.eqb c "_"
      then if is_digit prev then strip_underscores c s' else None
      else if Ascii.eqb prev "_" && negb (is_digit c) then None
           else option_map (String c) (strip_underscores c s')
  end.

Definition digit_val (c : ascii) : Z := Z.of_nat (nat_of_ascii c) - 48.

(** Reads a run of digits: the number read after [acc], how many digits
    were read, and the rest of the text. *)
Fixpoint take_digits (s : string) (acc cnt : Z) : Z * Z * string :=
  match s with
  | EmptyString => (acc, cnt, EmptyString)
  | String c s' =>
      if is_digit c then take_digits s' (acc * 10 + digit_val c) (cnt + 1)
      else (acc, cnt, s)
  end.

Definition take_sign (s : string) : bool * string :=
  match s with
  | String "-" s' => (true, s')
  | String "+" s' => (false, s')
  | _ => (false, s)
  end.

(** digits [. digits] [(e|E) [sign] digits], with a digit in the
    mantissa, and nothing after it. *)
Definition parse_decimal (neg : bool) (s : string) : option float :=
  let '(ip, ni, s1) := take_digits s 0 0 in
  let '(m, nf, s2) :=
    match s1 with
    | String "." s1' => take_digits s1' ip 0
    | _ => (ip, 0, s1)
    end in
  if ni + nf =? 0 then None
  else match s2 with
       | EmptyString => Some (of_decimal neg m (- nf))
       | String c s3 =>
           if Ascii.eqb c "e" || Ascii.eqb c "E" then
             let '(eneg, s4) := take_sign s3 in
             let '(ev, ne, s5) := take_digits s4 0 0 in
             if (ne =? 0) || negb (String.eqb s5 EmptyString) then None
             else Some (of_decimal neg m ((if eneg then - ev else ev) - nf))
           else None
       end.

(** [float(s)] for a text [s]; [None] stands for [ValueError]. *)
Definition float_of_str (s : string) : option float :=
  match strip_underscores zero (strip s) with
  | None => None
  | Some t =>
      let '(neg, body) := take_sign t in
      let low := lower body in
      if String.eqb low "inf" || String.eqb low "infinity"
      then Some (S754_infinity neg)
      else if String.eqb low "nan" then Some S754_nan
      else parse_decimal neg body
  end.

(** [x - y] *)
Definition sub (x y : float) : float := SFsub prec emax x y.

(** [round(x, 2)]: the exact value of [x] is rounded to two decimals,
    ties to even, and the decimal obtained is converted back. *)
Definition round2 (x : float) : float :=
  match x with
  | S754_finite s m e =>
      if 0 <=? e then x
      else
        let num := Zpos m * 100 in
        let den := 2 ^ (- e) in
        let q := num / den in
        let r := num mod den in
        let n := if 2 * r <? den then q
                 else if den <? 2 * r then q + 1
                 else if Z.even q then q else q + 1 in
        of_decimal s n (-2)
  | _ => x
  end.

(** [x >= 0] and [x < 0] *)
Definition ge0 (x : float) : bool := SFleb pos_zero x.
Definition lt0 (x : float) : bool := SFltb x pos_zero.

(** [x == y] *)
Definition eqb (x y : float) : bool := SFeqb x y.

(** Same binary64 datum (used to test that a decimal reads back). *)
Definition same (x y : float) : bool :=
  match x, y with
  | S754_zero a, S754_zero b => Bool.eqb a b
  | S754_infinity a, S754_infinity b => Bool.eqb a b
  | S754_nan, S754_nan => true
  | S754_finite a m e, S754_finite b m' e' =>
      Bool.eqb a b && Pos.eqb m m' && Z.eqb e e'
  | _, _ => false
  end.

(** *** [str(x)]: the shortest decimal that reads back as [x] *)

(** [x * 10^j] for [x = m * 2^e], as a fraction. *)
Definition scaled (m : positive) (e j : Z) : Z * Z :=
  let num := Zpos m * (if 0 <=? e then 2 ^ e else 1) * (if 0 <=? j then 10 ^ j else 1) in
  let den := (if 0 <=? e then 1 else 2 ^ (- e)) * (if 0 <=? j then 1 else 10 ^ (- j)) in
  (num, den).

(** The least [k] from [k0] on with [x < 10^k]. *)
Fixpoint decimal_exponent (fuel : nat) (m : positive) (e k : Z) : Z :=
  match fuel with
  | O => k
  | S fuel' =>
      let '(num, den) := scaled m e (- k) in
      if num <? den then k else decimal_exponent fuel' m e (k + 1)
  end.

(** The shortest digit string: tries 1, 2, ... digits; with [nd] digits
    the two decimals around [x] are tried and the nearer one that reads
    back as [x] is kept. *)
Fixpoint shortest (fuel : nat) (x : float) (m : positive) (e k nd : Z)
  : Z * Z :=
  match fuel with
  | O => (Zpos m, nd)
  | S fuel' =>
      let '(num, den) := scaled m e (nd - k) in
      let f := num / den in
      let r := num mod den in
      let c := f + 1 in
      let f_ok := same (of_decimal false f (k - nd)) (SFabs x) in
      let c_ok := same (of_decimal false c (k - nd)) (SFabs x) in
      if r =? 0 then (f, nd)
      else if f_ok && c_ok then
        (if 2 * r <? den then f
         else if den <? 2 * r then c
         else if Z.even f then f else c, nd)
      else if f_ok then (f, nd)
      else if c_ok then (c, nd)
      else shortest fuel' x m e k (nd + 1)
  end.

Fixpoint digits_of (fuel : nat) (n : Z) (acc : string) : string :=
  match fuel with
  | O => acc
  | S fuel' =>
      let acc' := String (ascii_of_nat (Z.to_nat (48 + n mod 10))) acc in
      if n <? 10 then acc' else digits_of fuel' (n / 10) acc'
  end.

Definition string_of_Z (n : Z) : string :=
  digits_of (S (Z.to_nat (Z.log2 n))) n EmptyString.

Fixpoint drop_zeros (s : string) : string :=
  match s with
  | String "0" s' => drop_zeros s'
  | _ => s
  end.

Fixpoint zeros (n : nat) : string :=
  match n with
  | O => EmptyString
  | S n' => String "0" (zeros n')
  end.

Definition substring_from (n : nat) (s : string) : string :=
  String.substring n (String.length s - n) s.

(** The layout of [repr]: [digits] are the significant digits and the
    value is [0.digits * 10^decpt]. *)
Definition layout (digits : string) (decpt : Z) : string :=
  let len := Z.of_nat (String.length digits) in
  if (decpt <=? -4) || (16 <? decpt) then
    let ex := decpt - 1 in
    let mant := if len =? 1 then digits
                else (String.substring 0 1 digits ++ "."
                        ++ substring_from 1 digits)%string in
    let exs := string_of_Z (Z.abs ex) in
    let sgn := if ex <? 0 then "-" else "+" in
    let pad := if Z.abs ex <? 10 then "0" else EmptyString in
    (mant ++ "e" ++ sgn ++ pad ++ exs)%string
  else if decpt <=? 0 then
    ("0." ++ zeros (Z.to_nat (- decpt)) ++ digits)%string
  else if len <=? decpt then
    (digits ++ zeros (Z.to_nat (decpt - len)) ++ ".0")%string
  else
    (String.substring 0 (Z.to_nat decpt) digits ++ "."
       ++ substring_from (Z.to_nat decpt) digits)%string.

Definition repr (x : float) : string :=
  match x with
  | S754_nan => "nan"
  | S754_infinity s => if s then "-inf" else "inf"
  | S754_zero s => if s then "-0.0" else "0.0"
  | S754_finite s m e =>
      let k := decimal_exponent 700 m e (-330) in
      let '(d, nd) := shortest 17 x m e k 1 in
      let all := string_of_Z d in
      let digits := PyStr.rev (drop_zeros (PyStr.rev all)) in
      let decpt := k + (Z.of_nat (String.length all) - nd) in
      let sgn := if s then "-" else EmptyString in
      (sgn ++ layout digits decpt)%string
  end.

End PyFloat.

(** ** Values and dictionaries *)

(** The values a measurement holds: a [float] or a text. *)
Inductive Val : Type :=
  | VFloat (x : PyFloat.float)
  | VStr (s : string).

(** A [dict] with text keys, in insertion order. *)
Definition dict (V : Type) : Type := list (string * V).

Section Dict.
Context {V : Type}.

(** [d.get(k)] *)
Fixpoint dict_get (k : string) (d : dict V) : option V :=
  match d with
  | [] => None
  | (k', v) :: d' => if String.eqb k' k then Some v else dict_get k d'
  end.

(** [d[k] = v]: an existing key keeps its place, a new one goes last. *)
Fixpoint dict_set (k : string) (v : V) (d : dict V) : dict V :=
  match d with
  | [] => [(k, v)]
  | (k', v') :: d' =>
      if String.eqb k' k then (k', v) :: d' else (k', v') :: dict_set k v d'
  end.

(** [d.get(k, default)] *)
Definition dict_get_default (k : string) (default : V) (d : dict V) : V :=
  match dict_get k d with
  | Some v => v
  | None => default
  end.
End Dict.

(** A measurement row. *)
Definition Measurement : Type := dict Val.

(** [str(v)], also what an f-string prints for [v]. *)
Definition str_of_val (v : Val) : string :=
  match v with
  | VFloat x => PyFloat.repr x
  | VStr s => s
  end.

(** ** [utils.py]: header and unit normalisation *)

Module Utils.
Import PyStr.

(** [normalize_unit]: the chain of nine replacements, in source order. *)
Definition normalize_unit (unit : string) : string :=
  replace "CISPR.AVG-Lim.Avg" "CISPR.AVG-Limit Avg"
   (replace "Q-Peak-Lim.Q-Peak" "Q-Peak-Limit Q-Peak"
    (replace "Peak-Lim.Peak" "Peak-Limit Peak"
     (replace "CISPR.AVG" "CISPR Avg"
      (replace "Lim.Q-Peak" "Limit Q-Peak"
       (replace "Lim.Peak" "Limit Peak"
        (replace "Lim.Avg" "Limit Avg"
         (replace "dBμV" "dBµV"
          (replace "Âµ" "µ" unit)))))))).

(** The ordered rule list of [normalize_header]. *)
Definition priority_mappings : list (string * string) :=
  [ ("cispr avg-limit avg", "Margin (dB)");
    ("peak-limit peak", "Margin (dB)");
    ("q-peak-limit q-peak", "Margin (dB)");
    ("peak-limit", "Margin (dB)");
    ("cispr-limit", "Margin (dB)");
    ("q-peak-limit", "Margin (dB)");
    ("limit peak", "Limit Peak (dBµV/m)");
    ("limit avg", "Limit Avg (dBµV/m)");
    ("limit q-peak", "Limit Q-Peak (dBµV/m)");
    ("cispr avg", "CISPR.AVG (dBµV/m)");
    ("q-peak", "Q-Peak (dBµV/m)");
    ("peak", "Peak (dBµV/m)");
    ("cispr", "CISPR.AVG (dBµV/m)");
    ("frequency", "Frequency (MHz)");
    ("detector", "Detector type");
    ("comment", "Comment");
    ("applied limit", "Applied limit");
    ("margin", "Margin (dB)");
    ("antenna position", "Antenna Position");
    ("polarization", "Polarization") ].

(** The [for key, std in ...: if key in h_clean: return std] loop. *)
Fixpoint first_match (rules : list (string * string)) (h_clean : string)
  : option string :=
  match rules with
  | [] => None
  | (key, std) :: rules' =>
      if contains key h_clean then Some std else first_match rules' h_clean
  end.

Definition normalize_header (h : string) : string :=
  let h_clean := lower (strip h) in
  match first_match priority_mappings h_clean with
  | Some std => std
  | None => h
  end.

(** The patterns of the six leading rules: the composite margin
    columns. *)
Definition composite_margin_patterns : list string :=
  map fst (firstn 6 priority_mappings).

(** [clean_decimal]: decimal commas become points, the text is trimmed
    and read as a number; a text that is no number is returned trimmed. *)
Definition clean_decimal (value : string) : Val :=
  match PyFloat.float_of_str (strip (replace "," "." value)) with
  | Some x => VFloat x
  | None => VStr (strip value)
  end.

End Utils.

(** ** [parser_mod.py]: discovery, association and row extraction *)

Module Parser.
Import PyStr Utils.

(** [row.cells], [table.rows] and [doc.tables], as cell texts. *)
Definition Row : Type := list string.
Definition Table : Type := list Row.
Definition Document : Type := list Table.

(** The exception the association loop can raise: [rows[0]] on a table
    without rows. *)
Inductive exn : Type := IndexError.

Inductive result (A : Type) : Type :=
  | Ok (a : A)
  | Raise (e : exn).
Arguments Ok {A} a.
Arguments Raise {A} e.

Definition bind {A B : Type} (r : result A) (k : A -> result B) : result B :=
  match r with
  | Ok a => k a
  | Raise e => Raise e
  end.

Notation "x <- c1 ;; c2" := (bind c1 (fun x => c2))
  (at level 61, c1 at next level, right associativity).

(** *** The SampleID grammar [CRE2-\d{4}-TP\d{3}-\d{2}] *)

Inductive ritem : Type :=
  | Lit (c : ascii)
  | Digit.

Fixpoint lits (s : string) : list ritem :=
  match s with
  | EmptyString => []
  | String c s' => Lit c :: lits s'
  end.

Definition sample_id_pattern : list ritem :=
  lits "CRE2-" ++ repeat Digit 4 ++ lits "-TP" ++ repeat Digit 3
    ++ lits "-" ++ repeat Digit 2.

(** Matches the pattern at the head of [s]; returns what follows.
    [Digit] is an ASCII digit: on a text of ASCII characters this is
    [\d], which also matches the decimal digits beyond ASCII. *)
Fixpoint match_items (pat : list ritem) (s : string) : option string :=
  match pat with
  | [] => Some s
  | it :: pat' =>
      match s with
      | EmptyString => None
      | String c s' =>
          let ok := match it with
                    | Lit c' => Ascii.eqb c c'
                    | Digit => is_digit c
                    end in
          if ok then match_items pat' s' else None
      end
  end.

Definition newline : string := String (ascii_of_nat 10) EmptyString.

(** [re.match(r'^CRE2-\d{4}-TP\d{3}-\d{2}$', s)]: the dollar sign also
    matches before a final newline. *)
Definition re_match_sample_id (s : string) : bool :=
  match match_items sample_id_pattern s with
  | Some rest => String.eqb rest EmptyString || String.eqb rest newline
  | None => false
  end.

(** [re.search(r'CRE2-\d{4}-TP\d{3}-\d{2}', s)]: the leftmost match. *)
Fixpoint re_search_sample_id (s : string) : option string :=
  match match_items sample_id_pattern s with
  | Some _ => Some (String.substring 0 (List.length sample_id_pattern) s)
  | None =>
      match s with
      | EmptyString => None
      | String _ s' => re_search_sample_id s'
      end
  end.

(** *** Configuration discovery *)

Record Config : Type := mkConfig {
  sample_id : string;
  config_name : string;
  full_name : string
}.

(** The key and value of a row with at least two cells that names a
    test: [key = cells[0].strip().lower()], [value = cells[1].strip()],
    kept when ["name test:" in key and value]. *)
Definition name_test_value (row : Row) : option string :=
  match row with
  | c0 :: c1 :: _ =>
      let key := lower (strip c0) in
      let value := strip c1 in
      if contains "name test:" key && negb (String.eqb value EmptyString)
      then Some value else None
  | _ => None
  end.

(** [set.add], on a list without repetition. *)
Definition set_add (x : string) (l : list string) : list string :=
  if existsb (String.eqb x) l then l else l ++ [x].

(** The body of the row loop of [extract_all_sample_ids]. *)
Definition sample_ids_step (sample_ids : list string) (row : Row)
  : list string :=
  match name_test_value row with
  | None => sample_ids
  | Some value =>
      let sample_id := hd EmptyString (split "_" value) in
      if re_match_sample_id sample_id then set_add sample_id sample_ids
      else if contains "CRE2-2025-TP002" sample_id then
        match re_search_sample_id sample_id with
        | Some m => set_add m sample_ids
        | None => sample_ids
        end
      else sample_ids
  end.

(** [extract_all_sample_ids]; the source returns [list(set)], whose
    order is not fixed: here the order of first insertion. *)
Definition extract_all_sample_ids (doc : Document) : list string :=
  fold_left sample_ids_step (List.concat doc) [].

(** The body of the row loop of [extract_all_configurations]. *)
Definition config_of_row (row : Row) : list Config :=
  match name_test_value row with
  | None => []
  | Some value =>
      match split "_" value with
      | sample_id :: (_ :: _) as rest =>
          let config_name := join "_" rest in
          if re_match_sample_id sample_id
          then [mkConfig sample_id config_name value]
          else []
      | _ => []
      end
  end.

Definition extract_all_configurations (doc : Document) : list Config :=
  flat_map config_of_row (List.concat doc).

(** *** Row extraction *)

(** The column mapping of one header [h] with cell value [val]. *)
Definition map_column (row_dict : Measurement) (h val : string)
  : Measurement :=
  let h_low := lower h in
  let measure (detector : string) :=
    dict_set "Section" (VStr detector)
      (dict_set "Detector type" (VStr detector)
         (dict_set "Mesure (dBµV/m)" (clean_decimal val) row_dict)) in
  if contains "frequency" h_low then
    dict_set "Frequency (MHz)" (clean_decimal val) row_dict
  else if String.eqb h_low "sr" || String.eqb (strip h_low) "sr" then
    dict_set "S R" (clean_decimal val) row_dict
  else if contains "cispr" h_low && contains "avg" h_low
          && negb (contains "lim" h_low) then
    measure "CISPR.AVG"
  else if contains "q-peak" h_low && negb (contains "lim" h_low) then
    measure "Q-Peak"
  else if contains "peak" h_low && negb (contains "lim" h_low)
          && negb (contains "q-peak" h_low) && negb (contains "-" h_low) then
    measure "Peak"
  else if (contains "lim" h_low || contains "limit" h_low)
          && (contains "avg" h_low || contains "peak" h_low
              || contains "q-peak" h_low) then
    dict_set "Limite (dBµV/m)" (clean_decimal val) row_dict
  else if contains "margin" h_low
          || (contains "-" h_low
              && (contains "peak" h_low || contains "avg" h_low
                  || contains "q-peak" h_low)) then
    dict_set "Margin (dB)" (clean_decimal val) row_dict
  else if contains "pol" h_low then
    dict_set "Polarization" (VStr val) row_dict
  else if contains "corr" h_low then
    dict_set "Correction (dB)" (clean_decimal val) row_dict
  else
    dict_set h (VStr val) row_dict.

(** The initial [row_dict] of a data row. *)
Definition row_init (sample_id : string) : Measurement :=
  [ ("Sample ID", VStr sample_id);
    ("Comment", VStr "-");
    ("Section", VStr "-") ].

(** [for i, h in enumerate(headers)], with
    [val = values[i]] when [i < len(values)], else the empty text. *)
Fixpoint map_columns (row_dict : Measurement) (headers : list string)
    (i : nat) (values : list string) : Measurement :=
  match headers with
  | [] => row_dict
  | h :: headers' =>
      map_columns (map_column row_dict h (nth i values EmptyString))
        headers' (S i) values
  end.

(** [any(values)]: some cell is not empty. *)
Definition any_text (values : list string) : bool :=
  existsb (fun v => negb (String.eqb v EmptyString)) values.

(** One data row: skipped when blank, else one measurement. *)
Definition extract_row (headers : list string) (sample_id : string)
    (row : Row) : list Measurement :=
  let values := map strip row in
  if any_text values
  then [map_columns (row_init sample_id) headers 0 values]
  else [].

Definition normalized_headers (header_row : Row) : list string :=
  map (fun c => normalize_header (normalize_unit (strip c))) header_row.

Definition extract_measurements_from_table (table : Table)
    (sample_id : string) : list Measurement :=
  match table with
  | header_row :: (_ :: _) as data_rows =>
      let headers := normalized_headers header_row in
      if any_contains
           ["frequency"; "cispr"; "peak"; "q-peak"; "lim"; "margin"]
           (map lower headers)
      then flat_map (extract_row headers sample_id) data_rows
      else []
  | _ => []
  end.

(** *** Association of a configuration with the tables before it *)

(** [" ".join(cell.text for row in table.rows for cell in row.cells)] *)
Definition table_text (table : Table) : string := join " " (List.concat table).

Definition declares (config_name : string) (table : Table) : bool :=
  let text := table_text table in
  contains "name test:" (lower text) && contains config_name text.

(** Index of the first element that satisfies [p]. *)
Fixpoint find_index {A : Type} (p : A -> bool) (l : list A) : option nat :=
  match l with
  | [] => None
  | x :: l' => if p x then Some 0 else option_map S (find_index p l')
  end.

Definition is_params_table (check_headers : list string) : bool :=
  any_contains
    ["Sample:"; "Project:"; "Operator:"; "Test Configuration:";
     "Operating mode:"] check_headers.

Definition is_measurement_table (check_headers : list string) : bool :=
  any_contains
    ["Frequency"; "CISPR"; "Peak"; "Q-Peak"; "Lim.Avg"; "Lim.Q-Peak";
     "Lim.Peak"] check_headers.

(** The duplicate key [f"{freq}_{mes}"] of a measurement. *)
Definition dup_key (m : Measurement) : string :=
  str_of_val (dict_get_default "Frequency (MHz)" (VStr EmptyString) m)
    ++ "_"
    ++ str_of_val (dict_get_default "Mesure (dBµV/m)" (VStr EmptyString) m).

(** One turn of the inner loop: [measure] is appended unless its key is
    among the keys of the measurements accumulated so far. *)
Definition add_measure (measurements : list Measurement)
    (measure : Measurement) : list Measurement :=
  let key := dup_key measure in
  let existing_keys := map dup_key measurements in
  if existsb (String.eqb key) existing_keys then measurements
  else measurements ++ [measure].

Definition add_measures (measurements table_measurements : list Measurement)
  : list Measurement :=
  fold_left add_measure table_measurements measurements.

(** The backward loop over [check_idx], on the tables before the target
    listed from the nearest one. *)
Fixpoint scan_back (before : list Table) (sample_id : string)
    (measurements : list Measurement) : result (list Measurement) :=
  match before with
  | [] => Ok measurements
  | check_table :: before' =>
      match check_table with
      | [] => Raise IndexError
      | header_row :: _ =>
          let check_headers := map strip header_row in
          if is_params_table check_headers then Ok measurements
          else if is_measurement_table check_headers then
            scan_back before' sample_id
              (add_measures measurements
                 (extract_measurements_from_table check_table sample_id))
          else Ok measurements
      end
  end.

Definition extract_measurements_for_configuration (doc : Document)
    (sample_id config_name : string) : result (list Measurement) :=
  match find_index (declares config_name) doc with
  | None => Ok []
  | Some target_table_idx =>
      scan_back (List.rev (firstn target_table_idx doc)) sample_id []
  end.

(** *** The backward loop, restated

    The two tests of the loop on a table, the run of tables it reads
    and the search of the target folded into one pass: what the lemmas
    on [scan_back] are stated with. *)

(** The header texts the loop tests: the trimmed cells of row 0. *)
Definition header_texts (table : Table) : list string :=
  match table with
  | header_row :: _ => map strip header_row
  | [] => []
  end.

(** A table the loop collects from, by the loop's own two tests
    [is_params_table] and [is_measurement_table] on its row 0. *)
Definition is_measurement_block (table : Table) : bool :=
  negb (is_params_table (header_texts table))
  && is_measurement_table (header_texts table).



(** The search of the target table and the backward loop in one pass:
    [seen] holds the tables passed so far, the nearest first. *)
Fixpoint find_and_scan (config_name sample_id : string)
    (seen rest : list Table) : result (list Measurement) :=
  match rest with
  | [] => Ok []
  | table :: rest' =>
      if declares config_name table then scan_back seen sample_id []
      else find_and_scan config_name sample_id (table :: seen) rest'
  end.

(** *** The groups of [extract_data]

    [sample_groups[sample_id].append(config)], after the key is
    created when it is missing. *)

Definition group_step (sample_groups : dict (list Config)) (config : Config)
  : dict (list Config) :=
  dict_set (sample_id config)
    (dict_get_default (sample_id config) [] sample_groups ++ [config])
    sample_groups.

End Parser.

(** ** [rules.py]: margins, verdicts and section summaries *)

Module Rules.
Import PyStr.

(** [{k.lower(): k for k in m.keys()}] *)
Definition lowered_keys (m : Measurement) : dict string :=
  fold_left (fun keys kv => dict_set (lower (fst kv)) (fst kv) keys) m [].

(** [next((keys[k] for k in keys if p(k)), None)] *)
Definition next_key (p : string -> bool) (keys : dict string)
  : option string :=
  match find (fun kv => p (fst kv)) keys with
  | Some (_, original) => Some original
  | None => None
  end.

Definition col_mesure (m : Measurement) : option string :=
  next_key (fun k => contains "cispr" k || contains "mesure" k)
    (lowered_keys m).

Definition col_limite (m : Measurement) : option string :=
  next_key (fun k => contains "limit" k || contains "limite" k)
    (lowered_keys m).

(** Truth value of an optional text: neither [None] nor empty. *)
Definition truthy (o : option string) : bool :=
  match o with
  | Some s => negb (String.eqb s EmptyString)
  | None => false
  end.

(** [float(v)]; [None] stands for the exception it raises. *)
Definition to_float (v : Val) : option PyFloat.float :=
  match v with
  | VFloat x => Some x
  | VStr s => PyFloat.float_of_str s
  end.

(** [float(m[col])]; [None] stands for any exception raised. *)
Definition float_at (col : string) (m : Measurement)
  : option PyFloat.float :=
  match dict_get col m with
  | Some v => to_float v
  | None => None
  end.

(** [m.get("Margin (dB)", "N/A")] *)
Definition existing_margin (m : Measurement) : Val :=
  dict_get_default "Margin (dB)" (VStr "N/A") m.

(** The value [marge] of one turn of the loop. *)
Definition marge (m : Measurement) : Val :=
  let col_mesure := col_mesure m in
  let col_limite := col_limite m in
  if truthy col_mesure && truthy col_limite then
    match col_mesure, col_limite with
    | Some cm, Some cl =>
        match float_at cm m with
        | Some mesure =>
            match float_at cl m with
            | Some limite =>
                VFloat (PyFloat.round2 (PyFloat.sub limite mesure))
            | None => existing_margin m
            end
        | None => existing_margin m
        end
    | _, _ => existing_margin m
    end
  else existing_margin m.

Definition conformity (marge : Val) : string :=
  match marge with
  | VFloat x => if PyFloat.ge0 x then "OK" else "NOK"
  | VStr _ => "-"
  end.

(** One turn of the loop of [process_data]. *)
Definition process_row (m : Measurement) : Measurement :=
  let new_row := m in
  let marge := marge m in
  let new_row := dict_set "Margin (dB)" marge new_row in
  let new_row := dict_set "Overtaking (dB)" (VStr "-") new_row in
  dict_set "Conformity" (VStr (conformity marge)) new_row.

Definition process_data (measurements : list Measurement)
  : list Measurement :=
  map process_row measurements.

(** Equality of two section keys: texts by content, floats by [==];
    a text never equals a float. *)
Definition key_eqb (a b : Val) : bool :=
  match a, b with
  | VStr s, VStr t => String.eqb s t
  | VFloat x, VFloat y => PyFloat.eqb x y
  | _, _ => false
  end.

(** [sections.setdefault(sec, []).append(r)] *)
Fixpoint setdefault_append (sec : Val) (r : Measurement)
    (sections : list (Val * list Measurement))
  : list (Val * list Measurement) :=
  match sections with
  | [] => [(sec, [r])]
  | (k, rows) :: sections' =>
      if key_eqb k sec then (k, rows ++ [r]) :: sections'
      else (k, rows) :: setdefault_append sec r sections'
  end.

Definition detector (r : Measurement) : Val :=
  dict_get_default "Detector type" (VStr "Unknown") r.

Definition group_sections (processed_rows : list Measurement)
  : list (Val * list Measurement) :=
  fold_left (fun sections r => setdefault_append (detector r) r sections)
    processed_rows [].

Record SectionSummary : Type := mkSummary {
  section : Val;
  nb_lines : nat;
  nb_fail : nat;
  verdict : string
}.

(** [str(rr.get("Conformity", empty)).upper() == "NOK"], where [empty]
    is the empty text. *)
Definition is_nok (rr : Measurement) : bool :=
  String.eqb
    (upper (str_of_val (dict_get_default "Conformity" (VStr EmptyString) rr)))
    "NOK".

(** One turn of the summary loop: the state is [(summary, all_pass)]. *)
Definition summary_step (state : list SectionSummary * bool)
    (entry : Val * list Measurement) : list SectionSummary * bool :=
  let '(summary, all_pass) := state in
  let '(sec, rows) := entry in
  let fails := List.length (filter is_nok rows) in
  let verdict := if Nat.eqb fails 0 then "OK" else "NOK" in
  let all_pass := all_pass && String.eqb verdict "OK" in
  (summary ++ [mkSummary sec (List.length rows) fails verdict], all_pass).

Definition compute_section_and_global (processed_rows : list Measurement)
  : list SectionSummary * string :=
  let sections := group_sections processed_rows in
  let '(summary, all_pass) := fold_left summary_step sections ([], true) in
  (summary, if all_pass then "OK" else "NOK").

(** *** Vocabulary of the statements about the rule engine *)

(** The Measure and the Limit of a measurement: the values under the
    two keys the row extractor files them under. *)
Definition measure_of (m : Measurement) : option Val :=
  dict_get "Mesure (dBµV/m)" m.

Definition limit_of (m : Measurement) : option Val :=
  dict_get "Limite (dBµV/m)" m.

(** The number a value stands for, when it is numeric: a number, or a
    text that [float] reads. *)
Definition number_of (o : option Val) : option PyFloat.float :=
  match o with
  | Some v => to_float v
  | None => None
  end.

(** The name [k] holds one of [words], in any case of letters. *)
Definition named_like (words : list string) (k : string) : bool :=
  existsb (fun w => contains w (lower k)) words.

(** No column of [m] other than its Measure has a name that holds
    cispr or mesure, and none other than its Limit a name that holds
    limit. *)
Definition plain_columns (m : Measurement) : bool :=
  forallb
    (fun k =>
       (negb (named_like ["cispr"; "mesure"] k)
        || String.eqb k "Mesure (dBµV/m)")
       && (negb (named_like ["limit"; "limite"] k)
           || String.eqb k "Limite (dBµV/m)"))
    (map fst m).

Definition is_text (v : Val) : bool :=
  match v with
  | VStr _ => true
  | VFloat _ => false
  end.

(** [r] belongs to the section named [sec]. *)
Definition in_section (sec : Val) (r : Measurement) : bool :=
  key_eqb sec (detector r).

(** The verdict stored in [r] is the text [res]. *)
Definition has_conformity (res : string) (r : Measurement) : bool :=
  match dict_get "Conformity" r with
  | Some (VStr s) => String.eqb s res
  | _ => false
  end.

Definition count_rows (p : Measurement -> bool) (rows : list Measurement)
  : nat :=
  List.length (filter p rows).

(** The summary entry of one section. *)
Definition summarize (entry : Val * list Measurement) : SectionSummary :=
  let fails := List.length (filter is_nok (snd entry)) in
  mkSummary (fst entry) (List.length (snd entry)) fails
    (if Nat.eqb fails 0 then "OK" else "NOK").

(** [sections] groups [rows] by detector: one entry per detector found,
    holding the rows of that detector in their order. *)
Definition grouped (rows : list Measurement)
    (sections : list (Val * list Measurement)) : Prop :=
  NoDup (map fst sections)
  /\ (forall k g, In (k, g) sections ->
        is_text k = true /\ g = filter (in_section k) rows)
  /\ (forall r, In r rows -> In (detector r) (map fst sections)).

End Rules.

(** ** [main.py]: the rule engine applied to a configuration

    The body of the loop of [main] over the configurations of a
    sample; the loop over the samples is in [Run]. *)

Module Main.
Import Parser Rules.

Definition Summaries : Type := list SectionSummary * string.

Definition config_step (config_measurements : dict (list Measurement))
    (state : dict (list Measurement) * dict Summaries) (config : Config)
  : dict (list Measurement) * dict Summaries :=
  let '(sample_processed_data, sample_summaries) := state in
  let measurements :=
    dict_get_default (config_name config) [] config_measurements in
  let processed := process_data measurements in
  (dict_set (config_name config) processed sample_processed_data,
   dict_set (config_name config) (compute_section_and_global processed)
     sample_summaries).

End Main.

(** ** Sample inputs *)

Module Samples.
Import Parser.

(** The floats written [30.0], [40.5], [45.0] and [4.5]. *)
Definition f30_0 : PyFloat.float := PyFloat.of_decimal false 300 (-1).
Definition f40_5 : PyFloat.float := PyFloat.of_decimal false 405 (-1).
Definition f45_0 : PyFloat.float := PyFloat.of_decimal false 450 (-1).
Definition f4_5 : PyFloat.float := PyFloat.of_decimal false 45 (-1).

Definition the_sample : string := "CRE2-2025-TP002-02".
Definition the_config : string := "ER_In front of harness RBW 9kHz".

(** A measurement table with one data row, and the parameter table
    that names the test. *)
Definition avg_table : Table :=
  [ ["Frequency (MHz)"; "CISPR.AVG"; "Lim.Avg"; "CISPR.AVG-Lim.Avg"];
    ["30.000"; "40,5"; "45,0"; "4,5"] ].

Definition name_table : Table :=
  [ ["Name Test:"; "CRE2-2025-TP002-02_ER_In front of harness RBW 9kHz"] ].

Definition avg_document : Document := [avg_table; name_table].

(** The measurement the row extractor builds from [avg_table]. *)
Definition avg_row : Measurement :=
  [ ("Sample ID", VStr the_sample);
    ("Comment", VStr "-");
    ("Section", VStr "CISPR.AVG");
    ("Frequency (MHz)", VFloat f30_0);
    ("Mesure (dBµV/m)", VFloat f40_5);
    ("Detector type", VStr "CISPR.AVG");
    ("Limite (dBµV/m)", VFloat f45_0);
    ("Margin (dB)", VFloat f4_5) ].

(** The same table with a dash in the measure cell, and its row. *)
Definition dash_table : Table :=
  [ ["Frequency (MHz)"; "CISPR.AVG"; "Lim.Avg"; "CISPR.AVG-Lim.Avg"];
    ["30.000"; "-"; "45,0"; "4,5"] ].

Definition dash_row : Measurement :=
  [ ("Sample ID", VStr the_sample);
    ("Comment", VStr "-");
    ("Section", VStr "CISPR.AVG");
    ("Frequency (MHz)", VFloat f30_0);
    ("Mesure (dBµV/m)", VStr "-");
    ("Detector type", VStr "CISPR.AVG");
    ("Limite (dBµV/m)", VFloat f45_0);
    ("Margin (dB)", VFloat f4_5) ].

(** A row above its limit, a Peak row without measure nor margin, and
    a list that mixes the three kinds of rows. *)
Definition over_row : Measurement :=
  [ ("Sample ID", VStr the_sample);
    ("Comment", VStr "-");
    ("Section", VStr "CISPR.AVG");
    ("Frequency (MHz)", VFloat f40_5);
    ("Mesure (dBµV/m)", VFloat f45_0);
    ("Detector type", VStr "CISPR.AVG");
    ("Limite (dBµV/m)", VFloat f40_5) ].

Definition blank_row : Measurement :=
  [ ("Sample ID", VStr the_sample);
    ("Comment", VStr "-");
    ("Section", VStr "Peak");
    ("Frequency (MHz)", VFloat f30_0);
    ("Mesure (dBµV/m)", VStr "-");
    ("Detector type", VStr "Peak");
    ("Limite (dBµV/m)", VFloat f45_0) ].

Definition mixed_rows : list Measurement := [avg_row; over_row; blank_row].

(** A parameter table whose test name carries text before the
    SampleID. *)
Definition relaxed_name_table : Table :=
  [ ["Name Test:";
     "RAW CRE2-2025-TP002-02_ER_In front of harness RBW 9kHz"] ].

(** [avg_row] after the rule engine. *)
Definition avg_processed : Measurement :=
  avg_row ++ [ ("Overtaking (dB)", VStr "-"); ("Conformity", VStr "OK") ].

(** Two parameter tables that declare the configurations "X" and
    "Y", a second measurement table, and the document that alternates
    them. *)
Definition other_table : Table :=
  [ ["Frequency (MHz)"; "CISPR.AVG"; "Lim.Avg"; "CISPR.AVG-Lim.Avg"];
    ["50.000"; "20,0"; "45,0"; "25,0"] ].

Definition params_x : Table :=
  [ ["Sample:"; "CRE2-2025-TP002-01"];
    ["Name Test:"; "CRE2-2025-TP002-01_X"] ].

Definition params_y : Table :=
  [ ["Sample:"; "CRE2-2025-TP002-02"];
    ["Name Test:"; "CRE2-2025-TP002-02_Y"] ].


(** The floats written [50.0] and [-10.5]. *)
Definition f50_0 : PyFloat.float := PyFloat.of_decimal false 500 (-1).
Definition f10_5_neg : PyFloat.float := PyFloat.of_decimal true 105 (-1).

(** A table with an "Applied limit" column before the measure and the
    limit, and the rows the row extractor builds from it. *)
Definition applied_limit_table : Table :=
  [ ["Frequency (MHz)"; "Applied limit"; "CISPR.AVG"; "Lim.Avg"];
    ["30.000"; "CISPR 25"; "40,5"; "45,0"];
    ["50.000"; "30"; "40,5"; "45,0"] ].

Definition applied_limit_row (frequency : PyFloat.float) (applied : string)
  : Measurement :=
  [ ("Sample ID", VStr the_sample);
    ("Comment", VStr "-");
    ("Section", VStr "CISPR.AVG");
    ("Frequency (MHz)", VFloat frequency);
    ("Applied limit", VStr applied);
    ("Mesure (dBµV/m)", VFloat f40_5);
    ("Detector type", VStr "CISPR.AVG");
    ("Limite (dBµV/m)", VFloat f45_0) ].











End Samples.

(** ** [parser_mod.py]: the test parameters of a configuration

    [extract_test_params_for_configuration], without its debug
    printing.  The cell texts are never [None].  Whitespace is the
    ASCII whitespace; the no-break space is the one the function
    replaces by a space before it splits. *)

Module Params.
Import PyStr Parser.

(** The exceptions of this part of the code: [parts[1]] on a split
    that found no separator, an item assignment on a text, and a key
    that a dict does not hold. *)
Inductive error : Type := IndexError | TypeError | KeyError.

Inductive outcome (A : Type) : Type :=
  | Return (a : A)
  | Throw (e : error).
Arguments Return {A} a.
Arguments Throw {A} e.

Definition and_then {A B : Type} (r : outcome A) (k : A -> outcome B)
  : outcome B :=
  match r with
  | Return a => k a
  | Throw e => Throw e
  end.

Notation "x <~ c1 ;; c2" := (and_then c1 (fun x => c2))
  (at level 61, c1 at next level, right associativity).

(** The outcome of a call of the measurement extraction. *)
Definition of_result {A : Type} (r : result A) : outcome A :=
  match r with
  | Ok a => Return a
  | Raise Parser.IndexError => Throw IndexError
  end.

(** [l[i]] *)
Definition item {A : Type} (l : list A) (i : nat) : outcome A :=
  match nth_error l i with
  | Some x => Return x
  | None => Throw IndexError
  end.

(** *** Text operations *)

(** The no-break space and the zero-width space, in UTF-8. *)
Definition nbsp : string :=
  String (ascii_of_nat 194) (String (ascii_of_nat 160) EmptyString).
Definition zwsp : string :=
  String (ascii_of_nat 226)
    (String (ascii_of_nat 128) (String (ascii_of_nat 139) EmptyString)).
Definition tab : string := String (ascii_of_nat 9) EmptyString.
Definition cr : string := String (ascii_of_nat 13) EmptyString.

(** [s.split()]: the maximal runs of characters that are not
    whitespace. *)
Fixpoint split_ws (s : string) : list string :=
  match s with
  | EmptyString => []
  | String c s' =>
      if is_space c then split_ws s'
      else match s' with
           | EmptyString => [String c EmptyString]
           | String c' _ =>
               if is_space c' then String c EmptyString :: split_ws s'
               else match split_ws s' with
                    | w :: ws => String c w :: ws
                    | [] => [String c EmptyString]
                    end
           end
  end.

(** [s[n:]] *)
Fixpoint drop (n : nat) (s : string) : string :=
  match n, s with
  | S n', String _ s' => drop n' s'
  | _, _ => s
  end.

(** [s.split(sep, 1)] for a non-empty [sep]: the texts before and
    after the leftmost occurrence of [sep], or [s] alone. *)
Fixpoint split1 (sep s : string) {struct s} : list string :=
  if String.prefix sep s then [EmptyString; drop (String.length sep) s]
  else match s with
       | EmptyString => [EmptyString]
       | String c s' =>
           match split1 sep s' with
           | p :: ps => String c p :: ps
           | [] => [String c EmptyString]
           end
       end.

Fixpoint lstrip_char (c : ascii) (s : string) : string :=
  match s with
  | EmptyString => EmptyString
  | String a s' => if Ascii.eqb a c then lstrip_char c s' else s
  end.

(** [s.rstrip(c)] for a one-character [c] *)
Definition rstrip_char (c : ascii) (s : string) : string :=
  rev (lstrip_char c (rev s)).

Definition normalize_text (s : string) : string :=
  let s := replace nbsp " " s in
  let s := replace zwsp "" s in
  let s := replace tab " " s in
  let s := replace cr " " s in
  let s := replace newline " " s in
  let s := join " " (split_ws s) in
  strip s.

Definition normalize_key (k : string) : string :=
  strip (replace ":" "" (lower (normalize_text k))).

(** *** The parameters *)

(** A value of [test_params]: a text, or the dict under
    "OtherParams". *)
Inductive PVal : Type :=
  | PStr (s : string)
  | PDict (d : dict string).

Definition TestParams : Type := dict PVal.

Definition keywords : list string :=
  ["sample"; "project"; "operator"; "test configuration";
   "operating mode"; "conclusion"; "rbw"; "span"; "reference level"].

(** The normalised texts of all the cells of a table, joined by
    spaces, in lower case. *)
Definition table_text (table : Table) : string :=
  lower (join " " (map normalize_text (List.concat table))).

Definition is_candidate (table : Table) : bool :=
  existsb (fun kw => contains kw (table_text table)) keywords.

Definition candidate_tables (doc : Document) : list Table :=
  filter is_candidate doc.

(** [for j in range(1, len(cells))]: the first of the other cells that
    is not blank, else the empty text. *)
Definition first_text (others : list string) : string :=
  match find (fun c => negb (String.eqb (strip c) EmptyString)) others with
  | Some c => c
  | None => EmptyString
  end.

(** The key and value texts of a row of cells [cell0 :: others]. *)
Definition key_value (cell0 : string) (others : list string)
  : outcome (string * string) :=
  let alone :=
    if contains ":" cell0 then
      let parts := split1 ":" cell0 in
      key_text <~ item parts 0 ;;
      value_text <~ item parts 1 ;;
      Return (key_text, value_text)
    else Return (cell0, first_text others) in
  match others with
  | cell1 :: _ =>
      if negb (String.eqb (strip cell1) EmptyString)
      then Return (cell0, cell1)
      else alone
  | [] => alone
  end.

(** [test_params.setdefault("OtherParams", {})[key_norm] = value_norm] *)
Definition set_other (test_params : TestParams) (key_norm value_norm : string)
  : outcome TestParams :=
  match dict_get "OtherParams" test_params with
  | None =>
      Return (dict_set "OtherParams" (PDict (dict_set key_norm value_norm []))
                test_params)
  | Some (PDict d) =>
      Return (dict_set "OtherParams" (PDict (dict_set key_norm value_norm d))
                test_params)
  | Some (PStr _) => Throw TypeError
  end.

(** The mapping of a key to a parameter. *)
Definition store (test_params : TestParams) (key_norm value_norm : string)
  : outcome TestParams :=
  if contains "sample" key_norm then
    Return (dict_set "Sample ID" (PStr value_norm) test_params)
  else if contains "project" key_norm then
    Return (dict_set "Project" (PStr value_norm) test_params)
  else if contains "operator" key_norm then
    Return (dict_set "Operator" (PStr value_norm) test_params)
  else if contains "test configuration" key_norm
          || contains "test cfg" key_norm then
    Return (dict_set "Test Configuration" (PStr value_norm) test_params)
  else if contains "operating mode" key_norm
          || String.prefix "mode" key_norm then
    let low := lower value_norm in
    if contains "conclusion" low then
      let parts := split1 "conclusion" value_norm in
      mode <~ item parts 0 ;;
      let test_params :=
        dict_set "Operating mode"
          (PStr (rstrip_char "," (strip (replace ":" "" mode)))) test_params in
      after <~ item parts 1 ;;
      let rest := strip (replace ":" "" after) in
      if negb (String.eqb rest EmptyString)
      then Return (dict_set "Conclusion" (PStr rest) test_params)
      else Return test_params
    else Return (dict_set "Operating mode" (PStr value_norm) test_params)
  else if contains "conclusion" key_norm then
    Return (dict_set "Conclusion" (PStr value_norm) test_params)
  else if String.eqb "rbw" key_norm || contains "rbw" key_norm then
    Return (dict_set "RBW" (PStr value_norm) test_params)
  else if contains "span" key_norm then
    Return (dict_set "Span" (PStr value_norm) test_params)
  else if contains "reference" key_norm && contains "level" key_norm then
    Return (dict_set "Reference level" (PStr value_norm) test_params)
  else set_other test_params key_norm value_norm.

(** The body of the row loop; the state is [test_params] and
    [found_any]. *)
Definition param_row (state : TestParams * bool) (row : Row)
  : outcome (TestParams * bool) :=
  let cells := map normalize_text row in
  if negb (any_text cells) then Return state
  else
    match cells with
    | [] => Throw IndexError
    | cell0 :: others =>
        kv <~ key_value cell0 others ;;
        let key_norm := normalize_key (fst kv) in
        let value_norm := normalize_text (snd kv) in
        if String.eqb value_norm EmptyString then Return state
        else
          test_params <~ store (fst state) key_norm value_norm ;;
          Return (test_params, true)
    end.

Fixpoint scan_rows (rows : list Row) (state : TestParams * bool)
  : outcome (TestParams * bool) :=
  match rows with
  | [] => Return state
  | row :: rows' =>
      state' <~ param_row state row ;;
      scan_rows rows' state'
  end.

(** The loop over the candidate tables: it is left after the first
    table that gave a value. *)
Fixpoint scan_tables (tables : list Table) (state : TestParams * bool)
  : outcome (TestParams * bool) :=
  match tables with
  | [] => Return state
  | table :: tables' =>
      state' <~ scan_rows table state ;;
      if snd state' then Return state' else scan_tables tables' state'
  end.

(** [k not in test_params] *)
Definition absent (k : string) (test_params : TestParams) : bool :=
  match dict_get k test_params with
  | Some _ => false
  | None => true
  end.

(** The body of the global pass over all the cells. *)
Definition fallback_cell (test_params : TestParams) (text : string)
  : outcome TestParams :=
  let txt := normalize_text text in
  if contains ":" txt then
    let parts := split1 ":" txt in
    key_text <~ item parts 0 ;;
    let k := normalize_key key_text in
    value_text <~ item parts 1 ;;
    let v := normalize_text value_text in
    if String.eqb v EmptyString then Return test_params
    else if contains "project" k && absent "Project" test_params then
      Return (dict_set "Project" (PStr v) test_params)
    else if contains "operator" k && absent "Operator" test_params then
      Return (dict_set "Operator" (PStr v) test_params)
    else if contains "test configuration" k
            && absent "Test Configuration" test_params then
      Return (dict_set "Test Configuration" (PStr v) test_params)
    else if contains "operating mode" k
            && absent "Operating mode" test_params then
      Return (dict_set "Operating mode" (PStr v) test_params)
    else if contains "conclusion" k && absent "Conclusion" test_params then
      Return (dict_set "Conclusion" (PStr v) test_params)
    else Return test_params
  else Return test_params.

Fixpoint fallback (cells : list string) (test_params : TestParams)
  : outcome TestParams :=
  match cells with
  | [] => Return test_params
  | text :: cells' =>
      test_params' <~ fallback_cell test_params text ;;
      fallback cells' test_params'
  end.

Definition initial_params (sample_id config_name : string) : TestParams :=
  [ ("Sample ID", PStr sample_id); ("Configuration", PStr config_name) ].

Definition extract_test_params_for_configuration (doc : Document)
    (sample_id config_name : string) : outcome TestParams :=
  state <~ scan_tables (candidate_tables doc)
             (initial_params sample_id config_name, false) ;;
  if snd state then Return (fst state)
  else fallback (List.concat (List.concat doc)) (fst state).

End Params.

(** ** [parser_mod.py] and [main.py]: the whole extraction and the
    loop that applies the rule engine

    [extract_data] with the test parameters it stores next to the
    measurements, and the loop of [main] over its result.  The entry of
    a sample is the dict of three keys the source builds.  Reading the
    document from its file, the logging and the exports that follow the
    loop are left out. *)

Module Run.
Import Parser Rules Params.

(** The values of the entry of a sample. *)
Inductive Field : Type :=
  | Configurations (configs : list Config)
  | ConfigMeasurements (config_measurements : dict (list Measurement))
  | ConfigTestParams (config_test_params : dict TestParams).

Definition SampleEntry : Type := dict Field.

(** The loop over the configurations of a sample: the test parameters
    are extracted before the measurements. *)
Fixpoint configs_loop (doc : Document) (sample_id : string)
    (configs : list Config)
    (state : dict (list Measurement) * dict TestParams)
  : outcome (dict (list Measurement) * dict TestParams) :=
  match configs with
  | [] => Return state
  | config :: configs' =>
      let config_name := config_name config in
      test_params <~
        extract_test_params_for_configuration doc sample_id config_name ;;
      measurements <~
        of_result
          (extract_measurements_for_configuration doc sample_id config_name) ;;
      configs_loop doc sample_id configs'
        (dict_set config_name measurements (fst state),
         dict_set config_name test_params (snd state))
  end.

Definition sample_entry (configs : list Config)
    (state : dict (list Measurement) * dict TestParams) : SampleEntry :=
  [ ("configurations", Configurations configs);
    ("config_measurements", ConfigMeasurements (fst state));
    ("config_test_params", ConfigTestParams (snd state)) ].

Fixpoint samples_loop (doc : Document) (groups : dict (list Config))
    (all_samples_data : dict SampleEntry) : outcome (dict SampleEntry) :=
  match groups with
  | [] => Return all_samples_data
  | (sample_id, configs) :: groups' =>
      state <~ configs_loop doc sample_id configs ([], []) ;;
      samples_loop doc groups'
        (dict_set sample_id (sample_entry configs state) all_samples_data)
  end.

Definition extract_data (doc : Document) : outcome (dict SampleEntry) :=
  let all_configurations := extract_all_configurations doc in
  let sample_groups := fold_left group_step all_configurations [] in
  samples_loop doc sample_groups [].

(** [d[k]] *)
Definition getitem {V : Type} (k : string) (d : dict V) : outcome V :=
  match dict_get k d with
  | Some v => Return v
  | None => Throw KeyError
  end.

Definition Processed : Type := dict (dict (list Measurement)).
Definition AllSummaries : Type := dict (dict Main.Summaries).

(** The body of the loop of [main] over the samples.  A value that is
    not of the type the loop uses it at cannot be iterated or asked
    for a key. *)
Definition sample_step (state : Processed * AllSummaries)
    (entry : string * SampleEntry) : outcome (Processed * AllSummaries) :=
  let '(sample_id, sample_data) := entry in
  test_params <~ getitem "test_params" sample_data ;;
  config_measurements <~ getitem "config_measurements" sample_data ;;
  configurations <~ getitem "configurations" sample_data ;;
  match config_measurements, configurations with
  | ConfigMeasurements measurements, Configurations configs =>
      let '(sample_processed_data, sample_summaries) :=
        fold_left (Main.config_step measurements) configs ([], []) in
      Return (dict_set sample_id sample_processed_data (fst state),
              dict_set sample_id sample_summaries (snd state))
  | _, _ => Throw TypeError
  end.

Fixpoint samples_steps (all_samples_data : dict SampleEntry)
    (state : Processed * AllSummaries) : outcome (Processed * AllSummaries) :=
  match all_samples_data with
  | [] => Return state
  | entry :: rest =>
      state' <~ sample_step state entry ;;
      samples_steps rest state'
  end.

(** [main], from the extraction to the end of the loop. *)
Definition main (doc : Document) : outcome (Processed * AllSummaries) :=
  all_samples_data <~ extract_data doc ;;
  samples_steps all_samples_data ([], []).

End Run.

(** ** Vocabulary of the further statements *)

Module Vocabulary.
Import PyStr Parser Rules.

(** Every character of [s] satisfies [p]. *)
Fixpoint all_chars (p : ascii -> bool) (s : string) : bool :=
  match s with
  | EmptyString => true
  | String c s' => p c && all_chars p s'
  end.

Definition not_underscore (c : ascii) : bool := negb (Ascii.eqb c "_").

Definition item_not_underscore (it : ritem) : bool :=
  match it with
  | Lit c => not_underscore c
  | Digit => true
  end.

(** [s] is a SampleID of the grammar, possibly followed by one
    newline: the texts the anchored match accepts. *)
Definition is_sample_id (s : string) : Prop :=
  exists rest,
    match_items sample_id_pattern s = Some rest
    /\ (rest = EmptyString \/ rest = newline).

(** The header row of [table] holds a measurement keyword once
    normalised: the test of [extract_measurements_from_table]. *)
Definition has_measure_headers (table : Table) : bool :=
  any_contains ["frequency"; "cispr"; "peak"; "q-peak"; "lim"; "margin"]
    (map lower (normalized_headers (hd [] table))).

(** The measurement of one data row of [table]. *)
Definition measurement_of_row (table : Table) (sample_id : string)
    (row : Row) : Measurement :=
  map_columns (row_init sample_id) (normalized_headers (hd [] table)) 0
    (map strip row).

Definition not_blank (row : Row) : bool := any_text (map strip row).

(** Two measurements with the same keys in the same order and the same
    values, except possibly under "Sample ID". *)
Definition same_but_tag (m m' : Measurement) : Prop :=
  map fst m = map fst m'
  /\ forall k, k <> "Sample ID" -> dict_get k m = dict_get k m'.

(** Two outcomes of an extraction that agree up to the tag. *)
Definition same_outcome (r r' : result (list Measurement)) : Prop :=
  match r, r' with
  | Ok ms, Ok ms' => Forall2 same_but_tag ms ms'
  | Raise e, Raise e' => e = e'
  | _, _ => False
  end.

(** The tables of [doc] that come before its first table declaring
    [config_name]; none when no table declares it. *)
Definition tables_before (config_name : string) (doc : Document)
  : list Table :=
  match find_index (declares config_name) doc with
  | Some i => firstn i doc
  | None => []
  end.

(** The three keys the rule engine writes. *)
Definition engine_keys : list string :=
  ["Margin (dB)"; "Overtaking (dB)"; "Conformity"].

(** Number of rows over all the sections, and number of fails. *)
Definition total_lines (summary : list SectionSummary) : nat :=
  list_sum (map nb_lines summary).

Definition total_fails (summary : list SectionSummary) : nat :=
  list_sum (map nb_fail summary).

(** The configurations of [configs] that belong to the sample [sid]. *)
Definition configs_of_sample (sid : string) (configs : list Config)
  : list Config :=
  filter (fun c => String.eqb (sample_id c) sid) configs.

(** What [extract_measurements_for_configuration] returns, when it
    returns. *)
Definition measurements_for (doc : Document) (sid name : string)
  : option (list Measurement) :=
  match extract_measurements_for_configuration doc sid name with
  | Ok ms => Some ms
  | Raise _ => None
  end.

(** What [replace(",", ".")] does to a character. *)
Definition comma_to_point (c : ascii) : ascii :=
  if Ascii.eqb c "," then "."%char else c.

(** Texts of the ASCII range, and the rows, tables and documents made
    of them.  On such texts [strip], [lower] and the digits of the
    SampleID pattern are those of Python; beyond them Python also
    trims the whitespace of Unicode, such as the no-break space, and
    accepts its other decimal digits. *)
Definition is_ascii (c : ascii) : bool := (nat_of_ascii c <? 128)%nat.

Definition ascii_text (s : string) : bool := all_chars is_ascii s.

Definition ascii_row (row : Row) : bool := forallb ascii_text row.

Definition ascii_table (table : Table) : bool := forallb ascii_row table.

Definition ascii_document (doc : Document) : bool :=
  forallb ascii_table doc.

End Vocabulary.

(** ** Vocabulary of the statements on the test parameters *)

Module ParamsVocabulary.
Import PyStr Parser Params.

(** The normalised key and value a row is read as; [None] for a row
    that is skipped: a blank row, or one without a value. *)
Definition reading (row : Row) : option (string * string) :=
  let cells := map normalize_text row in
  if any_text cells then
    match cells with
    | cell0 :: others =>
        match key_value cell0 others with
        | Return kv =>
            let v := normalize_text (snd kv) in
            if String.eqb v EmptyString then None
            else Some (normalize_key (fst kv), v)
        | Throw _ => None
        end
    | [] => None
    end
  else None.

Definition has_value (row : Row) : bool :=
  match reading row with
  | Some _ => true
  | None => false
  end.

(** The keys that reach the branch of the operating mode. *)
Definition is_mode_key (k : string) : bool :=
  negb (contains "sample" k) && negb (contains "project" k)
  && negb (contains "operator" k)
  && negb (contains "test configuration" k || contains "test cfg" k)
  && (contains "operating mode" k || String.prefix "mode" k).

(** An operating mode whose value spells "conclusion" with a capital
    letter somewhere, and nowhere in lower case. *)
Definition traps (k v : string) : bool :=
  is_mode_key k && contains "conclusion" (lower v)
  && negb (contains "conclusion" v).

Definition mode_trap (row : Row) : bool :=
  match reading row with
  | Some (k, v) => traps k v
  | None => false
  end.

(** The keys the row loop writes, and all the keys of a result. *)
Definition store_keys : list string :=
  ["Sample ID"; "Project"; "Operator"; "Test Configuration";
   "Operating mode"; "Conclusion"; "RBW"; "Span"; "Reference level"].

Definition param_keys : list string :=
  "Configuration" :: "OtherParams" :: store_keys.

(** "OtherParams" holds a dict, every other key a text. *)
Definition well_typed (test_params : TestParams) : Prop :=
  forall k v,
    dict_get k test_params = Some v ->
    match v with
    | PStr _ => k <> "OtherParams"
    | PDict _ => k = "OtherParams"
    end.

(** Two results that raise alike, or have the same keys in the same
    order and the same values except under "Sample ID" and
    "Configuration". *)
Definition akin (tp tp' : TestParams) : Prop :=
  map fst tp = map fst tp'
  /\ forall k, k <> "Sample ID" -> k <> "Configuration" ->
               dict_get k tp = dict_get k tp'.

Definition akin_outcomes (r r' : outcome TestParams) : Prop :=
  match r, r' with
  | Return tp, Return tp' => akin tp tp'
  | Throw e, Throw e' => e = e'
  | _, _ => False
  end.

Definition akin_states (st st' : TestParams * bool) : Prop :=
  akin (fst st) (fst st') /\ snd st = snd st'.

Definition akin_state_outcomes (r r' : outcome (TestParams * bool)) : Prop :=
  match r, r' with
  | Return st, Return st' => akin_states st st'
  | Throw e, Throw e' => e = e'
  | _, _ => False
  end.



(** [tp'] is [tp] after some writes of the loops: a text under one of
    the keys of the row loop, or a dict under "OtherParams". *)
Inductive writes (tp : TestParams) : TestParams -> Prop :=
  | writes_none : writes tp tp
  | writes_text (key x : string) (tp' : TestParams) :
      In key store_keys -> writes tp tp' ->
      writes tp (dict_set key (PStr x) tp')
  | writes_other (d : dict string) (tp' : TestParams) :
      writes tp tp' ->
      writes tp (dict_set "OtherParams" (PDict d) tp').

(** The rows of a table that raise: a trap that no trap precedes. *)
Definition first_trap (table : Table) : Prop :=
  exists before row after,
    table = before ++ row :: after
    /\ Forall (fun r => mode_trap r = false) before
    /\ mode_trap row = true.

(** A table none of whose rows has a value. *)
Definition silent (table : Table) : Prop :=
  Forall (fun r => has_value r = false) table.

(** The candidate tables reach a trap: silent tables, then a table
    with a first trap. *)
Definition reaches_trap (tables : list Table) : Prop :=
  exists quiet table rest,
    tables = quiet ++ table :: rest
    /\ Forall silent quiet
    /\ first_trap table.

(** What [extract_test_params_for_configuration] returns, when it
    returns. *)
Definition params_for (doc : Document) (sid name : string)
  : option TestParams :=
  match extract_test_params_for_configuration doc sid name with
  | Return tp => Some tp
  | Throw _ => None
  end.

(** The extraction of the parameters or of the measurements of a
    configuration raises. *)
Definition extraction_raises (doc : Document) (c : Config) : Prop :=
  extract_test_params_for_configuration doc (sample_id c) (config_name c)
  = Throw IndexError
  \/ extract_measurements_for_configuration doc (sample_id c) (config_name c)
     = Raise Parser.IndexError.

End ParamsVocabulary.

(** ** Vocabulary of the statements on the association

    Written from the words of the statements, not from the loop: the
    text of a block, the block a configuration is declared in, and the
    kinds of blocks by the words of their header row. *)

Module Blocks.
Import PyStr Utils Parser.











End Blocks.

(** * Properties *)

Example normalize_unit_composite :
  Utils.normalize_unit "CISPR.AVG-Lim.Avg (dB)" = "CISPR Avg-Limit Avg (dB)".
Proof. reflexivity. Qed.

(** ** Header normalisation *)

Section HeaderRules.
Import PyStr Utils.

Lemma first_match_in (rules : list (string * string)) (s std : string) :
  first_match rules s = Some std -> In std (map snd rules).
Proof.
  induction rules as [|[key std'] rules IH]; simpl; [discriminate|].
  destruct (contains key s).
  - intros [= ->]. now left.
  - intros H. right. now apply IH.
Qed.

Lemma first_match_none (rules : list (string * string)) (s : string) :
  (forall key, In key (map fst rules) -> contains key s = false) ->
  first_match rules s = None.
Proof.
  induction rules as [|[key std] rules IH]; simpl; intros H; [reflexivity|].
  rewrite (H key) by now left.
  apply IH. intros k Hk. apply H. now right.
Qed.

(** A rule that matches bounds the rule that wins: the winner is that
    rule or one listed before it. *)
Lemma first_match_before (front back : list (string * string))
    (key std s : string) :
  contains key s = true ->
  exists std', first_match (front ++ (key, std) :: back) s = Some std'
               /\ In std' (map snd front ++ [std]).
Proof.
  intros Hk. induction front as [|[k0 s0] front IH]; simpl.
  - rewrite Hk. exists std. split; [reflexivity | now left].
  - destruct (contains k0 s).
    + exists s0. split; [reflexivity | now left].
    + destruct IH as [std' [H1 H2]]. exists std'. split; [exact H1 | now right].
Qed.

Lemma canonical_labels_fixed :
  Forall (fun std => normalize_header std = std)
         (map snd priority_mappings).
Proof. repeat constructor. Qed.

Lemma composite_gives_margin (h_clean : string) :
  existsb (fun key => contains key h_clean) composite_margin_patterns = true ->
  first_match priority_mappings h_clean = Some "Margin (dB)".
Proof.
  unfold composite_margin_patterns, priority_mappings. simpl.
  repeat (destruct (contains _ h_clean); [reflexivity | simpl]).
  discriminate.
Qed.

End HeaderRules.

Section HeaderTheorems.
Import PyStr Utils.

(** C10. [normalize_header] is a total function that is idempotent:
    normalising a normalised header changes nothing; and a header whose
    cleaned text contains none of the patterns of the rule list is
    returned as it was given. *)
Theorem normalize_header_idempotent (h : string) :
  normalize_header (normalize_header h) = normalize_header h
  /\ ((forall key, In key (map fst priority_mappings) ->
         contains key (lower (strip h)) = false) ->
      normalize_header h = h).
Proof.
  split.
  - unfold normalize_header at 2 3.
    destruct (first_match priority_mappings (lower (strip h))) as [std|] eqn:E.
    + apply first_match_in in E.
      exact (proj1 (Forall_forall _ _) canonical_labels_fixed std E).
    + unfold normalize_header. now rewrite E.
  - intros H. unfold normalize_header.
    now rewrite (first_match_none _ _ H).
Qed.

Lemma normalize_header_idempotent_witness :
  normalize_header (normalize_header "S R") = normalize_header "S R"
  /\ normalize_header "S R" = "S R".
Proof.
  split.
  - exact (proj1 (normalize_header_idempotent "S R")).
  - apply (proj2 (normalize_header_idempotent "S R")).
    intros key Hk. simpl in Hk.
    repeat (destruct Hk as [<-|Hk]; [reflexivity|]). destruct Hk.
Defined.

(** C4. The header "CISPR.AVG-Lim.Avg (dB)", after the unit pass, gets
    the margin label.  In general the first rule that matches wins and
    the composite margin patterns come first: a header that contains one
    of them gets the margin label whatever limit or measurement pattern
    it also contains; and "q-peak" is tried before "peak", so a header
    that contains "q-peak" never gets the Peak label. *)
Theorem header_priority_ordering (h : string) :
  normalize_header (normalize_unit "CISPR.AVG-Lim.Avg (dB)") = "Margin (dB)"
  /\ (existsb (fun key => contains key (lower (strip h)))
        composite_margin_patterns = true ->
      normalize_header h = "Margin (dB)")
  /\ (contains "q-peak" (lower (strip h)) = true ->
      normalize_header h <> "Peak (dBµV/m)").
Proof.
  split; [reflexivity|]. split.
  - intros H. unfold normalize_header.
    now rewrite (composite_gives_margin _ H).
  - intros H. unfold normalize_header.
    destruct (first_match_before (firstn 10 priority_mappings)
                (skipn 11 priority_mappings) "q-peak" "Q-Peak (dBµV/m)"
                (lower (strip h)) H) as [std [E Hin]].
    change (firstn 10 priority_mappings
              ++ ("q-peak", "Q-Peak (dBµV/m)") :: skipn 11 priority_mappings)
      with priority_mappings in E.
    rewrite E. simpl in Hin.
    repeat (destruct Hin as [<-|Hin]; [discriminate|]). destruct Hin.
Qed.

Lemma header_priority_ordering_witness :
  normalize_header "Peak-Limit Peak (dB)" = "Margin (dB)"
  /\ normalize_header "Q-Peak (dBuV/m)" <> "Peak (dBµV/m)".
Proof.
  split.
  - apply (proj1 (proj2 (header_priority_ordering
                           "Peak-Limit Peak (dB)"))).
    reflexivity.
  - apply (proj2 (proj2 (header_priority_ordering "Q-Peak (dBuV/m)"))).
    reflexivity.
Defined.

End HeaderTheorems.

(** ** Dictionaries *)

Section DictFacts.
Context {V : Type}.

Lemma dict_get_set_same (k : string) (v : V) (d : dict V) :
  dict_get k (dict_set k v d) = Some v.
Proof.
  induction d as [|[k' v'] d IH]; simpl.
  - now rewrite String.eqb_refl.
  - destruct (String.eqb k' k) eqn:E; simpl; rewrite E; [reflexivity | exact IH].
Qed.

Lemma dict_get_set_other (k k' : string) (v : V) (d : dict V) :
  k' <> k -> dict_get k (dict_set k' v d) = dict_get k d.
Proof.
  intros Hne. induction d as [|[k0 v0] d IH]; simpl.
  - destruct (String.eqb k' k) eqn:E; [|reflexivity].
    apply String.eqb_eq in E. contradiction.
  - destruct (String.eqb k0 k') eqn:E'; simpl.
    + apply String.eqb_eq in E'. subst k0.
      destruct (String.eqb k' k) eqn:E; [|reflexivity].
      apply String.eqb_eq in E. contradiction.
    + now rewrite IH.
Qed.

End DictFacts.

(** ** The rule engine *)

Section RuleEngine.
Import PyStr Rules.

Lemma lower_empty (s : string) : lower s = EmptyString -> s = EmptyString.
Proof. destruct s; [reflexivity | discriminate]. Qed.

(** Every entry of the lowered key table maps the lower-case form of a
    key to that key. *)
Lemma lowered_keys_entries (m : Measurement) (lk original : string) :
  In (lk, original) (lowered_keys m) -> lk = lower original.
Proof.
  unfold lowered_keys.
  assert (G : forall (keys : dict string),
             (forall a b, In (a, b) keys -> a = lower b) ->
             forall a b,
               In (a, b)
                  (fold_left
                     (fun keys kv => dict_set (lower (fst kv)) (fst kv) keys)
                     m keys) ->
               a = lower b).
  { induction m as [|[k v] m IH]; simpl; intros keys Hk a b; [apply Hk|].
    apply IH. clear a b. intros a b.
    induction keys as [|[k0 o0] keys IHk]; simpl.
    - intros [[= <- <-]|[]]. reflexivity.
    - destruct (String.eqb k0 (lower k)) eqn:E; simpl.
      + apply String.eqb_eq in E. subst k0.
        intros [[= <- <-]|H]; [reflexivity|].
        apply Hk. now right.
      + intros [[= <- <-]|H].
        * apply Hk. now left.
        * apply IHk; [|exact H]. intros a' b' H'. apply Hk. now right. }
  apply G. intros a b [].
Qed.

Lemma next_key_found (p : string -> bool) (keys : dict string)
    (original : string) :
  next_key p keys = Some original ->
  exists lk, In (lk, original) keys /\ p lk = true.
Proof.
  unfold next_key.
  destruct (find (fun kv => p (fst kv)) keys) as [[lk o]|] eqn:E;
    [|discriminate].
  intros [= <-]. apply find_some in E. now exists lk.
Qed.

(** The column the engine selects has a name: the test
    [col_mesure and col_limite] holds as soon as both are found. *)
Lemma col_mesure_truthy (m : Measurement) (cm : string) :
  col_mesure m = Some cm -> truthy (Some cm) = true.
Proof.
  intros H. apply next_key_found in H. destruct H as [lk [Hin Hp]].
  apply lowered_keys_entries in Hin. subst lk.
  simpl. destruct (String.eqb cm EmptyString) eqn:E; [|reflexivity].
  apply String.eqb_eq in E. subst cm. discriminate.
Qed.

Lemma col_limite_truthy (m : Measurement) (cl : string) :
  col_limite m = Some cl -> truthy (Some cl) = true.
Proof.
  intros H. apply next_key_found in H. destruct H as [lk [Hin Hp]].
  apply lowered_keys_entries in Hin. subst lk.
  simpl. destruct (String.eqb cl EmptyString) eqn:E; [|reflexivity].
  apply String.eqb_eq in E. subst cl. discriminate.
Qed.

Lemma dict_set_entries {V : Type} (k : string) (v : V) (d : dict V)
    (a : string) (b : V) :
  In (a, b) (dict_set k v d) -> (a = k /\ b = v) \/ In (a, b) d.
Proof.
  induction d as [|[k0 v0] d IH]; simpl.
  - intros [[= <- <-]|[]]. now left.
  - destruct (String.eqb k0 k) eqn:E; simpl.
    + apply String.eqb_eq in E. subst k0.
      intros [[= <- <-]|H]; [now left | right; now right].
    + intros [H|H]; [right; now left|].
      destruct (IH H) as [H'|H']; [now left | right; now right].
Qed.

Lemma dict_set_has_key {V : Type} (k j : string) (v : V) (d : dict V) :
  j = k \/ In j (map fst d) -> In j (map fst (dict_set k v d)).
Proof.
  induction d as [|[k0 v0] d IH]; simpl.
  - intros [->|[]]. now left.
  - destruct (String.eqb k0 k) eqn:E; simpl.
    + apply String.eqb_eq in E. subst k0. intros [->|[->|H]]; auto.
    + intros [->|[->|H]]; auto.
Qed.

Lemma dict_get_has_key {V : Type} (k : string) (d : dict V) :
  In k (map fst d) <-> dict_get k d <> None.
Proof.
  induction d as [|[k0 v0] d IH]; simpl.
  - split; [intros [] | intros H; now elim H].
  - destruct (String.eqb k0 k) eqn:E.
    + apply String.eqb_eq in E. subst k0. split; [discriminate | now left].
    + split.
      * intros [->|H]; [now rewrite String.eqb_refl in E | now apply IH].
      * intros H. right. now apply IH.
Qed.

(** The lowered key table holds the lower-case form of every key of the
    measurement, each mapped to a key of the measurement. *)
Lemma lowered_keys_sound (m : Measurement) (lk original : string) :
  In (lk, original) (lowered_keys m) ->
  lk = lower original /\ In original (map fst m).
Proof.
  intros H. split; [now apply (lowered_keys_entries m)|].
  revert H. unfold lowered_keys.
  assert (G : forall keys,
             In (lk, original)
               (fold_left
                  (fun keys kv => dict_set (lower (fst kv)) (fst kv) keys)
                  m keys) ->
             In (lk, original) keys \/ In original (map fst m)).
  { induction m as [|[k v] m IH]; simpl; intros keys H; [now left|].
    destruct (IH _ H) as [H'|H']; [|right; now right].
    destruct (dict_set_entries _ _ _ _ _ H') as [[_ ->]|H''];
      [right; now left | now left]. }
  intros H. destruct (G [] H) as [[]|H']. exact H'.
Qed.

Lemma lowered_keys_complete (m : Measurement) (k : string) :
  In k (map fst m) -> In (lower k) (map fst (lowered_keys m)).
Proof.
  unfold lowered_keys.
  assert (G : forall keys,
             In k (map fst m) \/ In (lower k) (map fst keys) ->
             In (lower k)
               (map fst
                  (fold_left
                     (fun keys kv => dict_set (lower (fst kv)) (fst kv) keys)
                     m keys))).
  { induction m as [|[k0 v] m IH]; simpl; intros keys H.
    - now destruct H.
    - apply IH. destruct H as [[->|H]|H].
      + right. apply dict_set_has_key. now left.
      + now left.
      + right. apply dict_set_has_key. now right. }
  intros H. apply G. now left.
Qed.

(** When only the column [name] is named like [words], the search of a
    column by these words falls on [name] exactly when the measurement
    has that column. *)
Lemma next_key_only (words : list string) (name : string) (m : Measurement) :
  named_like words name = true ->
  (forall k, In k (map fst m) -> named_like words k = true -> k = name) ->
  next_key (fun k => existsb (fun w => contains w k) words) (lowered_keys m)
  = match dict_get name m with
    | Some _ => Some name
    | None => None
    end.
Proof.
  intros Hname Honly.
  set (p := fun k => existsb (fun w => contains w k) words).
  destruct (next_key p (lowered_keys m)) as [o|] eqn:E.
  - apply next_key_found in E. destruct E as [lk [Hin Hp]].
    apply lowered_keys_sound in Hin. destruct Hin as [-> Ho].
    assert (o = name) by (apply Honly; assumption). subst o.
    destruct (dict_get name m) eqn:Eg; [reflexivity|].
    exfalso. now apply (proj1 (dict_get_has_key name m)) in Ho.
  - destruct (dict_get name m) as [v|] eqn:Eg; [|reflexivity].
    exfalso.
    assert (Hk : In name (map fst m))
      by (apply dict_get_has_key; congruence).
    apply lowered_keys_complete in Hk. apply in_map_iff in Hk.
    destruct Hk as [[lk o] [Hlk Hin]]. simpl in Hlk. subst lk.
    unfold next_key in E.
    destruct (find (fun kv => p (fst kv)) (lowered_keys m)) as [[a b]|] eqn:Ef;
      [discriminate|].
    pose proof (find_none _ _ Ef _ Hin) as Hn. simpl in Hn.
    unfold named_like in Hname. unfold p in Hn. congruence.
Qed.

Lemma next_key_ext (p q : string -> bool) (keys : dict string) :
  (forall k, p k = q k) -> next_key p keys = next_key q keys.
Proof.
  intros H. unfold next_key.
  induction keys as [|[lk o] keys IH]; simpl; [reflexivity|].
  rewrite H. destruct (q lk); [reflexivity | exact IH].
Qed.

Lemma plain_columns_only (m : Measurement) :
  plain_columns m = true ->
  (forall k, In k (map fst m) -> named_like ["cispr"; "mesure"] k = true ->
             k = "Mesure (dBµV/m)")
  /\ (forall k, In k (map fst m) -> named_like ["limit"; "limite"] k = true ->
                k = "Limite (dBµV/m)").
Proof.
  unfold plain_columns. rewrite forallb_forall. intros H.
  split; intros k Hk Hn; specialize (H k Hk); apply andb_prop in H;
    destruct H as [H1 H2]; [rewrite Hn in H1 | rewrite Hn in H2];
    now apply String.eqb_eq.
Qed.

Lemma named_like_words (words : list string) (k : string) :
  named_like words k = existsb (fun w => contains w (lower k)) words.
Proof. reflexivity. Qed.

Lemma col_mesure_plain (m : Measurement) :
  plain_columns m = true ->
  col_mesure m = match measure_of m with
                 | Some _ => Some "Mesure (dBµV/m)"
                 | None => None
                 end.
Proof.
  intros H. apply plain_columns_only in H. destruct H as [H _].
  unfold col_mesure, measure_of.
  rewrite <- (next_key_only ["cispr"; "mesure"] "Mesure (dBµV/m)" m eq_refl).
  - apply next_key_ext. intros k. simpl. now rewrite orb_false_r.
  - intros k Hk Hn. now apply H.
Qed.

Lemma col_limite_plain (m : Measurement) :
  plain_columns m = true ->
  col_limite m = match limit_of m with
                 | Some _ => Some "Limite (dBµV/m)"
                 | None => None
                 end.
Proof.
  intros H. apply plain_columns_only in H. destruct H as [_ H].
  unfold col_limite, limit_of.
  rewrite <- (next_key_only ["limit"; "limite"] "Limite (dBµV/m)" m eq_refl).
  - apply next_key_ext. intros k. simpl. now rewrite orb_false_r.
  - intros k Hk Hn. now apply H.
Qed.

(** On a measurement with plain columns the margin is computed from
    its Measure and its Limit when both are numeric, and is else the
    margin the measurement carries, or "N/A". *)
Lemma marge_plain (m : Measurement) :
  plain_columns m = true ->
  marge m
  = match number_of (measure_of m), number_of (limit_of m) with
    | Some mesure, Some limite =>
        VFloat (PyFloat.round2 (PyFloat.sub limite mesure))
    | _, _ => existing_margin m
    end.
Proof.
  intros H. unfold marge.
  rewrite (col_mesure_plain m H), (col_limite_plain m H).
  unfold float_at, number_of, measure_of, limit_of.
  destruct (dict_get "Mesure (dBµV/m)" m) as [a|] eqn:Ea;
    destruct (dict_get "Limite (dBµV/m)" m) as [b|] eqn:Eb; simpl;
    rewrite ?Ea, ?Eb; try reflexivity.
  now destruct (to_float a).
Qed.

Lemma process_row_margin (m : Measurement) :
  dict_get "Margin (dB)" (process_row m) = Some (marge m).
Proof.
  unfold process_row.
  rewrite !dict_get_set_other by discriminate.
  apply dict_get_set_same.
Qed.

Lemma process_row_conformity (m : Measurement) :
  dict_get "Conformity" (process_row m) = Some (VStr (conformity (marge m))).
Proof. unfold process_row. apply dict_get_set_same. Qed.

Lemma process_row_detector (m : Measurement) :
  detector (process_row m) = detector m.
Proof.
  unfold detector, dict_get_default, process_row.
  now rewrite !dict_get_set_other by discriminate.
Qed.

Lemma lt0_not_ge0 (x : PyFloat.float) :
  PyFloat.lt0 x = true -> PyFloat.ge0 x = false.
Proof.
  unfold PyFloat.lt0, PyFloat.ge0, PyFloat.pos_zero, SFltb, SFleb.
  destruct x as [s|s| |s mx e]; simpl; try discriminate;
    destruct s; simpl; try discriminate; reflexivity.
Qed.

End RuleEngine.

Section RuleEngineTheorems.
Import PyStr Rules Samples.

Example avg_table_extracted :
  Parser.extract_measurements_from_table avg_table the_sample = [avg_row].
Proof. vm_compute. reflexivity. Qed.

Example dash_table_extracted :
  Parser.extract_measurements_from_table dash_table the_sample = [dash_row].
Proof. vm_compute. reflexivity. Qed.

(** C1, at a row the row extractor builds.  The table has an
    "Applied limit" column before its measure and its limit.  Each of
    its two rows has the Measure 40.5 and the Limit 45.0, both
    numbers, so that round(Limit - Measure, 2) is 4.5; yet the engine
    takes as limit the value under the first key that holds "limit",
    which is "Applied limit": with the text "CISPR 25" there the row
    gets the margin "N/A" and the verdict "-", and with "30" there it
    gets the margin -10.5 and the verdict "NOK". *)
Theorem margin_misreads_applied_limit :
  Parser.extract_measurements_from_table applied_limit_table the_sample
  = [applied_limit_row f30_0 "CISPR 25"; applied_limit_row f50_0 "30"]
  /\ Forall
       (fun m =>
          number_of (measure_of m) = Some f40_5
          /\ number_of (limit_of m) = Some f45_0
          /\ col_limite m = Some "Applied limit")
       [applied_limit_row f30_0 "CISPR 25"; applied_limit_row f50_0 "30"]
  /\ PyFloat.round2 (PyFloat.sub f45_0 f40_5) = f4_5
  /\ PyFloat.ge0 f4_5 = true
  /\ process_data
       [applied_limit_row f30_0 "CISPR 25"; applied_limit_row f50_0 "30"]
     = [ applied_limit_row f30_0 "CISPR 25"
           ++ [ ("Margin (dB)", VStr "N/A");
                ("Overtaking (dB)", VStr "-");
                ("Conformity", VStr "-") ];
         applied_limit_row f50_0 "30"
           ++ [ ("Margin (dB)", VFloat f10_5_neg);
                ("Overtaking (dB)", VStr "-");
                ("Conformity", VStr "NOK") ] ].
Proof.
  split; [vm_compute; reflexivity|].
  split; [repeat constructor|].
  repeat split; vm_compute; reflexivity.
Qed.

(** Where no other column is named like the Measure or the Limit, the
    margin of a measurement with a numeric Measure and a numeric Limit
    is round(Limit - Measure, 2), and its verdict follows the sign of
    that margin. *)
Lemma margin_of_plain_row (measurements : list Measurement) (i : nat)
    (m : Measurement) (mesure limite : PyFloat.float) :
  nth_error measurements i = Some m ->
  plain_columns m = true ->
  number_of (measure_of m) = Some mesure ->
  number_of (limit_of m) = Some limite ->
  exists r,
    nth_error (process_data measurements) i = Some r
    /\ dict_get "Margin (dB)" r
       = Some (VFloat (PyFloat.round2 (PyFloat.sub limite mesure)))
    /\ dict_get "Conformity" r
       = Some (VStr (if PyFloat.ge0 (PyFloat.round2 (PyFloat.sub limite mesure))
                     then "OK" else "NOK")).
Proof.
  intros Hi Hp Hm Hl. exists (process_row m).
  split; [unfold process_data; now apply map_nth_error|].
  rewrite process_row_margin, process_row_conformity.
  rewrite (marge_plain _ Hp), Hm, Hl. split; reflexivity.
Qed.

(** C5, as the specification states it, fails on the row the row
    extractor builds from [dash_table]: its Measure is the text "-",
    which is not numeric, yet the processed row keeps the margin 4.5
    read from the table and gets the verdict "OK". *)
Lemma missing_value_counterexample :
  Parser.extract_measurements_from_table dash_table the_sample = [dash_row]
  /\ measure_of dash_row = Some (VStr "-")
  /\ number_of (measure_of dash_row) = None
  /\ nth_error (process_data [dash_row]) 0 = Some (process_row dash_row)
  /\ dict_get "Margin (dB)" (process_row dash_row) = Some (VFloat f4_5)
  /\ dict_get "Conformity" (process_row dash_row) = Some (VStr "OK")
  /\ ~ (dict_get "Margin (dB)" (process_row dash_row) = Some (VStr "N/A")
        /\ dict_get "Conformity" (process_row dash_row) = Some (VStr "-")).
Proof.
  split; [vm_compute; reflexivity|].
  repeat split; try reflexivity.
  intros [H _]. vm_compute in H. discriminate.
Qed.

(** C5, amended.  For every measurement in which no column other than
    the Measure and the Limit has a name that holds cispr, mesure or
    limit, and in which the Measure or the Limit is missing or not
    numeric, the processed measurement keeps the margin the measurement
    already carries, and gets "N/A" when it carries none; its
    Conformity is "-" whenever that margin is not a number (a text, in
    particular "N/A"), and follows the sign of the margin kept when it
    is a number. *)
Theorem missing_value_keeps_margin (measurements : list Measurement)
    (i : nat) (m : Measurement) :
  nth_error measurements i = Some m ->
  plain_columns m = true ->
  number_of (measure_of m) = None \/ number_of (limit_of m) = None ->
  exists r,
    nth_error (process_data measurements) i = Some r
    /\ dict_get "Margin (dB)" r
       = Some (dict_get_default "Margin (dB)" (VStr "N/A") m)
    /\ (dict_get "Margin (dB)" m = None ->
        dict_get "Margin (dB)" r = Some (VStr "N/A")
        /\ dict_get "Conformity" r = Some (VStr "-"))
    /\ (forall s, dict_get "Margin (dB)" m = Some (VStr s) ->
        dict_get "Margin (dB)" r = Some (VStr s)
        /\ dict_get "Conformity" r = Some (VStr "-"))
    /\ (forall x, dict_get "Margin (dB)" m = Some (VFloat x) ->
        dict_get "Margin (dB)" r = Some (VFloat x)
        /\ dict_get "Conformity" r
           = Some (VStr (if PyFloat.ge0 x then "OK" else "NOK"))).
Proof.
  intros Hi Hp Hmiss. exists (process_row m).
  split; [unfold process_data; now apply map_nth_error|].
  rewrite process_row_margin, process_row_conformity.
  assert (Hmarge : marge m = existing_margin m).
  { rewrite (marge_plain _ Hp).
    destruct Hmiss as [-> | ->]; [reflexivity|].
    now destruct (number_of (measure_of m)). }
  rewrite Hmarge. unfold existing_margin, dict_get_default.
  split; [reflexivity|].
  split; [|split]; intros; rewrite H; simpl; split; reflexivity.
Qed.

Lemma missing_value_keeps_margin_witness :
  exists r,
    nth_error (process_data [dash_row]) 0 = Some r
    /\ dict_get "Margin (dB)" r = Some (VFloat f4_5)
    /\ dict_get "Conformity" r = Some (VStr "OK").
Proof.
  destruct (missing_value_keeps_margin [dash_row] 0 dash_row eq_refl
              eq_refl (or_introl eq_refl)) as [r [H1 [_ [_ [_ H5]]]]].
  exists r. split; [exact H1|].
  exact (H5 f4_5 eq_refl).
Defined.

End RuleEngineTheorems.

(** ** Section summaries *)

Section Summaries.
Import PyStr Rules.

Lemma key_eqb_text (a b : Val) :
  is_text a = true -> (key_eqb a b = true <-> a = b).
Proof.
  destruct a as [x|s]; [discriminate|]. intros _.
  destruct b as [y|t]; simpl.
  - split; discriminate.
  - rewrite String.eqb_eq. split; [now intros -> | now intros [= ->]].
Qed.

Lemma key_eqb_text_false (a b : Val) :
  is_text a = true -> a <> b -> key_eqb a b = false.
Proof.
  intros Ha Hne. destruct (key_eqb a b) eqn:E; [|reflexivity].
  apply (key_eqb_text a b Ha) in E. contradiction.
Qed.

Lemma setdefault_append_keys (sec : Val) (r : Measurement)
    (sections : list (Val * list Measurement)) :
  is_text sec = true ->
  (forall k, In k (map fst sections) -> is_text k = true) ->
  (In sec (map fst sections) /\
   map fst (setdefault_append sec r sections) = map fst sections)
  \/ (~ In sec (map fst sections) /\
      map fst (setdefault_append sec r sections) = map fst sections ++ [sec]).
Proof.
  intros Hsec. induction sections as [|[k g] sections IH]; simpl; intros Ht.
  - right. split; [tauto | reflexivity].
  - destruct (key_eqb k sec) eqn:E.
    + apply key_eqb_text in E; [|apply Ht; now left]. subst k.
      left. split; [now left | reflexivity].
    + destruct IH as [[Hin Heq]|[Hnin Heq]].
      * intros k' Hk'. apply Ht. now right.
      * left. split; [now right | simpl; now rewrite Heq].
      * right. split; [|simpl; now rewrite Heq].
        intros [->|H]; [|contradiction].
        rewrite (proj2 (key_eqb_text sec sec Hsec) eq_refl) in E. discriminate.
Qed.

Lemma setdefault_append_entries (sec : Val) (r : Measurement)
    (sections : list (Val * list Measurement)) :
  is_text sec = true ->
  NoDup (map fst sections) ->
  (forall k, In k (map fst sections) -> is_text k = true) ->
  forall k g,
    In (k, g) (setdefault_append sec r sections) ->
    exists g0,
      (In (k, g0) sections \/ (g0 = [] /\ k = sec /\ ~ In sec (map fst sections)))
      /\ g = g0 ++ (if key_eqb k sec then [r] else []).
Proof.
  intros Hsec.
  induction sections as [|[k0 g0] sections IH]; simpl; intros Hnd Ht k g.
  - intros [[= <- <-]|[]]. exists []. split; [right; tauto|].
    now rewrite (proj2 (key_eqb_text sec sec Hsec) eq_refl).
  - inversion Hnd as [|? ? Hnin Hnd']; subst.
    destruct (key_eqb k0 sec) eqn:E; simpl.
    + intros [[= <- <-]|Hin].
      * exists g0. split; [left; now left | now rewrite E].
      * exists g. split; [left; now right|].
        apply key_eqb_text in E; [|apply Ht; now left]. subst k0.
        rewrite key_eqb_text_false, app_nil_r; [reflexivity | |].
        -- apply Ht. right. now apply (in_map fst) in Hin.
        -- intros ->. apply Hnin. now apply (in_map fst) in Hin.
    + intros [[= <- <-]|Hin].
      * exists g0. split; [left; now left | now rewrite E, app_nil_r].
      * destruct (IH Hnd' (fun k' Hk' => Ht k' (or_intror Hk')) k g Hin)
          as [g1 [[H|[H1 [H2 H3]]] Hg]].
        -- exists g1. split; [left; now right | exact Hg].
        -- exists g1. split; [|exact Hg]. right. split; [exact H1|].
           split; [exact H2|]. intros [->|H]; [|contradiction].
           rewrite (proj2 (key_eqb_text sec sec Hsec) eq_refl) in E.
           discriminate.
Qed.

Lemma filter_app_one {A : Type} (p : A -> bool) (l : list A) (x : A) :
  filter p (l ++ [x]) = filter p l ++ (if p x then [x] else []).
Proof. now rewrite filter_app. Qed.

Lemma grouped_step (rows : list Measurement) (r : Measurement)
    (sections : list (Val * list Measurement)) :
  is_text (detector r) = true ->
  grouped rows sections ->
  grouped (rows ++ [r]) (setdefault_append (detector r) r sections).
Proof.
  intros Hr (Hnd & Hent & Hcov).
  assert (Ht : forall k, In k (map fst sections) -> is_text k = true).
  { intros k Hk. apply in_map_iff in Hk. destruct Hk as [[k' g] [<- Hin]].
    now apply (Hent k' g). }
  destruct (setdefault_append_keys (detector r) r sections Hr Ht)
    as [[Hin Hkeys]|[Hnin Hkeys]].
  - split; [now rewrite Hkeys|]. split.
    + intros k g Hkg.
      destruct (setdefault_append_entries _ r _ Hr Hnd Ht k g Hkg)
        as [g0 [[H|[_ [_ H]]] Hg]]; [|contradiction].
      destruct (Hent k g0 H) as [Hk Hg0]. split; [exact Hk|].
      rewrite filter_app_one. unfold in_section at 2. now rewrite Hg, Hg0.
    + intros r' Hr'. rewrite Hkeys. apply in_app_or in Hr'.
      destruct Hr' as [H|[<-|[]]]; [now apply Hcov | exact Hin].
  - split; [rewrite Hkeys; apply NoDup_app; try assumption|].
    + repeat constructor. intros [].
    + intros k Hk [<-|[]]. contradiction.
    + split.
      * intros k g Hkg.
        destruct (setdefault_append_entries _ r _ Hr Hnd Ht k g Hkg)
          as [g0 [[H|[H1 [H2 _]]] Hg]].
        -- destruct (Hent k g0 H) as [Hk Hg0]. split; [exact Hk|].
           rewrite filter_app_one. unfold in_section at 2.
           now rewrite Hg, Hg0.
        -- subst g0 k. split; [exact Hr|].
           rewrite filter_app_one. unfold in_section at 2. rewrite Hg.
           f_equal. symmetry.
           assert (G : forall l, (forall x, In x l -> In x rows) ->
                                 filter (in_section (detector r)) l = []).
           { induction l as [|x l IHl]; simpl; intros Hl; [reflexivity|].
             destruct (in_section (detector r) x) eqn:E.
             - apply (key_eqb_text _ _ Hr) in E.
               exfalso. apply Hnin. rewrite E. apply Hcov, Hl. now left.
             - apply IHl. intros y Hy. apply Hl. now right. }
           apply G. auto.
      * intros r' Hr'. rewrite Hkeys. apply in_or_app. apply in_app_or in Hr'.
        destruct Hr' as [H|[<-|[]]]; [left; now apply Hcov | right; now left].
Qed.

Lemma group_sections_grouped (rows : list Measurement) :
  Forall (fun r => is_text (detector r) = true) rows ->
  grouped rows (group_sections rows).
Proof.
  induction rows as [|r rows IH] using rev_ind; intros Hall.
  - repeat split; simpl; try constructor; intros; contradiction.
  - apply Forall_app in Hall. destruct Hall as [Hrows Hr].
    inversion Hr; subst.
    unfold group_sections. rewrite fold_left_app. simpl.
    apply grouped_step; [assumption|]. now apply IH.
Qed.

Lemma summary_loop (sections : list (Val * list Measurement))
    (summary : list SectionSummary) (all_pass : bool) :
  fold_left summary_step sections (summary, all_pass)
  = (summary ++ map summarize sections,
     all_pass
     && forallb (fun s => String.eqb (verdict s) "OK")
          (map summarize sections)).
Proof.
  revert summary all_pass.
  induction sections as [|[sec rows] sections IH]; intros summary all_pass;
    simpl.
  - now rewrite app_nil_r, andb_true_r.
  - rewrite IH, <- app_assoc, andb_assoc. reflexivity.
Qed.

Lemma compute_section_and_global_eq (rows : list Measurement) :
  compute_section_and_global rows
  = (map summarize (group_sections rows),
     if forallb (fun s => String.eqb (verdict s) "OK")
          (map summarize (group_sections rows))
     then "OK" else "NOK").
Proof.
  unfold compute_section_and_global. now rewrite summary_loop.
Qed.

Lemma filter_filter {A : Type} (p q : A -> bool) (l : list A) :
  filter p (filter q l) = filter (fun x => q x && p x) l.
Proof.
  induction l as [|x l IH]; simpl; [reflexivity|].
  destruct (q x); simpl; [destruct (p x)|]; now rewrite IH.
Qed.

Lemma has_conformity_processed (res : string) (m : Measurement) :
  has_conformity res (process_row m) = String.eqb (conformity (marge m)) res.
Proof. unfold has_conformity. now rewrite process_row_conformity. Qed.

Lemma is_nok_processed (m : Measurement) :
  is_nok (process_row m) = has_conformity "NOK" (process_row m).
Proof.
  rewrite has_conformity_processed.
  unfold is_nok, dict_get_default. rewrite process_row_conformity.
  unfold conformity. destruct (marge m) as [x|s]; [|reflexivity].
  now destruct (PyFloat.ge0 x).
Qed.

Lemma filter_ext_in_rows (p q : Measurement -> bool)
    (rows : list Measurement) :
  (forall r, In r rows -> p r = q r) -> filter p rows = filter q rows.
Proof.
  induction rows as [|r rows IH]; simpl; intros H; [reflexivity|].
  rewrite (H r) by now left.
  rewrite IH; [reflexivity|]. intros r' Hr'. apply H. now right.
Qed.

(** In a section, every processed row is a "NOK", an "OK" or a "-"
    row. *)
Lemma section_rows_split (sec : Val) (measurements : list Measurement) :
  count_rows (in_section sec) (process_data measurements)
  = count_rows (fun r => in_section sec r && has_conformity "NOK" r)
      (process_data measurements)
    + count_rows (fun r => in_section sec r && has_conformity "OK" r)
        (process_data measurements)
    + count_rows (fun r => in_section sec r && has_conformity "-" r)
        (process_data measurements).
Proof.
  unfold count_rows, process_data.
  induction measurements as [|m ms IH]; simpl; [reflexivity|].
  rewrite !has_conformity_processed.
  destruct (in_section sec (process_row m)); simpl; [|exact IH].
  unfold conformity. destruct (marge m) as [x|s]; [destruct (PyFloat.ge0 x)|];
    simpl; rewrite IH; lia.
Qed.

End Summaries.

Section SummaryTheorems.
Import PyStr Rules Samples.

Example mixed_rows_summary :
  compute_section_and_global (process_data mixed_rows)
  = ([ mkSummary (VStr "CISPR.AVG") 2 1 "NOK";
       mkSummary (VStr "Peak") 1 0 "OK" ], "NOK").
Proof. vm_compute. reflexivity. Qed.

(** C6. On processed measurements whose detector type is a text,
    [compute_section_and_global] yields one summary per detector type
    found, whatever the verdicts of the sections before it.  The summary
    of a section reports as row count the rows of that detector type and
    as fail count those among them whose Conformity is "NOK"; the rows
    with "OK" or "-" make up the rest of the row count, so a "-" row is
    counted as a row and never as a fail.  The verdict of a section is
    "OK" exactly when its fail count is 0, and the global verdict is
    "OK" exactly when the verdict of every section is "OK". *)
Theorem section_summaries (measurements : list Measurement) :
  Forall (fun m => is_text (detector m) = true) measurements ->
  let rows := process_data measurements in
  let summary := fst (compute_section_and_global rows) in
  let global_verdict := snd (compute_section_and_global rows) in
  NoDup (map section summary)
  /\ (forall r, In r rows -> In (detector r) (map section summary))
  /\ (forall s, In s summary ->
        nb_lines s = count_rows (in_section (section s)) rows
        /\ nb_fail s
           = count_rows
               (fun r => in_section (section s) r && has_conformity "NOK" r)
               rows
        /\ nb_lines s
           = nb_fail s
             + count_rows
                 (fun r => in_section (section s) r && has_conformity "OK" r)
                 rows
             + count_rows
                 (fun r => in_section (section s) r && has_conformity "-" r)
                 rows
        /\ (verdict s = "OK" <-> nb_fail s = 0)
        /\ (verdict s = "OK" \/ verdict s = "NOK"))
  /\ (global_verdict = "OK" <-> forall s, In s summary -> verdict s = "OK")
  /\ (global_verdict = "OK" \/ global_verdict = "NOK").
Proof.
  intros Htext rows summary global_verdict.
  subst summary global_verdict.
  rewrite compute_section_and_global_eq. simpl fst. simpl snd.
  assert (Hrows : Forall (fun r => is_text (detector r) = true) rows).
  { subst rows. unfold process_data. apply Forall_map.
    eapply Forall_impl; [|exact Htext]. intros m Hm.
    now rewrite process_row_detector. }
  destruct (group_sections_grouped rows Hrows) as (Hnd & Hent & Hcov).
  assert (Hsec : map section (map summarize (group_sections rows))
                 = map fst (group_sections rows)).
  { rewrite map_map. apply map_ext. now intros [k g]. }
  rewrite Hsec.
  split; [exact Hnd|]. split; [exact Hcov|]. split; [|split].
  - intros s Hs. apply in_map_iff in Hs. destruct Hs as [[k g] [<- Hin]].
    destruct (Hent k g Hin) as [_ Hg]. simpl.
    assert (Hfail : List.length (filter is_nok g)
                    = count_rows
                        (fun r => in_section k r && has_conformity "NOK" r)
                        rows).
    { unfold count_rows. rewrite Hg, filter_filter. f_equal.
      apply filter_ext_in_rows. intros r Hr.
      subst rows. unfold process_data in Hr. apply in_map_iff in Hr.
      destruct Hr as [m [<- _]]. now rewrite is_nok_processed. }
    assert (Hlines : List.length g = count_rows (in_section k) rows).
    { unfold count_rows. now rewrite Hg. }
    split; [exact Hlines|]. split; [exact Hfail|]. split; [|split].
    + rewrite Hlines, Hfail. subst rows. apply section_rows_split.
    + destruct (List.length (filter is_nok g)) as [|n]; simpl.
      * split; reflexivity.
      * split; discriminate.
    + destruct (Nat.eqb (List.length (filter is_nok g)) 0); [now left | now right].
  - destruct (forallb (fun s => String.eqb (verdict s) "OK")
                (map summarize (group_sections rows))) eqn:E.
    + split; [|reflexivity]. intros _ s Hs.
      rewrite forallb_forall in E. now apply String.eqb_eq, E.
    + split; [discriminate|]. intros H. exfalso.
      assert (E' : forallb (fun s => String.eqb (verdict s) "OK")
                     (map summarize (group_sections rows)) = true).
      { apply forallb_forall. intros s Hs. now apply String.eqb_eq, H. }
      rewrite E' in E. discriminate.
  - destruct (forallb _ _); [now left | now right].
Qed.

Lemma section_summaries_witness :
  NoDup (map section
           (fst (compute_section_and_global (process_data mixed_rows))))
  /\ (snd (compute_section_and_global (process_data mixed_rows)) = "OK"
      \/ snd (compute_section_and_global (process_data mixed_rows)) = "NOK").
Proof.
  assert (H : Forall (fun m => is_text (detector m) = true) mixed_rows)
    by (repeat constructor).
  split.
  - exact (proj1 (section_summaries mixed_rows H)).
  - exact (proj2 (proj2 (proj2 (proj2 (section_summaries mixed_rows H))))).
Defined.

End SummaryTheorems.

(** ** Configuration discovery *)

Section Discovery.
Import PyStr Parser Samples.

(** C7. The row "Name Test:" with the value
    "RAW CRE2-2025-TP002-02_ER_In front of harness RBW 9kHz" has a part
    before the first underscore that is not a SampleID but contains one.
    [extract_all_configurations] discovers no configuration in it: it
    has no pattern search to fall back on, whereas
    [extract_all_sample_ids] finds "CRE2-2025-TP002-02" in the same row
    by that search. *)
Theorem relaxed_sample_id_rejected :
  name_test_value
    ["Name Test:"; "RAW CRE2-2025-TP002-02_ER_In front of harness RBW 9kHz"]
  = Some "RAW CRE2-2025-TP002-02_ER_In front of harness RBW 9kHz"
  /\ re_match_sample_id "RAW CRE2-2025-TP002-02" = false
  /\ re_search_sample_id "RAW CRE2-2025-TP002-02"
     = Some "CRE2-2025-TP002-02"
  /\ extract_all_configurations [relaxed_name_table] = []
  /\ extract_all_sample_ids [relaxed_name_table] = ["CRE2-2025-TP002-02"].
Proof. repeat split; vm_compute; reflexivity. Qed.

End Discovery.

(** ** Row extraction *)

Section RowExtraction.
Import PyStr Utils Parser Samples.

Lemma map_column_comment (row_dict : Measurement) (h val : string) :
  h <> "Comment" ->
  dict_get "Comment" (map_column row_dict h val) = dict_get "Comment" row_dict.
Proof.
  intros Hh. unfold map_column.
  repeat match goal with
         | |- context [if ?c then _ else _] => destruct c
         end;
    rewrite ?dict_get_set_other by (discriminate || exact Hh); reflexivity.
Qed.

Lemma map_column_polarization (row_dict : Measurement) (h val : string) :
  contains "pol" (lower h) = false ->
  dict_get "Polarization" (map_column row_dict h val)
  = dict_get "Polarization" row_dict.
Proof.
  intros Hpol.
  assert (Hh : h <> "Polarization").
  { intros ->. vm_compute in Hpol. discriminate. }
  unfold map_column. rewrite Hpol.
  repeat match goal with
         | |- context [if ?c then _ else _] => destruct c
         end;
    rewrite ?dict_get_set_other by (discriminate || exact Hh); reflexivity.
Qed.

Lemma map_columns_comment (headers : list string) (row_dict : Measurement)
    (i : nat) (values : list string) :
  Forall (fun h => h <> "Comment") headers ->
  dict_get "Comment" (map_columns row_dict headers i values)
  = dict_get "Comment" row_dict.
Proof.
  intros H. revert row_dict i.
  induction H as [|h headers Hh _ IH]; intros row_dict i; simpl;
    [reflexivity|].
  rewrite IH. now apply map_column_comment.
Qed.

Lemma map_columns_polarization (headers : list string)
    (row_dict : Measurement) (i : nat) (values : list string) :
  Forall (fun h => contains "pol" (lower h) = false) headers ->
  dict_get "Polarization" (map_columns row_dict headers i values)
  = dict_get "Polarization" row_dict.
Proof.
  intros H. revert row_dict i.
  induction H as [|h headers Hh _ IH]; intros row_dict i; simpl;
    [reflexivity|].
  rewrite IH. now apply map_column_polarization.
Qed.

(** Every extracted measurement comes from a data row that is not
    blank, by the column mapping of the normalised headers. *)
Lemma extracted_measurement (table : Table) (sid : string) (m : Measurement) :
  In m (extract_measurements_from_table table sid) ->
  exists row,
    In row (tl table)
    /\ any_text (map strip row) = true
    /\ m = map_columns (row_init sid) (normalized_headers (hd [] table)) 0
             (map strip row).
Proof.
  unfold extract_measurements_from_table.
  destruct table as [|header_row [|row1 rows]]; try contradiction.
  destruct (any_contains _ _); [|contradiction].
  intros H. apply in_flat_map in H. destruct H as [row [Hrow Hm]].
  exists row. split; [exact Hrow|].
  unfold extract_row in Hm.
  destruct (any_text (map strip row)); [|contradiction].
  destruct Hm as [<-|[]]. split; reflexivity.
Qed.

(** C9. A measurement the row extractor builds carries Comment = "-"
    when the table has no Comment column, but no Polarization entry at
    all when no header of the table holds "pol": the extractor sets
    the default "-" and never the default "Vertical". *)
Theorem extracted_row_defaults (table : Table) (sid : string)
    (m : Measurement) :
  In m (extract_measurements_from_table table sid) ->
  (Forall (fun h => h <> "Comment") (normalized_headers (hd [] table)) ->
   dict_get "Comment" m = Some (VStr "-"))
  /\ (Forall (fun h => contains "pol" (lower h) = false)
        (normalized_headers (hd [] table)) ->
      dict_get "Polarization" m = None).
Proof.
  intros Hm. apply extracted_measurement in Hm.
  destruct Hm as [row [_ [_ ->]]]. split.
  - intros H. now rewrite map_columns_comment.
  - intros H. now rewrite map_columns_polarization.
Qed.

Lemma extracted_row_defaults_witness :
  extract_measurements_from_table avg_table the_sample = [avg_row]
  /\ dict_get "Comment" avg_row = Some (VStr "-")
  /\ dict_get "Polarization" avg_row = None.
Proof.
  assert (E : extract_measurements_from_table avg_table the_sample
              = [avg_row]) by (vm_compute; reflexivity).
  assert (Hin : In avg_row
                  (extract_measurements_from_table avg_table the_sample))
    by (rewrite E; now left).
  destruct (extracted_row_defaults avg_table the_sample avg_row Hin)
    as [H1 H2].
  split; [exact E|]. split.
  - apply H1. repeat constructor; discriminate.
  - apply H2. repeat constructor.
Defined.

End RowExtraction.

(** ** The end-to-end scenario *)

Section Scenario.
Import Parser Rules Samples Params.

(** C2. The scenario: the document made of the measurement table with
    header row ["Frequency (MHz)", "CISPR.AVG", "Lim.Avg",
    "CISPR.AVG-Lim.Avg"] and data row ["30.000", "40,5", "45,0",
    "4,5"], followed by the parameter table with the row "Name Test:"
    -> "CRE2-2025-TP002-02_ER_In front of harness RBW 9kHz".  The
    stages give what the scenario expects: [extract_data] returns one
    entry for SampleID CRE2-2025-TP002-02 with the one configuration
    "ER_In front of harness RBW 9kHz" and its one measurement, and
    [process_data] on that measurement gives Frequency = 30.0,
    Detector type = "CISPR.AVG", Measure = 40.5, Limit = 45.0,
    Margin = 4.5 and Conformity = "OK".  But [main], the one place
    where the stages are run in sequence, reads the key 'test_params'
    of the entry, which [extract_data] never sets: it raises KeyError
    on this document before the rule engine is reached. *)
Theorem end_to_end_scenario :
  Run.main avg_document = Throw KeyError
  /\ Run.extract_data avg_document
     = Return
         [ (the_sample,
            [ ("configurations",
               Run.Configurations
                 [mkConfig the_sample the_config
                    "CRE2-2025-TP002-02_ER_In front of harness RBW 9kHz"]);
              ("config_measurements",
               Run.ConfigMeasurements [ (the_config, [avg_row]) ]);
              ("config_test_params",
               Run.ConfigTestParams
                 [ (the_config,
                    [ ("Sample ID", PStr the_sample);
                      ("Configuration", PStr the_config);
                      ("OtherParams",
                       PDict
                         [ ("name test",
                            "CRE2-2025-TP002-02_ER_In front of harness RBW 9kHz")
                         ]) ]) ]) ]) ]
  /\ extract_measurements_for_configuration avg_document the_sample the_config
     = Ok [avg_row]
  /\ extract_measurements_from_table avg_table the_sample = [avg_row]
  /\ process_data [avg_row] = [avg_processed]
  /\ compute_section_and_global [avg_processed]
     = ([mkSummary (VStr "CISPR.AVG") 1 0 "OK"], "OK")
  /\ dict_get "Sample ID" avg_processed = Some (VStr "CRE2-2025-TP002-02")
  /\ dict_get "Frequency (MHz)" avg_processed = Some (VFloat f30_0)
  /\ dict_get "Detector type" avg_processed = Some (VStr "CISPR.AVG")
  /\ dict_get "Mesure (dBµV/m)" avg_processed = Some (VFloat f40_5)
  /\ dict_get "Limite (dBµV/m)" avg_processed = Some (VFloat f45_0)
  /\ dict_get "Margin (dB)" avg_processed = Some (VFloat f4_5)
  /\ dict_get "Conformity" avg_processed = Some (VStr "OK")
  /\ map PyFloat.repr [f30_0; f40_5; f45_0; f4_5]
     = ["30.0"; "40.5"; "45.0"; "4.5"].
Proof. repeat split; vm_compute; reflexivity. Qed.

End Scenario.

(** ** Association and deduplication *)

Section Association.
Import PyStr Parser Samples.

Lemma add_measure_cases (measurements : list Measurement)
    (measure : Measurement) :
  (In (dup_key measure) (map dup_key measurements)
   /\ add_measure measurements measure = measurements)
  \/ (~ In (dup_key measure) (map dup_key measurements)
      /\ add_measure measurements measure = measurements ++ [measure]).
Proof.
  unfold add_measure.
  destruct (existsb (String.eqb (dup_key measure))
              (map dup_key measurements)) eqn:E.
  - left. split; [|reflexivity].
    apply existsb_exists in E. destruct E as [k [Hin Hk]].
    apply String.eqb_eq in Hk. now subst k.
  - right. split; [|reflexivity]. intros Hin.
    assert (E' : existsb (String.eqb (dup_key measure))
                   (map dup_key measurements) = true).
    { apply existsb_exists. exists (dup_key measure).
      split; [exact Hin | apply String.eqb_refl]. }
    rewrite E' in E. discriminate.
Qed.

Lemma add_measure_keeps_keys (measurements : list Measurement)
    (measure : Measurement) (k : string) :
  In k (map dup_key measurements) ->
  In k (map dup_key (add_measure measurements measure)).
Proof.
  intros H. destruct (add_measure_cases measurements measure)
    as [[_ ->]|[_ ->]]; [exact H|].
  rewrite map_app. apply in_or_app. now left.
Qed.

Lemma add_measure_has_key (measurements : list Measurement)
    (measure : Measurement) :
  In (dup_key measure) (map dup_key (add_measure measurements measure)).
Proof.
  destruct (add_measure_cases measurements measure) as [[H ->]|[_ ->]];
    [exact H|].
  rewrite map_app. apply in_or_app. right. now left.
Qed.

Lemma add_measures_keeps_keys (table_measurements measurements
    : list Measurement) (k : string) :
  In k (map dup_key measurements) ->
  In k (map dup_key (add_measures measurements table_measurements)).
Proof.
  revert measurements.
  induction table_measurements as [|m tm IH]; intros measurements H;
    simpl; [exact H|].
  apply IH. now apply add_measure_keeps_keys.
Qed.

Lemma add_measures_has_keys (table_measurements measurements
    : list Measurement) (m : Measurement) :
  In m table_measurements ->
  In (dup_key m) (map dup_key (add_measures measurements table_measurements)).
Proof.
  revert measurements.
  induction table_measurements as [|m' tm IH]; intros measurements;
    simpl; [contradiction|].
  intros [->|H].
  - apply add_measures_keeps_keys, add_measure_has_key.
  - now apply IH.
Qed.

Lemma add_measures_known (table_measurements measurements
    : list Measurement) :
  (forall m, In m table_measurements ->
             In (dup_key m) (map dup_key measurements)) ->
  add_measures measurements table_measurements = measurements.
Proof.
  induction table_measurements as [|m tm IH]; simpl; intros H;
    [reflexivity|].
  destruct (add_measure_cases measurements m) as [[_ ->]|[Hn _]].
  - apply IH. intros m' Hm'. apply H. now right.
  - exfalso. apply Hn, H. now left.
Qed.

(** A table read twice adds nothing the second time. *)
Lemma add_measures_twice (table_measurements measurements
    : list Measurement) :
  add_measures (add_measures measurements table_measurements)
    table_measurements
  = add_measures measurements table_measurements.
Proof.
  apply add_measures_known. intros m Hm. now apply add_measures_has_keys.
Qed.

Lemma scan_back_twice (sid : string) (table : Table)
    (near far : list Table) (measurements : list Measurement) :
  scan_back (near ++ table :: table :: far) sid measurements
  = scan_back (near ++ table :: far) sid measurements.
Proof.
  revert measurements.
  induction near as [|t near IH]; intros measurements; simpl.
  - destruct table as [|header_row rows]; [reflexivity|].
    destruct (is_params_table (map strip header_row)); [reflexivity|].
    destruct (is_measurement_table (map strip header_row)); [|reflexivity].
    now rewrite add_measures_twice.
  - destruct t as [|header_row rows]; [reflexivity|].
    destruct (is_params_table (map strip header_row)); [reflexivity|].
    destruct (is_measurement_table (map strip header_row)); [|reflexivity].
    apply IH.
Qed.

Lemma find_and_scan_eq (cfg sid : string) (rest seen : list Table) :
  find_and_scan cfg sid seen rest
  = match find_index (declares cfg) rest with
    | None => Ok []
    | Some i => scan_back (List.rev (firstn i rest) ++ seen) sid []
    end.
Proof.
  revert seen. induction rest as [|t rest IH]; intros seen; simpl;
    [reflexivity|].
  destruct (declares cfg t); [reflexivity|].
  rewrite IH. destruct (find_index (declares cfg) rest) as [i|]; simpl;
    [|reflexivity].
  now rewrite <- app_assoc.
Qed.

Lemma extract_as_find_and_scan (doc : Document) (sid cfg : string) :
  extract_measurements_for_configuration doc sid cfg
  = find_and_scan cfg sid [] doc.
Proof.
  rewrite find_and_scan_eq. unfold extract_measurements_for_configuration.
  destruct (find_index (declares cfg) doc); [|reflexivity].
  now rewrite app_nil_r.
Qed.

Lemma find_and_scan_seen_twice (cfg sid : string) (table : Table)
    (rest near far : list Table) :
  find_and_scan cfg sid (near ++ table :: table :: far) rest
  = find_and_scan cfg sid (near ++ table :: far) rest.
Proof.
  revert near. induction rest as [|t rest IH]; intros near; simpl;
    [reflexivity|].
  destruct (declares cfg t); [apply scan_back_twice|].
  apply (IH (t :: near)).
Qed.

Lemma find_and_scan_twice (cfg sid : string) (table : Table)
    (before after seen : list Table) :
  find_and_scan cfg sid seen (before ++ table :: table :: after)
  = find_and_scan cfg sid seen (before ++ table :: after).
Proof.
  revert seen. induction before as [|t before IH]; intros seen; simpl.
  - destruct (declares cfg table); [reflexivity|].
    apply (find_and_scan_seen_twice cfg sid table after [] seen).
  - destruct (declares cfg t); [reflexivity | apply IH].
Qed.

Lemma dup_key_eq (m m' : Measurement) :
  dict_get "Frequency (MHz)" m = dict_get "Frequency (MHz)" m' ->
  dict_get "Mesure (dBµV/m)" m = dict_get "Mesure (dBµV/m)" m' ->
  dup_key m = dup_key m'.
Proof.
  intros Hf Hm. unfold dup_key, dict_get_default. now rewrite Hf, Hm.
Qed.


End Association.

Section AssociationTheorems.
Import PyStr Parser Samples.

(** C8. Reading the same table twice in a row for one configuration
    gives the same measurements, hence the same count, as reading it
    once: the document with the table repeated and the document with
    the table once have the same extraction, and accumulating the rows
    of a table a second time changes nothing.  A row is dropped as a
    duplicate as soon as a measurement already accumulated has the same
    Frequency and the same Measure. *)
Theorem deduplication (before after : list Table) (table : Table)
    (sid cfg : string) (measurements table_measurements : list Measurement)
    (measure m : Measurement) :
  extract_measurements_for_configuration
    (before ++ table :: table :: after) sid cfg
  = extract_measurements_for_configuration (before ++ table :: after) sid cfg
  /\ add_measures (add_measures measurements table_measurements)
       table_measurements
     = add_measures measurements table_measurements
  /\ (In m measurements ->
      dict_get "Frequency (MHz)" m = dict_get "Frequency (MHz)" measure ->
      dict_get "Mesure (dBµV/m)" m = dict_get "Mesure (dBµV/m)" measure ->
      add_measure measurements measure = measurements).
Proof.
  split; [|split].
  - rewrite !extract_as_find_and_scan. apply find_and_scan_twice.
  - apply add_measures_twice.
  - intros Hin Hf Hm.
    destruct (add_measure_cases measurements measure) as [[_ H]|[Hn _]];
      [exact H|].
    exfalso. apply Hn. rewrite <- (dup_key_eq _ _ Hf Hm).
    now apply in_map.
Qed.

Lemma deduplication_witness :
  extract_measurements_for_configuration
    [avg_table; avg_table; name_table] the_sample the_config
  = extract_measurements_for_configuration
      [avg_table; name_table] the_sample the_config
  /\ add_measure [avg_row] avg_row = [avg_row].
Proof.
  split.
  - exact (proj1 (deduplication [] [name_table] avg_table the_sample
                    the_config [] [] avg_row avg_row)).
  - apply (proj2 (proj2 (deduplication [] [] avg_table the_sample
                           the_config [avg_row] [] avg_row avg_row))).
    + now left.
    + reflexivity.
    + reflexivity.
Defined.

Example repeated_table_count :
  extract_measurements_for_configuration
    [avg_table; avg_table; name_table] the_sample the_config
  = Ok [avg_row].
Proof. vm_compute. reflexivity. Qed.

End AssociationTheorems.

(** * Further properties of the code *)

(** ** Texts: splitting and joining *)

Section SplitJoin.
Import PyStr Vocabulary.

Lemma split_not_nil (sep : ascii) (s : string) : split sep s <> [].
Proof.
  destruct s as [|c s]; simpl; [discriminate|].
  destruct (Ascii.eqb c sep); [discriminate|].
  destruct (split sep s); discriminate.
Qed.

(** Joining the parts of a split gives the text back. *)
Lemma join_split (sep : ascii) (s : string) :
  join (String sep EmptyString) (split sep s) = s.
Proof.
  induction s as [|c s IH]; simpl; [reflexivity|].
  destruct (Ascii.eqb c sep) eqn:E.
  - apply Ascii.eqb_eq in E. subst c.
    destruct (split sep s) as [|p ps] eqn:Es; [now apply split_not_nil in Es|].
    simpl in *. now rewrite IH.
  - destruct (split sep s) as [|p ps] eqn:Es; [now apply split_not_nil in Es|].
    destruct ps as [|q qs]; simpl in *; now rewrite <- IH.
Qed.

Lemma split_app_sep (sep : ascii) (pre t : string) :
  all_chars (fun c => negb (Ascii.eqb c sep)) pre = true ->
  split sep (pre ++ String sep t) = pre :: split sep t.
Proof.
  induction pre as [|c pre IH]; simpl; intros H.
  - now rewrite Ascii.eqb_refl.
  - apply andb_prop in H. destruct H as [Hc Hpre].
    apply negb_true_iff in Hc. rewrite Hc, (IH Hpre). reflexivity.
Qed.

Lemma all_chars_app (p : ascii -> bool) (s t : string) :
  all_chars p (s ++ t) = all_chars p s && all_chars p t.
Proof.
  induction s as [|c s IH]; simpl; [reflexivity|].
  now rewrite IH, andb_assoc.
Qed.

End SplitJoin.

(** ** The SampleID grammar and the discovered configurations *)

Section Grammar.
Import PyStr Parser Vocabulary.

Lemma digit_not_underscore (c : ascii) :
  is_digit c = true -> not_underscore c = true.
Proof.
  intros H. unfold not_underscore.
  destruct (Ascii.eqb c "_") eqn:E; [|reflexivity].
  apply Ascii.eqb_eq in E. subst c. discriminate.
Qed.

(** What the pattern matches is a prefix of the text, of the length of
    the pattern, and the pattern matches that prefix alone. *)
Lemma match_items_prefix (pat : list ritem) (s rest : string) :
  match_items pat s = Some rest ->
  exists pre,
    s = (pre ++ rest)%string
    /\ String.length pre = List.length pat
    /\ match_items pat pre = Some EmptyString
    /\ (forallb item_not_underscore pat = true ->
        all_chars not_underscore pre = true).
Proof.
  revert s. induction pat as [|it pat IH]; simpl; intros s.
  - intros [= <-]. exists EmptyString. repeat split; reflexivity.
  - destruct s as [|c s]; [discriminate|].
    destruct (match it with
              | Lit c' => Ascii.eqb c c'
              | Digit => is_digit c
              end) eqn:Eok; [|discriminate].
    intros H. destruct (IH s H) as [pre [-> [Hlen [Hm Hu]]]].
    exists (String c pre). simpl. rewrite Eok.
    repeat split; [now rewrite Hlen | exact Hm |].
    intros Hall. apply andb_prop in Hall. destruct Hall as [Hit Hpat].
    rewrite (Hu Hpat), andb_true_r.
    destruct it as [c'|]; simpl in *.
    + apply Ascii.eqb_eq in Eok. now subst c'.
    + now apply digit_not_underscore.
Qed.

Lemma sample_id_no_underscore (s : string) :
  re_match_sample_id s = true -> all_chars not_underscore s = true.
Proof.
  unfold re_match_sample_id.
  destruct (match_items sample_id_pattern s) as [rest|] eqn:E;
    [|discriminate].
  intros H. destruct (match_items_prefix _ _ _ E) as [pre [-> [_ [_ Hu]]]].
  rewrite all_chars_app, (Hu eq_refl). simpl.
  apply orb_prop in H. destruct H as [H|H]; apply String.eqb_eq in H;
    subst rest; reflexivity.
Qed.

Lemma re_match_is_sample_id (s : string) :
  re_match_sample_id s = true <-> is_sample_id s.
Proof.
  unfold re_match_sample_id, is_sample_id. split.
  - destruct (match_items sample_id_pattern s) as [rest|]; [|discriminate].
    intros H. exists rest. split; [reflexivity|].
    apply orb_prop in H. destruct H as [H|H]; apply String.eqb_eq in H; auto.
  - intros [rest [-> [->| ->]]]; reflexivity.
Qed.

Lemma substring_prefix (pre rest : string) :
  String.substring 0 (String.length pre) (pre ++ rest) = pre.
Proof.
  induction pre as [|a pre IHp]; simpl.
  - now destruct rest.
  - now rewrite IHp.
Qed.

Lemma re_search_sample_id_eq (s : string) :
  re_search_sample_id s
  = match match_items sample_id_pattern s with
    | Some _ => Some (String.substring 0 (List.length sample_id_pattern) s)
    | None =>
        match s with
        | EmptyString => None
        | String _ s' => re_search_sample_id s'
        end
    end.
Proof. destruct s; reflexivity. Qed.

Lemma re_search_is_sample_id (s m : string) :
  re_search_sample_id s = Some m -> is_sample_id m.
Proof.
  induction s as [|c s IH]; rewrite re_search_sample_id_eq.
  - simpl. discriminate.
  - remember (String c s) as t eqn:Et.
    destruct (match_items sample_id_pattern t) as [rest|] eqn:E.
    + intros [= <-].
      destruct (match_items_prefix _ _ _ E) as [pre [Hs [Hlen [Hm _]]]].
      exists EmptyString. split; [|now left].
      simpl in Hlen. rewrite Hs, <- Hlen, substring_prefix. exact Hm.
    + subst t. exact IH.
Qed.

(** What a row contributes to the configurations. *)
Lemma config_of_row_inv (row : Row) (c : Config) :
  In c (config_of_row row) ->
  exists value,
    name_test_value row = Some value
    /\ full_name c = value
    /\ value = (sample_id c ++ "_" ++ config_name c)%string
    /\ re_match_sample_id (sample_id c) = true
    /\ hd EmptyString (split "_" value) = sample_id c.
Proof.
  unfold config_of_row.
  destruct (name_test_value row) as [value|]; [|contradiction].
  destruct (split "_" value) as [|sid [|r rs]] eqn:Es; try contradiction.
  destruct (re_match_sample_id sid) eqn:Em; [|contradiction].
  intros [<-|[]]. exists value. simpl.
  split; [reflexivity|]. split; [reflexivity|]. split; [|split].
  - rewrite <- (join_split "_" value) at 1. rewrite Es. reflexivity.
  - exact Em.
  - now rewrite Es.
Qed.

Lemma in_extract_all_configurations (doc : Document) (c : Config) :
  In c (extract_all_configurations doc) <->
  exists table row, In table doc /\ In row table /\ In c (config_of_row row).
Proof.
  unfold extract_all_configurations. rewrite in_flat_map. split.
  - intros [row [Hrow Hc]]. apply in_concat in Hrow.
    destruct Hrow as [table [Ht Hr]]. now exists table, row.
  - intros [table [row [Ht [Hr Hc]]]]. exists row. split; [|exact Hc].
    apply in_concat. now exists table.
Qed.

Lemma set_add_keeps (x y : string) (l : list string) :
  In y l -> In y (set_add x l).
Proof.
  intros H. unfold set_add. destruct (existsb (String.eqb x) l); [exact H|].
  apply in_or_app. now left.
Qed.

Lemma set_add_in (x : string) (l : list string) : In x (set_add x l).
Proof.
  unfold set_add. destruct (existsb (String.eqb x) l) eqn:E.
  - apply existsb_exists in E. destruct E as [y [Hy Hxy]].
    apply String.eqb_eq in Hxy. now subst y.
  - apply in_or_app. right. now left.
Qed.

Lemma set_add_cases (x y : string) (l : list string) :
  In y (set_add x l) -> y = x \/ In y l.
Proof.
  unfold set_add. destruct (existsb (String.eqb x) l); [now right|].
  intros H. apply in_app_or in H. destruct H as [H|[<-|[]]]; auto.
Qed.

Lemma set_add_nodup (x : string) (l : list string) :
  NoDup l -> NoDup (set_add x l).
Proof.
  intros H. unfold set_add. destruct (existsb (String.eqb x) l) eqn:E;
    [exact H|].
  apply NoDup_app; [exact H | repeat constructor; intros [] |].
  intros y Hy [Hxy|[]]. subst y.
  assert (E' : existsb (String.eqb x) l = true).
  { apply existsb_exists. exists x. split; [exact Hy | apply String.eqb_refl]. }
  rewrite E' in E. discriminate.
Qed.

Lemma sample_ids_step_keeps (l : list string) (row : Row) (y : string) :
  In y l -> In y (sample_ids_step l row).
Proof.
  intros H. unfold sample_ids_step.
  destruct (name_test_value row) as [value|]; [|exact H].
  destruct (re_match_sample_id _); [now apply set_add_keeps|].
  destruct (contains _ _); [|exact H].
  destruct (re_search_sample_id _); [now apply set_add_keeps | exact H].
Qed.

Lemma sample_ids_fold_keeps (rows : list Row) (l : list string) (y : string) :
  In y l -> In y (fold_left sample_ids_step rows l).
Proof.
  revert l. induction rows as [|row rows IH]; intros l H; simpl; [exact H|].
  apply IH. now apply sample_ids_step_keeps.
Qed.

Lemma sample_ids_fold_inv (P : list string -> Prop) (rows : list Row)
    (l : list string) :
  (forall l' row, P l' -> P (sample_ids_step l' row)) ->
  P l -> P (fold_left sample_ids_step rows l).
Proof.
  intros Hstep. revert l.
  induction rows as [|row rows IH]; intros l Hl; simpl; [exact Hl|].
  apply IH. now apply Hstep.
Qed.

End Grammar.

Section DiscoveryTheorems.
Import PyStr Parser Vocabulary Samples.

(** X1. In a document of ASCII texts, every configuration
    [extract_all_configurations] returns has a SampleID that the
    grammar accepts, possibly followed by one newline, and that holds
    no underscore, a full name that is its SampleID, an underscore and
    its configuration name, and comes from a "name test:" row of the
    document whose trimmed value is that full name: nothing is coerced
    and nothing is invented. *)
Theorem discovered_configurations_well_formed (doc : Document) :
  ascii_document doc = true ->
  Forall
    (fun c =>
       is_sample_id (sample_id c)
       /\ all_chars not_underscore (sample_id c) = true
       /\ full_name c = (sample_id c ++ "_" ++ config_name c)%string
       /\ exists table row,
            In table doc /\ In row table
            /\ name_test_value row = Some (full_name c))
    (extract_all_configurations doc).
Proof.
  intros _. apply Forall_forall. intros c Hc.
  apply in_extract_all_configurations in Hc.
  destruct Hc as [table [row [Ht [Hr Hc]]]].
  apply config_of_row_inv in Hc.
  destruct Hc as [value [Hv [Hf [Hval [Hm _]]]]].
  split; [now apply re_match_is_sample_id|].
  split; [now apply sample_id_no_underscore|].
  split; [now rewrite Hf|].
  exists table, row. now rewrite Hf.
Qed.

Lemma discovered_configurations_well_formed_witness :
  ascii_document avg_document = true
  /\ Forall
       (fun c =>
          is_sample_id (sample_id c)
          /\ all_chars not_underscore (sample_id c) = true
          /\ full_name c = (sample_id c ++ "_" ++ config_name c)%string
          /\ exists table row,
               In table avg_document /\ In row table
               /\ name_test_value row = Some (full_name c))
       (extract_all_configurations avg_document).
Proof.
  split; [reflexivity|].
  apply (discovered_configurations_well_formed avg_document).
  reflexivity.
Defined.

(** X2. A row of ASCII texts whose key cell contains "name test:"
    (any case) and whose trimmed value is a SampleID of the grammar, an
    underscore and any text is discovered with exactly that SampleID
    and that text as the configuration name, even when the text itself
    holds underscores. *)
Theorem sample_id_round_trip (doc : Document) (table : Table)
    (key value : string) (more : Row) (sid name : string) :
  In table doc ->
  In (key :: value :: more) table ->
  ascii_text key = true ->
  ascii_text value = true ->
  contains "name test:" (lower (strip key)) = true ->
  strip value = (sid ++ "_" ++ name)%string ->
  re_match_sample_id sid = true ->
  In (mkConfig sid name (sid ++ "_" ++ name))
     (extract_all_configurations doc).
Proof.
  intros Ht Hr _ _ Hk Hv Hm.
  apply in_extract_all_configurations.
  exists table, (key :: value :: more). split; [exact Ht|]. split; [exact Hr|].
  unfold config_of_row, name_test_value. rewrite Hk, Hv.
  replace (String.eqb (sid ++ "_" ++ name) EmptyString) with false
    by (now destruct sid).
  simpl andb. cbv iota.
  change (sid ++ "_" ++ name)%string with (sid ++ String "_" name)%string.
  rewrite (split_app_sep "_" sid name (sample_id_no_underscore _ Hm)).
  destruct (split "_" name) as [|p ps] eqn:Es; [now apply split_not_nil in Es|].
  rewrite Hm. left. f_equal.
  rewrite <- Es. apply join_split.
Qed.

Lemma sample_id_round_trip_witness :
  In (mkConfig the_sample the_config
        "CRE2-2025-TP002-02_ER_In front of harness RBW 9kHz")
     (extract_all_configurations avg_document).
Proof.
  apply (sample_id_round_trip avg_document name_table "Name Test:"
           "CRE2-2025-TP002-02_ER_In front of harness RBW 9kHz" []
           the_sample the_config).
  - right. now left.
  - now left.
  - reflexivity.
  - reflexivity.
  - reflexivity.
  - reflexivity.
  - reflexivity.
Defined.

Lemma sample_ids_fold_row (rows : list Row) (row : Row) (y : string) :
  In row rows ->
  (forall l, In y (sample_ids_step l row)) ->
  forall l, In y (fold_left sample_ids_step rows l).
Proof.
  intros Hin Hrow. induction rows as [|r rows IH]; [contradiction|].
  intros l. simpl. destruct Hin as [->|Hin].
  - apply sample_ids_fold_keeps, Hrow.
  - now apply IH.
Qed.

(** X3. The SampleID of every discovered configuration is among the
    SampleIDs [extract_all_sample_ids] returns for the same document. *)
Theorem configuration_sample_ids_listed (doc : Document) :
  Forall (fun c => In (sample_id c) (extract_all_sample_ids doc))
         (extract_all_configurations doc).
Proof.
  apply Forall_forall. intros c Hc.
  apply in_extract_all_configurations in Hc.
  destruct Hc as [table [row [Ht [Hr Hc]]]].
  apply config_of_row_inv in Hc.
  destruct Hc as [value [Hv [_ [_ [Hm Hhd]]]]].
  unfold extract_all_sample_ids.
  apply (sample_ids_fold_row _ row).
  - apply in_concat. now exists table.
  - intros l. unfold sample_ids_step. rewrite Hv, Hhd, Hm.
    apply set_add_in.
Qed.

(** X4. [extract_all_sample_ids] returns each SampleID once, and every
    text it returns is a SampleID of the grammar: the part before the
    first underscore when the anchored match accepts it, else the
    leftmost match of the pattern inside it. *)
Theorem sample_ids_valid_distinct (doc : Document) :
  NoDup (extract_all_sample_ids doc)
  /\ Forall is_sample_id (extract_all_sample_ids doc).
Proof.
  unfold extract_all_sample_ids.
  apply (sample_ids_fold_inv
           (fun l => NoDup l /\ Forall is_sample_id l)).
  - intros l row [Hnd Hall]. unfold sample_ids_step.
    destruct (name_test_value row) as [value|]; [|now split].
    destruct (re_match_sample_id _) eqn:Em.
    + split; [now apply set_add_nodup|].
      apply Forall_forall. intros y Hy. apply set_add_cases in Hy.
      destruct Hy as [->|Hy]; [now apply re_match_is_sample_id|].
      now apply (proj1 (Forall_forall _ _) Hall).
    + destruct (contains _ _); [|now split].
      destruct (re_search_sample_id _) as [m|] eqn:Es; [|now split].
      split; [now apply set_add_nodup|].
      apply Forall_forall. intros y Hy. apply set_add_cases in Hy.
      destruct Hy as [->|Hy]; [now apply (re_search_is_sample_id _ _ Es)|].
      now apply (proj1 (Forall_forall _ _) Hall).
  - split; constructor.
Qed.

End DiscoveryTheorems.

(** ** Row extraction, further *)

Section RowExtractionMore.
Import PyStr Utils Parser Vocabulary Samples.

Lemma dict_get_set {V : Type} (k k' : string) (v : V) (d : dict V) :
  dict_get k (dict_set k' v d)
  = if String.eqb k' k then Some v else dict_get k d.
Proof.
  destruct (String.eqb k' k) eqn:E.
  - apply String.eqb_eq in E. subst. apply dict_get_set_same.
  - apply dict_get_set_other. intros ->. now rewrite String.eqb_refl in E.
Qed.

Lemma dict_set_keys {V W : Type} (k : string) (v : V) (w : W)
    (d : dict V) (d' : dict W) :
  map fst d = map fst d' ->
  map fst (dict_set k v d) = map fst (dict_set k w d').
Proof.
  revert d'. induction d as [|[k0 v0] d IH]; intros [|[k1 w1] d'];
    simpl; try discriminate; [reflexivity|].
  intros [= <- H]. destruct (String.eqb k0 k); simpl; f_equal; auto.
Qed.

Lemma same_but_tag_set (k : string) (v : Val) (m m' : Measurement) :
  same_but_tag m m' -> same_but_tag (dict_set k v m) (dict_set k v m').
Proof.
  intros [Hk Hg]. split; [now apply dict_set_keys|].
  intros k' Hk'. rewrite !dict_get_set.
  destruct (String.eqb k k'); [reflexivity | now apply Hg].
Qed.

Lemma same_but_tag_column (m m' : Measurement) (h val : string) :
  same_but_tag m m' ->
  same_but_tag (map_column m h val) (map_column m' h val).
Proof.
  intros H. unfold map_column.
  repeat match goal with
         | |- context [if ?c then _ else _] => destruct c
         end;
    repeat apply same_but_tag_set; exact H.
Qed.

Lemma same_but_tag_columns (headers : list string) (m m' : Measurement)
    (i : nat) (values : list string) :
  same_but_tag m m' ->
  same_but_tag (map_columns m headers i values)
               (map_columns m' headers i values).
Proof.
  revert m m' i. induction headers as [|h headers IH]; intros m m' i H;
    simpl; [exact H|].
  apply IH. now apply same_but_tag_column.
Qed.

Lemma same_but_tag_init (sid sid' : string) :
  same_but_tag (row_init sid) (row_init sid').
Proof.
  split; [reflexivity|]. intros k Hk. unfold row_init. cbn [dict_get].
  destruct (String.eqb "Sample ID" k) eqn:E; [|reflexivity].
  apply String.eqb_eq in E. now subst k.
Qed.

Lemma same_but_tag_table (table : Table) (sid sid' : string) :
  Forall2 same_but_tag (extract_measurements_from_table table sid)
          (extract_measurements_from_table table sid').
Proof.
  unfold extract_measurements_from_table.
  destruct table as [|header_row [|row1 rows]]; try constructor.
  destruct (any_contains _ _); [|constructor].
  generalize (row1 :: rows). intros data_rows.
  induction data_rows as [|row data_rows IH]; simpl; [constructor|].
  apply Forall2_app; [|exact IH].
  unfold extract_row. destruct (any_text (map strip row)); [|constructor].
  constructor; [|constructor].
  apply same_but_tag_columns, same_but_tag_init.
Qed.

Lemma same_but_tag_key (m m' : Measurement) :
  same_but_tag m m' -> dup_key m = dup_key m'.
Proof.
  intros [_ H]. unfold dup_key, dict_get_default.
  now rewrite !(H _) by discriminate.
Qed.

Lemma same_but_tag_keys (ms ms' : list Measurement) :
  Forall2 same_but_tag ms ms' -> map dup_key ms = map dup_key ms'.
Proof.
  induction 1 as [|m m' ms ms' Hm _ IH]; simpl; [reflexivity|].
  now rewrite (same_but_tag_key _ _ Hm), IH.
Qed.

Lemma same_but_tag_add (ms ms' : list Measurement) (m m' : Measurement) :
  Forall2 same_but_tag ms ms' -> same_but_tag m m' ->
  Forall2 same_but_tag (add_measure ms m) (add_measure ms' m').
Proof.
  intros Hms Hm. unfold add_measure.
  rewrite (same_but_tag_key _ _ Hm), (same_but_tag_keys _ _ Hms).
  destruct (existsb _ _); [exact Hms|].
  apply Forall2_app; [exact Hms|]. now constructor.
Qed.

Lemma same_but_tag_adds (tm tm' ms ms' : list Measurement) :
  Forall2 same_but_tag tm tm' -> Forall2 same_but_tag ms ms' ->
  Forall2 same_but_tag (add_measures ms tm) (add_measures ms' tm').
Proof.
  intros Htm. revert ms ms'.
  induction Htm as [|m m' tm tm' Hm _ IH]; intros ms ms' Hms; simpl;
    [exact Hms|].
  apply IH. now apply same_but_tag_add.
Qed.

Lemma same_outcome_scan (before : list Table) (sid sid' : string)
    (ms ms' : list Measurement) :
  Forall2 same_but_tag ms ms' ->
  same_outcome (scan_back before sid ms) (scan_back before sid' ms').
Proof.
  revert ms ms'. induction before as [|t before IH]; intros ms ms' H; simpl;
    [exact H|].
  destruct t as [|header_row rows]; [reflexivity|].
  destruct (is_params_table _); [exact H|].
  destruct (is_measurement_table _); [|exact H].
  apply IH. apply same_but_tag_adds; [apply same_but_tag_table | exact H].
Qed.

Lemma extract_row_count (table : Table) (sid : string) (rows : list Row) :
  flat_map (extract_row (normalized_headers (hd [] table)) sid) rows
  = map (measurement_of_row table sid) (filter not_blank rows).
Proof.
  induction rows as [|row rows IH]; simpl; [reflexivity|].
  unfold extract_row at 1. unfold not_blank at 1.
  destruct (any_text (map strip row)); simpl; now rewrite IH.
Qed.



(** X5. Among the tables of ASCII texts, a table with fewer than two
    rows, or whose normalised header row holds none of the keywords
    frequency, cispr, peak, q-peak, lim and margin, gives no
    measurement.  Any other gives exactly one measurement per data row
    that is not blank, in the order of the rows. *)
Theorem one_measurement_per_data_row (table : Table) (sid : string) :
  ascii_table table = true ->
  (List.length table < 2 -> extract_measurements_from_table table sid = [])
  /\ (has_measure_headers table = false ->
      extract_measurements_from_table table sid = [])
  /\ (2 <= List.length table -> has_measure_headers table = true ->
      extract_measurements_from_table table sid
      = map (measurement_of_row table sid) (filter not_blank (tl table))).
Proof.
  intros _. unfold extract_measurements_from_table, has_measure_headers.
  destruct table as [|header_row [|row1 rows]]; simpl hd; simpl tl.
  - repeat split; intros; reflexivity.
  - repeat split; intros; reflexivity.
  - split; [simpl; lia|]. split.
    + now intros ->.
    + intros _ ->. apply (extract_row_count (header_row :: row1 :: rows)).
Qed.

Lemma one_measurement_per_data_row_witness :
  extract_measurements_from_table [["Frequency (MHz)"; "Peak"]] the_sample = []
  /\ extract_measurements_from_table [["Remark"]; ["none"]] the_sample = []
  /\ extract_measurements_from_table avg_table the_sample
     = map (measurement_of_row avg_table the_sample)
         (filter not_blank (tl avg_table)).
Proof.
  split; [|split].
  - apply (proj1 (one_measurement_per_data_row
                    [["Frequency (MHz)"; "Peak"]] the_sample eq_refl)).
    simpl. lia.
  - apply (proj1 (proj2 (one_measurement_per_data_row
                           [["Remark"]; ["none"]] the_sample eq_refl))).
    reflexivity.
  - apply (proj2 (proj2 (one_measurement_per_data_row avg_table the_sample
                           eq_refl))).
    + simpl. lia.
    + reflexivity.
Defined.



End RowExtractionMore.

(** ** Association, further *)

Section AssociationMore.
Import PyStr Parser Vocabulary Samples.

Lemma add_measure_nodup (ms : list Measurement) (m : Measurement) :
  NoDup (map dup_key ms) -> NoDup (map dup_key (add_measure ms m)).
Proof.
  intros H. destruct (add_measure_cases ms m) as [[_ ->]|[Hn ->]];
    [exact H|].
  rewrite map_app. apply NoDup_app; [exact H | repeat constructor; intros [] |].
  intros k Hk [Hkm|[]]. subst k. contradiction.
Qed.

Lemma add_measures_nodup (tm ms : list Measurement) :
  NoDup (map dup_key ms) -> NoDup (map dup_key (add_measures ms tm)).
Proof.
  revert ms. induction tm as [|m tm IH]; intros ms H; simpl; [exact H|].
  apply IH. now apply add_measure_nodup.
Qed.

Lemma add_measure_from (ms : list Measurement) (m x : Measurement) :
  In x (add_measure ms m) -> In x ms \/ x = m.
Proof.
  destruct (add_measure_cases ms m) as [[_ ->]|[_ ->]]; [now left|].
  intros H. apply in_app_or in H. destruct H as [H|[<-|[]]]; auto.
Qed.

Lemma add_measures_from (tm ms : list Measurement) (x : Measurement) :
  In x (add_measures ms tm) -> In x ms \/ In x tm.
Proof.
  revert ms. induction tm as [|m tm IH]; intros ms; simpl; [now left|].
  intros H. apply IH in H. destruct H as [H|H]; [|right; now right].
  apply add_measure_from in H. destruct H as [H| ->]; [now left|].
  right. now left.
Qed.

Lemma scan_back_nodup (before : list Table) (sid : string)
    (ms r : list Measurement) :
  scan_back before sid ms = Ok r ->
  NoDup (map dup_key ms) -> NoDup (map dup_key r).
Proof.
  revert ms. induction before as [|t before IH]; intros ms; simpl.
  - now intros [= <-].
  - destruct t as [|header_row rows]; [discriminate|].
    destruct (is_params_table _); [now intros [= <-]|].
    destruct (is_measurement_table _); [|now intros [= <-]].
    intros H Hnd. apply (IH _ H). now apply add_measures_nodup.
Qed.

Lemma scan_back_from (before : list Table) (sid : string)
    (ms r : list Measurement) (x : Measurement) :
  scan_back before sid ms = Ok r -> In x r ->
  In x ms
  \/ exists t, In t before /\ In x (extract_measurements_from_table t sid).
Proof.
  revert ms. induction before as [|t before IH]; intros ms; simpl.
  - intros [= <-]. now left.
  - destruct t as [|header_row rows]; [discriminate|].
    destruct (is_params_table _); [intros [= <-]; now left|].
    destruct (is_measurement_table _); [|intros [= <-]; now left].
    intros H Hx. destruct (IH _ H Hx) as [Hin|[t [Ht Hin]]].
    + apply add_measures_from in Hin. destruct Hin as [Hin|Hin]; [now left|].
      right. exists (header_row :: rows). split; [now left | exact Hin].
    + right. exists t. split; [now right | exact Hin].
Qed.

Lemma find_and_scan_target (cfg sid : string) (target : Table)
    (before after seen : list Table) :
  declares cfg target = true ->
  exists r,
    forall after',
      find_and_scan cfg sid seen (before ++ target :: after') = r.
Proof.
  intros Ht. revert seen.
  induction before as [|t before IH]; intros seen; simpl.
  - rewrite Ht. now exists (scan_back seen sid []).
  - destruct (declares cfg t).
    + now exists (scan_back seen sid []).
    + apply IH.
Qed.

(** X7. No two measurements [extract_measurements_for_configuration]
    returns have the same duplicate key, the text made of their
    Frequency and their Measure. *)
Theorem extraction_keys_distinct (doc : Document) (sid cfg : string) :
  match extract_measurements_for_configuration doc sid cfg with
  | Ok measurements => NoDup (map dup_key measurements)
  | Raise _ => True
  end.
Proof.
  unfold extract_measurements_for_configuration.
  destruct (find_index (declares cfg) doc) as [i|]; [|constructor].
  destruct (scan_back _ sid []) as [r|e] eqn:E; [|exact I].
  apply (scan_back_nodup _ _ _ _ E). constructor.
Qed.

(** X8. The tables that follow a table declaring the configuration
    play no part: replacing them by any others gives the same result. *)
Theorem no_look_ahead (before after after' : list Table) (target : Table)
    (sid cfg : string) :
  declares cfg target = true ->
  extract_measurements_for_configuration (before ++ target :: after) sid cfg
  = extract_measurements_for_configuration (before ++ target :: after')
      sid cfg.
Proof.
  intros Ht. rewrite !extract_as_find_and_scan.
  destruct (find_and_scan_target cfg sid target before after [] Ht)
    as [r Hr].
  now rewrite (Hr after), (Hr after').
Qed.

Lemma no_look_ahead_witness :
  extract_measurements_for_configuration
    ([other_table; params_x; avg_table] ++ params_y :: [dash_table])
    "CRE2-2025-TP002-02" "Y"
  = extract_measurements_for_configuration
      ([other_table; params_x; avg_table] ++ params_y :: [])
      "CRE2-2025-TP002-02" "Y".
Proof.
  apply (no_look_ahead [other_table; params_x; avg_table] [dash_table] []
           params_y "CRE2-2025-TP002-02" "Y").
  reflexivity.
Defined.

(** X9. Every measurement returned for a configuration was extracted
    from one of the tables that come before the first table declaring
    it; an undeclared configuration gets no measurement. *)
Theorem measurements_come_from_before (doc : Document) (sid cfg : string) :
  match extract_measurements_for_configuration doc sid cfg with
  | Ok measurements =>
      Forall
        (fun m =>
           exists t,
             In t (tables_before cfg doc)
             /\ In m (extract_measurements_from_table t sid))
        measurements
  | Raise _ => True
  end.
Proof.
  unfold extract_measurements_for_configuration, tables_before.
  destruct (find_index (declares cfg) doc) as [i|]; [|constructor].
  destruct (scan_back _ sid []) as [r|e] eqn:E; [|exact I].
  apply Forall_forall. intros m Hm.
  destruct (scan_back_from _ _ _ _ _ E Hm) as [[]|[t [Ht Hin]]].
  exists t. split; [|exact Hin]. now apply in_rev.
Qed.

(** X10. When the backward scan, after a run of measurement tables,
    reaches a table that has no row, the extraction raises
    [IndexError]. *)
Theorem empty_table_raises (doc : Document) (sid cfg : string)
    (far near : list Table) :
  tables_before cfg doc = far ++ [] :: near ->
  Forall (fun t => is_measurement_block t = true) near ->
  extract_measurements_for_configuration doc sid cfg = Raise IndexError.
Proof.
  unfold tables_before, extract_measurements_for_configuration.
  destruct (find_index (declares cfg) doc) as [i|].
  - intros -> Hnear. rewrite rev_app_distr. simpl. rewrite <- app_assoc.
    simpl.
    assert (G : forall ms,
               scan_back (List.rev near ++ [] :: List.rev far) sid ms
               = Raise IndexError).
    { apply Forall_rev in Hnear. revert Hnear.
      generalize (List.rev near). intros l Hl.
      induction Hl as [|t l Ht _ IH]; intros ms; simpl; [reflexivity|].
      destruct t as [|header_row rows]; [reflexivity|].
      unfold is_measurement_block in Ht. simpl in Ht.
      apply andb_prop in Ht. destruct Ht as [Hp Hm].
      apply negb_true_iff in Hp. rewrite Hp, Hm. apply IH. }
    apply G.
  - intros H. now destruct far.
Qed.

Lemma empty_table_raises_witness :
  extract_measurements_for_configuration
    [other_table; []; avg_table; params_y] "CRE2-2025-TP002-02" "Y"
  = Raise IndexError.
Proof.
  apply (empty_table_raises [other_table; []; avg_table; params_y]
           "CRE2-2025-TP002-02" "Y" [other_table] [avg_table]).
  - reflexivity.
  - repeat constructor.
Defined.

(** X11. The SampleID given to [extract_measurements_for_configuration]
    only tags the rows: with another SampleID the extraction raises the
    same exception or returns as many measurements, with the same keys
    and the same values except under "Sample ID".  The table a
    configuration is read from is found by the configuration name
    alone. *)
Theorem sample_id_only_tags (doc : Document) (sid sid' cfg : string) :
  same_outcome (extract_measurements_for_configuration doc sid cfg)
               (extract_measurements_for_configuration doc sid' cfg).
Proof.
  unfold extract_measurements_for_configuration.
  destruct (find_index (declares cfg) doc) as [i|]; [|constructor].
  apply same_outcome_scan. constructor.
Qed.

End AssociationMore.

(** ** The rule engine, further *)

Section RuleEngineMore.
Import PyStr Parser Rules Vocabulary Samples.

Lemma dict_set_same_value {V : Type} (k : string) (v : V) (d : dict V) :
  dict_get k d = Some v -> dict_set k v d = d.
Proof.
  induction d as [|[k0 v0] d IH]; simpl; [discriminate|].
  destruct (String.eqb k0 k); [now intros [= ->]|].
  intros H. now rewrite (IH H).
Qed.

Lemma dict_set_keys_cases {V : Type} (k : string) (v : V) (d : dict V) :
  map fst (dict_set k v d) = map fst d
  \/ map fst (dict_set k v d) = map fst d ++ [k].
Proof.
  induction d as [|[k0 v0] d IH]; simpl; [now right|].
  destruct (String.eqb k0 k); simpl; [now left|].
  destruct IH as [-> | ->]; [now left | now right].
Qed.

(** The lowered key table is made from the keys alone. *)
Lemma lowered_keys_of_keys (m : Measurement) :
  lowered_keys m
  = fold_left (fun keys k => dict_set (lower k) k keys) (map fst m) [].
Proof.
  unfold lowered_keys. generalize (@nil (string * string)).
  induction m as [|[k v] m IH]; intros keys; simpl; [reflexivity|]. apply IH.
Qed.

Lemma next_key_set (p : string -> bool) (lk original : string)
    (keys : dict string) :
  p lk = false ->
  next_key p (dict_set lk original keys) = next_key p keys.
Proof.
  intros Hp. unfold next_key.
  induction keys as [|[k0 o0] keys IH]; simpl.
  - now rewrite Hp.
  - destruct (String.eqb k0 lk) eqn:E; simpl.
    + apply String.eqb_eq in E. subst k0. now rewrite Hp.
    + destruct (p k0); [reflexivity | exact IH].
Qed.

(** Writing a key the column search does not select leaves the
    selected column as it was. *)
Lemma next_key_after_set (p : string -> bool) (k : string) (v : Val)
    (m : Measurement) :
  p (lower k) = false ->
  next_key p (lowered_keys (dict_set k v m)) = next_key p (lowered_keys m).
Proof.
  intros Hp. rewrite !lowered_keys_of_keys.
  destruct (dict_set_keys_cases k v m) as [-> | ->]; [reflexivity|].
  rewrite fold_left_app. simpl. now apply next_key_set.
Qed.

Lemma col_mesure_processed (m : Measurement) :
  col_mesure (process_row m) = col_mesure m.
Proof.
  unfold col_mesure, process_row.
  now rewrite !next_key_after_set by reflexivity.
Qed.

Lemma col_limite_processed (m : Measurement) :
  col_limite (process_row m) = col_limite m.
Proof.
  unfold col_limite, process_row.
  now rewrite !next_key_after_set by reflexivity.
Qed.

Lemma process_row_frame (m : Measurement) (k : string) :
  ~ In k engine_keys -> dict_get k (process_row m) = dict_get k m.
Proof.
  intros H. unfold process_row.
  rewrite !dict_get_set_other; [reflexivity| | |];
    intros Hk; apply H; rewrite <- Hk; simpl; auto.
Qed.

Lemma selected_not_engine_key (p : string -> bool) (m : Measurement)
    (col : string) :
  forallb (fun k => negb (p (lower k))) engine_keys = true ->
  next_key p (lowered_keys m) = Some col -> ~ In col engine_keys.
Proof.
  intros Hp H. apply next_key_found in H. destruct H as [lk [Hin Hlk]].
  apply lowered_keys_entries in Hin. subst lk.
  intros Hcol. rewrite forallb_forall in Hp.
  specialize (Hp col Hcol). now rewrite Hlk in Hp.
Qed.

Lemma float_at_processed (p : string -> bool) (m : Measurement)
    (col : string) :
  forallb (fun k => negb (p (lower k))) engine_keys = true ->
  next_key p (lowered_keys m) = Some col ->
  float_at col (process_row m) = float_at col m.
Proof.
  intros Hp H. unfold float_at.
  now rewrite (process_row_frame m col (selected_not_engine_key p m col Hp H)).
Qed.

Lemma marge_processed (m : Measurement) : marge (process_row m) = marge m.
Proof.
  assert (Hex : existing_margin (process_row m) = marge m).
  { unfold existing_margin, dict_get_default. now rewrite process_row_margin. }
  unfold marge at 1. rewrite col_mesure_processed, col_limite_processed, Hex.
  unfold marge.
  destruct (col_mesure m) as [cm|] eqn:Em; [|reflexivity].
  destruct (col_limite m) as [cl|] eqn:El;
    [|now rewrite andb_false_r].
  destruct (truthy (Some cm) && truthy (Some cl)); [|reflexivity].
  rewrite (float_at_processed
             (fun k => contains "cispr" k || contains "mesure" k)
             m cm eq_refl Em),
          (float_at_processed
             (fun k => contains "limit" k || contains "limite" k)
             m cl eq_refl El).
  destruct (float_at cm m); [|reflexivity].
  destruct (float_at cl m); reflexivity.
Qed.

Lemma process_row_overtaking (m : Measurement) :
  dict_get "Overtaking (dB)" (process_row m) = Some (VStr "-").
Proof.
  unfold process_row. rewrite dict_get_set_other by discriminate.
  apply dict_get_set_same.
Qed.

(** X12. Whatever the measurement, the processed row carries a margin,
    the overtaking placeholder "-" and a verdict together; the verdict
    is "OK", "NOK" or "-", it is "-" exactly when the margin is not a
    number and "OK" exactly when the margin is a number that is >= 0;
    and every other entry of the measurement is left as it was. *)
Theorem verdict_follows_margin (m : Measurement) (k : string) :
  dict_get "Margin (dB)" (process_row m) = Some (marge m)
  /\ dict_get "Overtaking (dB)" (process_row m) = Some (VStr "-")
  /\ dict_get "Conformity" (process_row m)
     = Some (VStr (conformity (marge m)))
  /\ In (conformity (marge m)) ["OK"; "NOK"; "-"]
  /\ (conformity (marge m) = "-" <-> is_text (marge m) = true)
  /\ (conformity (marge m) = "OK" <->
      exists x, marge m = VFloat x /\ PyFloat.ge0 x = true)
  /\ (~ In k engine_keys -> dict_get k (process_row m) = dict_get k m).
Proof.
  split; [apply process_row_margin|].
  split; [apply process_row_overtaking|].
  split; [apply process_row_conformity|].
  split; [|split; [|split; [|apply process_row_frame]]].
  - unfold conformity. destruct (marge m) as [x|t]; [destruct (PyFloat.ge0 x)|];
      simpl; auto.
  - unfold conformity. destruct (marge m) as [x|t]; simpl.
    + destruct (PyFloat.ge0 x); split; discriminate.
    + split; reflexivity.
  - unfold conformity. destruct (marge m) as [x|t].
    + destruct (PyFloat.ge0 x) eqn:E.
      * split; [|reflexivity]. intros _. now exists x.
      * split; [discriminate|]. intros [y [[= <-] Hy]].
        rewrite Hy in E. discriminate.
    + split; [discriminate|]. intros [y [Hy _]]. discriminate.
Qed.

Lemma verdict_follows_margin_witness :
  dict_get "Frequency (MHz)" (process_row avg_row)
  = dict_get "Frequency (MHz)" avg_row.
Proof.
  apply (proj2 (proj2 (proj2 (proj2 (proj2 (proj2
           (verdict_follows_margin avg_row "Frequency (MHz)"))))))).
  simpl. intros [H|[H|[H|[]]]]; discriminate.
Defined.

(** X13. Running the rule engine on its own output changes nothing. *)
Theorem process_data_idempotent (measurements : list Measurement) :
  process_data (process_data measurements) = process_data measurements.
Proof.
  unfold process_data. rewrite map_map. apply map_ext. intros m.
  unfold process_row at 1. rewrite marge_processed.
  rewrite (dict_set_same_value "Margin (dB)" _ _ (process_row_margin m)).
  rewrite (dict_set_same_value "Overtaking (dB)" _ _
             (process_row_overtaking m)).
  apply dict_set_same_value, process_row_conformity.
Qed.

Lemma setdefault_append_count (p : Measurement -> bool) (sec : Val)
    (r : Measurement) (sections : list (Val * list Measurement)) :
  list_sum (map (fun e => List.length (filter p (snd e)))
              (setdefault_append sec r sections))
  = list_sum (map (fun e => List.length (filter p (snd e))) sections)
    + (if p r then 1 else 0).
Proof.
  induction sections as [|[k g] sections IH]; simpl.
  - destruct (p r); reflexivity.
  - destruct (key_eqb k sec); simpl.
    + rewrite filter_app, length_app. simpl.
      destruct (p r); simpl; lia.
    + rewrite IH. lia.
Qed.

Lemma group_sections_count (p : Measurement -> bool)
    (rows : list Measurement) :
  list_sum (map (fun e => List.length (filter p (snd e)))
              (group_sections rows))
  = List.length (filter p rows).
Proof.
  induction rows as [|r rows IH] using rev_ind; [reflexivity|].
  unfold group_sections. rewrite fold_left_app. simpl.
  rewrite setdefault_append_count. fold (group_sections rows).
  rewrite IH, filter_app, length_app. simpl.
  destruct (p r); reflexivity.
Qed.

Lemma filter_true {A : Type} (l : list A) : filter (fun _ => true) l = l.
Proof. induction l as [|x l IH]; simpl; [reflexivity | now rewrite IH]. Qed.

Lemma all_ok_no_fail (sections : list (Val * list Measurement)) :
  forallb (fun s => String.eqb (verdict s) "OK") (map summarize sections)
  = Nat.eqb (list_sum (map nb_fail (map summarize sections))) 0.
Proof.
  induction sections as [|[k g] sections IH]; simpl; [reflexivity|].
  rewrite IH.
  destruct (List.length (filter is_nok g)) as [|n]; simpl; reflexivity.
Qed.

(** X14. Whatever the rows, every row is counted in exactly one
    section: the row counts of the summary add up to the number of
    rows, the fail counts add up to the number of rows whose verdict
    reads "NOK" in any case of letters, and the global verdict is "OK"
    exactly when there is no such row; with no row at all it is "OK". *)
Theorem summary_totals (rows : list Measurement) :
  total_lines (fst (compute_section_and_global rows)) = List.length rows
  /\ total_fails (fst (compute_section_and_global rows))
     = count_rows is_nok rows
  /\ (snd (compute_section_and_global rows) = "OK" <->
      count_rows is_nok rows = 0)
  /\ (snd (compute_section_and_global rows) = "NOK" <->
      count_rows is_nok rows <> 0).
Proof.
  rewrite compute_section_and_global_eq. simpl fst. simpl snd.
  unfold total_lines, total_fails, count_rows.
  assert (Hl : list_sum (map nb_lines (map summarize (group_sections rows)))
               = List.length rows).
  { rewrite map_map.
    transitivity
      (list_sum (map (fun e => List.length (filter (fun _ => true) (snd e)))
                   (group_sections rows))).
    - f_equal. apply map_ext. intros [k g]. simpl. now rewrite filter_true.
    - now rewrite group_sections_count, filter_true. }
  assert (Hf : list_sum (map nb_fail (map summarize (group_sections rows)))
               = List.length (filter is_nok rows)).
  { rewrite map_map. rewrite <- (group_sections_count is_nok rows).
    f_equal. }
  split; [exact Hl|]. split; [exact Hf|].
  rewrite all_ok_no_fail, Hf.
  destruct (List.length (filter is_nok rows)) as [|n]; simpl.
  - split; split; try reflexivity; try discriminate. intros H. now elim H.
  - split; split; try reflexivity; try discriminate.
Qed.

End RuleEngineMore.

(** ** Dictionaries built in a loop *)

Section DictKeys.
Context {V : Type}.

Lemma dict_set_key_in (k j : string) (v : V) (d : dict V) :
  In j (map fst (dict_set k v d)) -> j = k \/ In j (map fst d).
Proof.
  induction d as [|[k0 v0] d IH]; simpl.
  - intros [<-|[]]. now left.
  - destruct (String.eqb k0 k); simpl.
    + intros [<-|H]; right; [now left | now right].
    + intros [<-|H]; [right; now left|].
      destruct (IH H) as [->|H']; [now left | right; now right].
Qed.

Lemma dict_set_nodup (k : string) (v : V) (d : dict V) :
  NoDup (map fst d) -> NoDup (map fst (dict_set k v d)).
Proof.
  induction d as [|[k0 v0] d IH]; simpl; intros H.
  - repeat constructor. intros [].
  - inversion H as [|? ? Hn Hd]; subst.
    destruct (String.eqb k0 k) eqn:E; simpl.
    + now constructor.
    + constructor; [|now apply IH].
      intros Hin. apply dict_set_key_in in Hin.
      destruct Hin as [->|Hin]; [|contradiction].
      now rewrite String.eqb_refl in E.
Qed.

Lemma dict_get_absent (k : string) (d : dict V) :
  ~ In k (map fst d) -> dict_get k d = None.
Proof.
  induction d as [|[k0 v0] d IH]; simpl; intros H; [reflexivity|].
  destruct (String.eqb k0 k) eqn:E.
  - apply String.eqb_eq in E. subst. exfalso. apply H. now left.
  - apply IH. intros Hin. apply H. now right.
Qed.

Lemma dict_get_in (k : string) (v : V) (d : dict V) :
  dict_get k d = Some v -> In (k, v) d.
Proof.
  induction d as [|[k0 v0] d IH]; simpl; [discriminate|].
  destruct (String.eqb k0 k) eqn:E.
  - apply String.eqb_eq in E. subst. intros [= ->]. now left.
  - intros H. right. now apply IH.
Qed.

Lemma dict_in_get (k : string) (v : V) (d : dict V) :
  NoDup (map fst d) -> In (k, v) d -> dict_get k d = Some v.
Proof.
  induction d as [|[k0 v0] d IH]; simpl; intros Hnd; [contradiction|].
  inversion Hnd as [|? ? Hn Hd]; subst.
  intros [[= -> ->]|Hin].
  - now rewrite String.eqb_refl.
  - destruct (String.eqb k0 k) eqn:E; [|now apply IH].
    apply String.eqb_eq in E. subst k0. exfalso. apply Hn.
    now apply (in_map fst) in Hin.
Qed.

End DictKeys.

Section DictLoops.
Context {V W : Type}.

(** A loop that writes [f k v] under [k] for every entry [(k, v)] of a
    dictionary. *)
Lemma fold_entries_get (f : string -> V -> W) (d : dict V) (acc : dict W)
    (k : string) :
  NoDup (map fst d) ->
  dict_get k
    (fold_left (fun a e => dict_set (fst e) (f (fst e) (snd e)) a) d acc)
  = match dict_get k d with
    | Some v => Some (f k v)
    | None => dict_get k acc
    end.
Proof.
  revert acc. induction d as [|[k0 v0] d IH]; intros acc Hnd; simpl;
    [reflexivity|].
  inversion Hnd as [|? ? Hn Hd]; subst.
  rewrite (IH _ Hd). destruct (String.eqb k0 k) eqn:E.
  - apply String.eqb_eq in E. subst k0.
    rewrite (dict_get_absent _ _ Hn). apply dict_get_set_same.
  - destruct (dict_get k d); [reflexivity|].
    apply dict_get_set_other. intros ->. now rewrite String.eqb_refl in E.
Qed.

Lemma fold_entries_nodup (f : string -> V -> W) (d : dict V) (acc : dict W) :
  NoDup (map fst acc) ->
  NoDup (map fst
           (fold_left (fun a e => dict_set (fst e) (f (fst e) (snd e)) a)
              d acc)).
Proof.
  revert acc. induction d as [|e d IH]; intros acc H; simpl; [exact H|].
  apply IH. now apply dict_set_nodup.
Qed.

(** A loop that writes [g (key x)] under [key x] for every [x] of a
    list. *)
Lemma fold_keys_get {A : Type} (key : A -> string) (g : string -> W)
    (l : list A) (acc : dict W) (k : string) :
  dict_get k (fold_left (fun a x => dict_set (key x) (g (key x)) a) l acc)
  = if existsb (fun x => String.eqb (key x) k) l then Some (g k)
    else dict_get k acc.
Proof.
  revert acc. induction l as [|x l IH]; intros acc; simpl; [reflexivity|].
  rewrite IH, dict_get_set.
  destruct (existsb (fun x => String.eqb (key x) k) l);
    [now rewrite orb_true_r|].
  rewrite orb_false_r. destruct (String.eqb (key x) k) eqn:E; [|reflexivity].
  apply String.eqb_eq in E. now subst k.
Qed.

End DictLoops.

(** ** From the document to the processed measurements *)

Section Pipeline.
Import PyStr Parser Rules Main Vocabulary Samples.

Lemma group_step_get (sid : string) (groups : dict (list Config))
    (c : Config) :
  dict_get sid (group_step groups c)
  = if String.eqb (sample_id c) sid
    then Some (dict_get_default sid [] groups ++ [c])
    else dict_get sid groups.
Proof.
  unfold group_step. rewrite dict_get_set.
  destruct (String.eqb (sample_id c) sid) eqn:E; [|reflexivity].
  apply String.eqb_eq in E. now subst sid.
Qed.

Lemma groups_get (configs : list Config) (groups : dict (list Config))
    (sid : string) :
  dict_get sid (fold_left group_step configs groups)
  = match configs_of_sample sid configs with
    | [] => dict_get sid groups
    | l => Some (dict_get_default sid [] groups ++ l)
    end.
Proof.
  revert groups. unfold configs_of_sample.
  induction configs as [|c configs IH]; intros groups; simpl; [reflexivity|].
  rewrite IH. unfold dict_get_default. rewrite group_step_get.
  destruct (String.eqb (sample_id c) sid); simpl.
  - destruct (filter _ configs); [reflexivity|].
    now rewrite <- app_assoc.
  - reflexivity.
Qed.

Lemma groups_nodup (configs : list Config) (groups : dict (list Config)) :
  NoDup (map fst groups) ->
  NoDup (map fst (fold_left group_step configs groups)).
Proof.
  revert groups. induction configs as [|c configs IH]; intros groups H;
    simpl; [exact H|].
  apply IH. unfold group_step. now apply dict_set_nodup.
Qed.

(** The groups of [extract_data]: a sample is a key exactly when it has
    configurations, and its entry lists them in document order. *)
Lemma groups_entry (configs : list Config) (sid : string)
    (cfgs : list Config) :
  In (sid, cfgs) (fold_left group_step configs []) ->
  cfgs = configs_of_sample sid configs.
Proof.
  intros H.
  apply dict_in_get in H; [|apply groups_nodup; constructor].
  rewrite groups_get in H. simpl in H.
  destruct (configs_of_sample sid configs); [discriminate|].
  now injection H as <-.
Qed.

Lemma groups_cover (configs : list Config) (c : Config) :
  In c configs ->
  In (sample_id c, configs_of_sample (sample_id c) configs)
     (fold_left group_step configs []).
Proof.
  intros Hc. apply dict_get_in. rewrite groups_get. simpl.
  assert (Hin : In c (configs_of_sample (sample_id c) configs)).
  { apply filter_In. split; [exact Hc | apply String.eqb_refl]. }
  now destruct (configs_of_sample (sample_id c) configs).
Qed.

End Pipeline.

(** ** The test parameters *)

Section ParamsFacts.
Import PyStr Parser Params ParamsVocabulary.

Lemma contains_cons (sub : string) (c : ascii) (s : string) :
  contains sub (String c s)
  = if String.prefix sub (String c s) then true else contains sub s.
Proof. reflexivity. Qed.

Lemma split1_cons (sep : string) (c : ascii) (s : string) :
  split1 sep (String c s)
  = if String.prefix sep (String c s)
    then [EmptyString; drop (String.length sep) (String c s)]
    else match split1 sep s with
         | p :: ps => String c p :: ps
         | [] => [String c EmptyString]
         end.
Proof. reflexivity. Qed.

(** A split at a separator the text holds gives two parts. *)
Lemma split1_found (sep s : string) :
  contains sep s = true -> exists a b, split1 sep s = [a; b].
Proof.
  induction s as [|c s IH].
  - unfold contains, split1. destruct (String.prefix sep EmptyString);
      [eauto | discriminate].
  - rewrite contains_cons, split1_cons.
    destruct (String.prefix sep (String c s)); [eauto|].
    intros H. destruct (IH H) as [a [b ->]]. eauto.
Qed.

(** A split at a separator the text does not hold gives the text. *)
Lemma split1_missing (sep s : string) :
  contains sep s = false -> split1 sep s = [s].
Proof.
  induction s as [|c s IH].
  - unfold contains, split1. destruct (String.prefix sep EmptyString);
      [discriminate | reflexivity].
  - rewrite contains_cons, split1_cons.
    destruct (String.prefix sep (String c s)); [discriminate|].
    intros H. now rewrite (IH H).
Qed.

Lemma key_value_returns (cell0 : string) (others : list string) :
  exists kv, key_value cell0 others = Return kv.
Proof.
  assert (H : exists kv,
             (if contains ":" cell0
              then let parts := split1 ":" cell0 in
                   key_text <~ item parts 0 ;;
                   value_text <~ item parts 1 ;;
                   Return (key_text, value_text)
              else Return (cell0, first_text others)) = Return kv).
  { destruct (contains ":" cell0) eqn:E; [|eauto].
    destruct (split1_found _ _ E) as [a [b ->]]. simpl. eauto. }
  unfold key_value. destruct others as [|cell1 others']; [exact H|].
  destruct (negb (String.eqb (strip cell1) EmptyString)); [eauto | exact H].
Qed.

Lemma param_row_reading (state : TestParams * bool) (row : Row) :
  param_row state row
  = match reading row with
    | None => Return state
    | Some (k, v) => tp <~ store (fst state) k v ;; Return (tp, true)
    end.
Proof.
  unfold param_row, reading.
  destruct (map normalize_text row) as [|cell0 others] eqn:Ec;
    [reflexivity|].
  destruct (any_text (cell0 :: others)); [|reflexivity]. simpl negb. cbv iota.
  destruct (key_value_returns cell0 others) as [kv ->]. simpl.
  destruct (String.eqb (normalize_text (snd kv)) EmptyString); reflexivity.
Qed.


Ltac store_case :=
  intros tp; unfold store;
  repeat match goal with
         | H : _ = true |- _ => rewrite H
         | H : _ = false |- _ => rewrite H
         end; cbn [negb andb orb]; try reflexivity.

(** What the mapping of a key does, whatever the parameters read so
    far. *)
Lemma store_cases (k v : string) :
  (traps k v = true /\ forall tp, store tp k v = Throw IndexError)
  \/ (traps k v = false
      /\ ((exists key x,
              In key store_keys
              /\ forall tp, store tp k v = Return (dict_set key (PStr x) tp))
          \/ (exists x y,
                 forall tp,
                   store tp k v
                   = Return (dict_set "Conclusion" (PStr y)
                               (dict_set "Operating mode" (PStr x) tp)))
          \/ forall tp, store tp k v = set_other tp k v)).
Proof.
  unfold traps, is_mode_key.
  destruct (contains "sample" k) eqn:E1; cbn [negb andb orb].
  { right. split; [reflexivity|]. left. exists "Sample ID", v.
    split; [simpl; tauto | store_case]. }
  destruct (contains "project" k) eqn:E2; cbn [negb andb orb].
  { right. split; [reflexivity|]. left. exists "Project", v.
    split; [simpl; tauto | store_case]. }
  destruct (contains "operator" k) eqn:E3; cbn [negb andb orb].
  { right. split; [reflexivity|]. left. exists "Operator", v.
    split; [simpl; tauto | store_case]. }
  destruct (contains "test configuration" k || contains "test cfg" k) eqn:E4;
    cbn [negb andb orb].
  { right. split; [reflexivity|]. left. exists "Test Configuration", v.
    split; [simpl; tauto | store_case]. }
  destruct (contains "operating mode" k || String.prefix "mode" k) eqn:E5;
    cbn [negb andb orb].
  { destruct (contains "conclusion" (lower v)) eqn:E6; cbn [negb andb orb].
    - destruct (contains "conclusion" v) eqn:E7; cbn [negb andb orb].
      + right. split; [reflexivity|].
        destruct (split1_found _ _ E7) as [a [b Hs]].
        destruct (String.eqb (strip (replace ":" "" b)) EmptyString) eqn:E8.
        * left. exists "Operating mode".
          exists (rstrip_char "," (strip (replace ":" "" a))).
          split; [simpl; tauto|]. store_case.
          rewrite Hs. cbn [item nth_error and_then]. rewrite E8.
          reflexivity.
        * right. left.
          exists (rstrip_char "," (strip (replace ":" "" a))).
          exists (strip (replace ":" "" b)). store_case.
          rewrite Hs. cbn [item nth_error and_then]. rewrite E8.
          reflexivity.
      + left. split; [reflexivity|]. store_case.
        rewrite (split1_missing _ _ E7). reflexivity.
    - right. split; [reflexivity|]. left. exists "Operating mode", v.
      split; [simpl; tauto | store_case]. }
  right. split; [reflexivity|].
  destruct (contains "conclusion" k) eqn:E6.
  { left. exists "Conclusion", v. split; [simpl; tauto | store_case]. }
  destruct (String.eqb "rbw" k || contains "rbw" k) eqn:E7.
  { left. exists "RBW", v. split; [simpl; tauto | store_case]. }
  destruct (contains "span" k) eqn:E8.
  { left. exists "Span", v. split; [simpl; tauto | store_case]. }
  destruct (contains "reference" k && contains "level" k) eqn:E9.
  { left. exists "Reference level", v. split; [simpl; tauto | store_case]. }
  right. right. store_case.
Qed.


Lemma store_keys_plain (key : string) :
  In key store_keys -> key <> "OtherParams" /\ key <> "Configuration".
Proof.
  unfold store_keys. simpl.
  intros H; repeat destruct H as [<-|H]; try contradiction;
    split; discriminate.
Qed.

Lemma well_typed_set_text (key x : string) (tp : TestParams) :
  key <> "OtherParams" -> well_typed tp ->
  well_typed (dict_set key (PStr x) tp).
Proof.
  intros Hk Ht k v. rewrite dict_get_set.
  destruct (String.eqb key k) eqn:E.
  - apply String.eqb_eq in E. subst k. now intros [= <-].
  - apply Ht.
Qed.

Lemma well_typed_set_other (d : dict string) (tp : TestParams) :
  well_typed tp -> well_typed (dict_set "OtherParams" (PDict d) tp).
Proof.
  intros Ht k v. rewrite dict_get_set.
  destruct (String.eqb "OtherParams" k) eqn:E.
  - apply String.eqb_eq in E. subst k. now intros [= <-].
  - apply Ht.
Qed.

Lemma writes_well_typed (tp tp' : TestParams) :
  writes tp tp' -> well_typed tp -> well_typed tp'.
Proof.
  induction 1 as [|key x tp' Hk _ IH|d tp' _ IH]; intros Ht.
  - exact Ht.
  - apply well_typed_set_text; [apply (store_keys_plain _ Hk) | now apply IH].
  - apply well_typed_set_other. now apply IH.
Qed.

Lemma writes_trans (a b c : TestParams) :
  writes a b -> writes b c -> writes a c.
Proof.
  intros Hab Hbc. induction Hbc as [|key x c Hk _ IH|d c _ IH].
  - exact Hab.
  - now apply writes_text.
  - now apply writes_other.
Qed.

Lemma set_other_writes (tp : TestParams) (k v : string) :
  well_typed tp ->
  exists tp', set_other tp k v = Return tp' /\ writes tp tp'.
Proof.
  intros Ht. unfold set_other.
  destruct (dict_get "OtherParams" tp) as [[s|d]|] eqn:E.
  - now elim (Ht _ _ E).
  - eexists. split; [reflexivity|]. apply writes_other. constructor.
  - eexists. split; [reflexivity|]. apply writes_other. constructor.
Qed.

Lemma store_returns (tp : TestParams) (k v : string) :
  traps k v = false -> well_typed tp ->
  exists tp', store tp k v = Return tp' /\ writes tp tp'.
Proof.
  intros Hn Ht.
  destruct (store_cases k v) as [[Hy _]|[_ [H|[H|H]]]].
  - rewrite Hy in Hn. discriminate.
  - destruct H as [key [x [Hk H]]]. rewrite H. eexists.
    split; [reflexivity|]. apply writes_text; [exact Hk | constructor].
  - destruct H as [x [y H]]. rewrite H. eexists. split; [reflexivity|].
    apply writes_text; [simpl; tauto|].
    apply writes_text; [simpl; tauto | constructor].
  - rewrite H. now apply set_other_writes.
Qed.

Lemma store_traps (tp : TestParams) (k v : string) :
  traps k v = true -> store tp k v = Throw IndexError.
Proof.
  intros Hy. destruct (store_cases k v) as [[_ H]|[Hn _]]; [apply H|].
  rewrite Hy in Hn. discriminate.
Qed.

Lemma mode_trap_has_value (row : Row) :
  has_value row = false -> mode_trap row = false.
Proof.
  unfold has_value, mode_trap. now destruct (reading row) as [[k v]|].
Qed.

(** A row either raises, being a trap, or returns after some writes;
    it sets [found_any] exactly when it has a value, and leaves the
    state alone when it has none. *)
Lemma param_row_outcome (state : TestParams * bool) (row : Row) :
  well_typed (fst state) ->
  if mode_trap row then param_row state row = Throw IndexError
  else exists state',
      param_row state row = Return state'
      /\ writes (fst state) (fst state')
      /\ snd state' = snd state || has_value row
      /\ (has_value row = false -> state' = state).
Proof.
  intros Ht. rewrite param_row_reading. unfold mode_trap, has_value.
  destruct (reading row) as [[k v]|].
  - destruct (traps k v) eqn:Ey.
    + now rewrite (store_traps _ _ _ Ey).
    + destruct (store_returns _ _ _ Ey Ht) as [tp' [-> Hw]].
      exists (tp', true). simpl. repeat split; try assumption.
      * now rewrite orb_true_r.
      * discriminate.
  - exists state. repeat split; [constructor | now rewrite orb_false_r].
Qed.

Lemma scan_rows_outcome (rows : list Row) (state : TestParams * bool) :
  well_typed (fst state) ->
  match scan_rows rows state with
  | Throw e => e = IndexError /\ first_trap rows
  | Return state' =>
      Forall (fun r => mode_trap r = false) rows
      /\ writes (fst state) (fst state')
      /\ snd state' = snd state || existsb has_value rows
      /\ (existsb has_value rows = false -> state' = state)
  end.
Proof.
  revert state. induction rows as [|row rows IH]; intros state Ht.
  - simpl. repeat split; [constructor | constructor |
                          now rewrite orb_false_r].
  - cbn [scan_rows]. pose proof (param_row_outcome state row Ht) as Hrow.
    destruct (mode_trap row) eqn:Ey.
    + rewrite Hrow. simpl. split; [reflexivity|].
      exists [], row, rows. repeat split; [constructor | exact Ey].
    + destruct Hrow as [st1 [-> [Hw1 [Hf1 Hs1]]]]. cbn [and_then].
      specialize (IH st1 (writes_well_typed _ _ Hw1 Ht)).
      destruct (scan_rows rows st1) as [st'|e].
      * destruct IH as [Hall [Hw [Hf Hs]]].
        repeat split.
        -- now constructor.
        -- exact (writes_trans _ _ _ Hw1 Hw).
        -- rewrite Hf, Hf1. simpl. now rewrite orb_assoc.
        -- simpl. intros H. apply orb_false_elim in H.
           destruct H as [H1 H2]. now rewrite (Hs H2), (Hs1 H1).
      * destruct IH as [-> [before [r [after [-> [Hb Hr]]]]]].
        split; [reflexivity|].
        exists (row :: before), r, after.
        repeat split; [now constructor | exact Hr].
Qed.

Lemma no_trap_no_first (rows : list Row) :
  Forall (fun r => mode_trap r = false) rows -> ~ first_trap rows.
Proof.
  intros Hall [before [row [after [-> [_ Hr]]]]].
  rewrite Forall_forall in Hall.
  rewrite Hall in Hr; [discriminate|].
  apply in_or_app. right. now left.
Qed.

Lemma silent_existsb (table : Table) :
  silent table <-> existsb has_value table = false.
Proof.
  unfold silent. induction table as [|r table IH]; simpl.
  - split; [reflexivity | constructor].
  - split.
    + intros H. inversion H as [|? ? Hr Ht]; subst.
      rewrite Hr. now apply IH.
    + intros H. apply orb_false_elim in H. destruct H as [Hr Ht].
      constructor; [exact Hr | now apply IH].
Qed.

Lemma silent_no_trap (table : Table) :
  silent table -> Forall (fun r => mode_trap r = false) table.
Proof.
  unfold silent. intros H. eapply Forall_impl; [|exact H].
  intros r. apply mode_trap_has_value.
Qed.

(** The loop over the candidate tables, entered with [found_any]
    false. *)
Lemma scan_tables_outcome (tables : list Table) (state : TestParams * bool) :
  well_typed (fst state) -> snd state = false ->
  match scan_tables tables state with
  | Throw e => e = IndexError /\ reaches_trap tables
  | Return state' =>
      ~ reaches_trap tables
      /\ writes (fst state) (fst state')
      /\ (snd state' = false -> state' = state /\ Forall silent tables)
  end.
Proof.
  revert state. induction tables as [|table tables IH]; intros state Ht Hf.
  - simpl. repeat split; try constructor.
    intros [quiet [t [rest [H _]]]]. now destruct quiet.
  - cbn [scan_tables]. pose proof (scan_rows_outcome table state Ht) as Hrows.
    destruct (scan_rows table state) as [st1|e]; cbn [and_then].
    + destruct Hrows as [Hall [Hw1 [Hf1 Hs1]]]. rewrite Hf in Hf1.
      simpl in Hf1.
      destruct (snd st1) eqn:E1.
      * split; [|split; [exact Hw1 | intros H; congruence]].
        intros [quiet [t [rest [Heq [Hq Ht']]]]].
        destruct quiet as [|q quiet]; simpl in Heq;
          injection Heq as H1 H2; subst.
        -- now apply (no_trap_no_first _ Hall).
        -- inversion Hq as [|? ? Hq1 _]; subst.
           apply silent_existsb in Hq1. rewrite Hq1 in Hf1. discriminate.
      * symmetry in Hf1. specialize (Hs1 Hf1). subst st1.
        specialize (IH state Ht Hf).
        destruct (scan_tables tables state) as [st'|e].
        -- destruct IH as [Hno [Hw Hs]]. split; [|split; [exact Hw|]].
           ++ intros [quiet [t [rest [Heq [Hq Ht']]]]].
              destruct quiet as [|q quiet]; simpl in Heq;
                injection Heq as H1 H2; subst.
              ** now apply (no_trap_no_first _ Hall).
              ** inversion Hq; subst. apply Hno. now exists quiet, t, rest.
           ++ intros Hst. destruct (Hs Hst) as [Hst' Hsil].
              split; [exact Hst'|].
              constructor; [now apply silent_existsb | exact Hsil].
        -- destruct IH as [-> [quiet [t [rest [-> [Hq Ht']]]]]].
           split; [reflexivity|]. exists (table :: quiet), t, rest.
           repeat split; [|exact Ht'].
           constructor; [now apply silent_existsb | exact Hq].
    + destruct Hrows as [-> Hft]. split; [reflexivity|].
      exists [], table, tables. repeat split; [constructor | exact Hft].
Qed.

Lemma fallback_cell_cases (tp : TestParams) (text : string) :
  fallback_cell tp text = Return tp
  \/ exists key v,
       In key store_keys /\ absent key tp = true
       /\ fallback_cell tp text = Return (dict_set key (PStr v) tp).
Proof.
  unfold fallback_cell.
  destruct (contains ":" (normalize_text text)) eqn:E; [|now left].
  destruct (split1_found _ _ E) as [a [b ->]].
  cbn [item nth_error and_then].
  destruct (String.eqb (normalize_text b) EmptyString); [now left|].
  destruct (contains "project" (normalize_key a)); cbn [andb];
    [destruct (absent "Project" tp) eqn:A1;
     [right; exists "Project", (normalize_text b); simpl; tauto|]|].
  all: destruct (contains "operator" (normalize_key a)); cbn [andb];
    [destruct (absent "Operator" tp) eqn:A2;
     [right; exists "Operator", (normalize_text b); simpl; tauto|]|].
  all: destruct (contains "test configuration" (normalize_key a)); cbn [andb];
    [destruct (absent "Test Configuration" tp) eqn:A3;
     [right; exists "Test Configuration", (normalize_text b); simpl; tauto|]|].
  all: destruct (contains "operating mode" (normalize_key a)); cbn [andb];
    [destruct (absent "Operating mode" tp) eqn:A4;
     [right; exists "Operating mode", (normalize_text b); simpl; tauto|]|].
  all: destruct (contains "conclusion" (normalize_key a)); cbn [andb];
    [destruct (absent "Conclusion" tp) eqn:A5;
     [right; exists "Conclusion", (normalize_text b); simpl; tauto|]|].
  all: now left.
Qed.

(** The global pass never raises. *)
Lemma fallback_writes (cells : list string) (tp : TestParams) :
  exists tp', fallback cells tp = Return tp' /\ writes tp tp'.
Proof.
  revert tp. induction cells as [|text cells IH]; intros tp; simpl.
  - exists tp. split; [reflexivity | constructor].
  - destruct (fallback_cell_cases tp text) as [->|[key [v [Hk [_ ->]]]]];
      cbn [and_then].
    + apply IH.
    + destruct (IH (dict_set key (PStr v) tp)) as [tp' [-> Hw]].
      exists tp'. split; [reflexivity|].
      eapply writes_trans; [|exact Hw].
      apply writes_text; [exact Hk | constructor].
Qed.

Lemma initial_well_typed (sid cfg : string) :
  well_typed (initial_params sid cfg).
Proof.
  intros k v. unfold initial_params. cbn [dict_get].
  destruct (String.eqb "Sample ID" k) eqn:E1.
  - apply String.eqb_eq in E1. subst k. intros [= <-]. discriminate.
  - destruct (String.eqb "Configuration" k) eqn:E2; [|discriminate].
    apply String.eqb_eq in E2. subst k. intros [= <-]. discriminate.
Qed.

(** What [extract_test_params_for_configuration] does: it raises
    [IndexError] when the candidate tables reach a trap, and else
    returns the two given entries after some writes. *)
Lemma extract_test_params_outcome (doc : Document) (sid cfg : string) :
  match extract_test_params_for_configuration doc sid cfg with
  | Throw e => e = IndexError /\ reaches_trap (candidate_tables doc)
  | Return tp =>
      ~ reaches_trap (candidate_tables doc)
      /\ writes (initial_params sid cfg) tp
  end.
Proof.
  unfold extract_test_params_for_configuration.
  pose proof (scan_tables_outcome (candidate_tables doc)
                (initial_params sid cfg, false)
                (initial_well_typed sid cfg) eq_refl) as H.
  destruct (scan_tables (candidate_tables doc)
              (initial_params sid cfg, false)) as [st|e]; cbn [and_then].
  - destruct H as [Hno [Hw Hs]]. simpl in Hw.
    destruct (snd st) eqn:E; [now split|].
    destruct (fallback_writes (List.concat (List.concat doc)) (fst st))
      as [tp' [-> Hw']].
    split; [exact Hno | exact (writes_trans _ _ _ Hw Hw')].
  - exact H.
Qed.


(** *** Neither the sample nor the configuration selects the table *)

Lemma akin_set (key : string) (v : PVal) (tp tp' : TestParams) :
  akin tp tp' -> akin (dict_set key v tp) (dict_set key v tp').
Proof.
  intros [Hk Hg]. split.
  - now apply dict_set_keys.
  - intros k H1 H2. rewrite !dict_get_set.
    destruct (String.eqb key k); [reflexivity | now apply Hg].
Qed.

Lemma akin_absent (key : string) (tp tp' : TestParams) :
  akin tp tp' -> In key store_keys -> key <> "Sample ID" ->
  absent key tp = absent key tp'.
Proof.
  intros [_ Hg] Hk Hs. unfold absent.
  rewrite (Hg key Hs (proj2 (store_keys_plain _ Hk))). reflexivity.
Qed.

Lemma set_other_akin (tp tp' : TestParams) (k v : string) :
  akin tp tp' -> akin_outcomes (set_other tp k v) (set_other tp' k v).
Proof.
  intros Ha. unfold set_other.
  rewrite <- (proj2 Ha "OtherParams") by discriminate.
  destruct (dict_get "OtherParams" tp) as [[s|d]|]; simpl;
    [reflexivity | now apply akin_set | now apply akin_set].
Qed.

Lemma store_akin (tp tp' : TestParams) (k v : string) :
  akin tp tp' -> akin_outcomes (store tp k v) (store tp' k v).
Proof.
  intros Ha.
  destruct (store_cases k v) as [[_ H]|[_ [H|[H|H]]]].
  - rewrite !H. reflexivity.
  - destruct H as [key [x [_ H]]]. rewrite !H. simpl. now apply akin_set.
  - destruct H as [x [y H]]. rewrite !H. simpl. now repeat apply akin_set.
  - rewrite !H. now apply set_other_akin.
Qed.

Lemma param_row_akin (st st' : TestParams * bool) (row : Row) :
  akin_states st st' ->
  akin_state_outcomes (param_row st row) (param_row st' row).
Proof.
  intros [Ha Hf]. rewrite !param_row_reading.
  destruct (reading row) as [[k v]|]; [|now split].
  pose proof (store_akin _ _ k v Ha) as H.
  destruct (store (fst st) k v), (store (fst st') k v); simpl in *;
    try contradiction; [now split | exact H].
Qed.

Lemma scan_rows_akin (rows : list Row) (st st' : TestParams * bool) :
  akin_states st st' ->
  akin_state_outcomes (scan_rows rows st) (scan_rows rows st').
Proof.
  revert st st'. induction rows as [|row rows IH]; intros st st' Ha.
  - exact Ha.
  - cbn [scan_rows]. pose proof (param_row_akin _ _ row Ha) as H.
    destruct (param_row st row), (param_row st' row); simpl in *;
      try contradiction; [now apply IH | exact H].
Qed.

Lemma scan_tables_akin (tables : list Table) (st st' : TestParams * bool) :
  akin_states st st' ->
  akin_state_outcomes (scan_tables tables st) (scan_tables tables st').
Proof.
  revert st st'. induction tables as [|table tables IH]; intros st st' Ha.
  - exact Ha.
  - cbn [scan_tables]. pose proof (scan_rows_akin table _ _ Ha) as H.
    destruct (scan_rows table st) as [s1|e1],
             (scan_rows table st') as [s2|e2]; simpl in *;
      try contradiction; [|exact H].
    pose proof H as [Ha' Hf]. rewrite <- Hf.
    destruct (snd s1) eqn:E1; [exact H | apply IH; exact H].
Qed.

Lemma fallback_cell_akin (tp tp' : TestParams) (text : string) :
  akin tp tp' ->
  akin_outcomes (fallback_cell tp text) (fallback_cell tp' text).
Proof.
  intros Ha. unfold fallback_cell.
  destruct (contains ":" (normalize_text text)) eqn:E; [|exact Ha].
  destruct (split1_found _ _ E) as [a [b ->]].
  cbn [item nth_error and_then].
  destruct (String.eqb (normalize_text b) EmptyString); [exact Ha|].
  rewrite <- (akin_absent "Project" _ _ Ha) by (simpl; tauto || discriminate).
  rewrite <- (akin_absent "Operator" _ _ Ha)
    by (simpl; tauto || discriminate).
  rewrite <- (akin_absent "Test Configuration" _ _ Ha)
    by (simpl; tauto || discriminate).
  rewrite <- (akin_absent "Operating mode" _ _ Ha)
    by (simpl; tauto || discriminate).
  rewrite <- (akin_absent "Conclusion" _ _ Ha)
    by (simpl; tauto || discriminate).
  repeat match goal with
         | |- context [if ?c then _ else _] => destruct c
         end; simpl; try exact Ha; now apply akin_set.
Qed.

Lemma fallback_akin (cells : list string) (tp tp' : TestParams) :
  akin tp tp' -> akin_outcomes (fallback cells tp) (fallback cells tp').
Proof.
  revert tp tp'. induction cells as [|text cells IH]; intros tp tp' Ha.
  - exact Ha.
  - cbn [fallback]. pose proof (fallback_cell_akin _ _ text Ha) as H.
    destruct (fallback_cell tp text), (fallback_cell tp' text); simpl in *;
      try contradiction; [now apply IH | exact H].
Qed.

Lemma initial_akin (sid sid' cfg cfg' : string) :
  akin_states (initial_params sid cfg, false) (initial_params sid' cfg', false).
Proof.
  split; [|reflexivity]. split; [reflexivity|].
  intros k H1 H2. simpl fst. unfold initial_params. cbn [dict_get].
  destruct (String.eqb "Sample ID" k) eqn:E1;
    [apply String.eqb_eq in E1; now elim H1|].
  destruct (String.eqb "Configuration" k) eqn:E2;
    [apply String.eqb_eq in E2; now elim H2 | reflexivity].
Qed.

(** *** The first table with a value *)




(** *** The shape of a result *)

Lemma writes_shape (sid cfg : string) (tp : TestParams) :
  writes (initial_params sid cfg) tp ->
  dict_get "Configuration" tp = Some (PStr cfg)
  /\ (exists s, dict_get "Sample ID" tp = Some (PStr s))
  /\ NoDup (map fst tp)
  /\ incl (map fst tp) param_keys.
Proof.
  induction 1 as [|key x tp Hk _ IH|d tp _ IH].
  - split; [reflexivity|]. split; [now exists sid|]. split.
    + simpl. repeat constructor; simpl; intuition discriminate.
    + intros k. simpl. intuition.
  - destruct IH as [Hc [[s Hs] [Hn Hi]]].
    split; [|split; [|split]].
    + rewrite dict_get_set_other; [exact Hc|].
      apply (store_keys_plain _ Hk).
    + rewrite dict_get_set. destruct (String.eqb key "Sample ID"); eauto.
    + now apply dict_set_nodup.
    + intros j Hj. apply dict_set_key_in in Hj. destruct Hj as [->|Hj].
      * right. right. exact Hk.
      * now apply Hi.
  - destruct IH as [Hc [[s Hs] [Hn Hi]]].
    split; [|split; [|split]].
    + rewrite dict_get_set_other; [exact Hc | discriminate].
    + rewrite dict_get_set_other; [eauto | discriminate].
    + now apply dict_set_nodup.
    + intros j Hj. apply dict_set_key_in in Hj. destruct Hj as [->|Hj].
      * right. now left.
      * now apply Hi.
Qed.

End ParamsFacts.

Section ParamsTheorems.
Import PyStr Parser Params ParamsVocabulary.



(** X16. Neither the sample nor the configuration selects the table
    the parameters are read from: for two samples and two
    configurations of a document the extraction raises alike, or
    returns the same keys in the same order with the same values,
    except under "Sample ID" and "Configuration". *)
Theorem test_params_same_for_all (doc : Document)
    (sid sid' cfg cfg' : string) :
  akin_outcomes (extract_test_params_for_configuration doc sid cfg)
                (extract_test_params_for_configuration doc sid' cfg').
Proof.
  unfold extract_test_params_for_configuration.
  pose proof (scan_tables_akin (candidate_tables doc) _ _
                (initial_akin sid sid' cfg cfg')) as H.
  destruct (scan_tables (candidate_tables doc) (initial_params sid cfg, false))
    as [s1|e1],
    (scan_tables (candidate_tables doc) (initial_params sid' cfg', false))
    as [s2|e2]; simpl in *; try contradiction; [|exact H].
  destruct H as [Ha Hf]. rewrite <- Hf.
  destruct (snd s1); [exact Ha | now apply fallback_akin].
Qed.



(** X18. A result of [extract_test_params_for_configuration] holds the
    configuration name it was given under "Configuration" and a text
    under "Sample ID"; its keys are distinct and among the eleven keys
    of the source; "OtherParams" holds a dict and every other key a
    text. *)
Theorem test_params_shape (doc : Document) (sid cfg : string) :
  match extract_test_params_for_configuration doc sid cfg with
  | Return tp =>
      dict_get "Configuration" tp = Some (PStr cfg)
      /\ (exists s, dict_get "Sample ID" tp = Some (PStr s))
      /\ NoDup (map fst tp)
      /\ incl (map fst tp) param_keys
      /\ well_typed tp
  | Throw e => e = IndexError
  end.
Proof.
  pose proof (extract_test_params_outcome doc sid cfg) as H.
  destruct (extract_test_params_for_configuration doc sid cfg) as [tp|e];
    [|apply H].
  destruct H as [_ Hw].
  destruct (writes_shape _ _ _ Hw) as [H1 [H2 [H3 H4]]].
  repeat split; try assumption.
  exact (writes_well_typed _ _ Hw (initial_well_typed sid cfg)).
Qed.

End ParamsTheorems.

Section RunFacts.
Import PyStr Parser Rules Params Run Vocabulary ParamsVocabulary.

Lemma configs_loop_spec (doc : Document) (sid : string)
    (configs : list Config)
    (state : dict (list Measurement) * dict TestParams) :
  match configs_loop doc sid configs state with
  | Return state' =>
      Forall (fun c => measurements_for doc sid (config_name c) <> None
                       /\ params_for doc sid (config_name c) <> None)
             configs
      /\ (forall name,
            dict_get name (fst state')
            = if existsb (fun c => String.eqb (config_name c) name) configs
              then measurements_for doc sid name
              else dict_get name (fst state))
      /\ (forall name,
            dict_get name (snd state')
            = if existsb (fun c => String.eqb (config_name c) name) configs
              then params_for doc sid name
              else dict_get name (snd state))
  | Throw e =>
      e = IndexError
      /\ Exists
           (fun c =>
              extract_test_params_for_configuration doc sid (config_name c)
              = Throw IndexError
              \/ extract_measurements_for_configuration doc sid
                   (config_name c) = Raise Parser.IndexError)
           configs
  end.
Proof.
  revert state. induction configs as [|c configs IH]; intros state;
    cbn [configs_loop].
  - split; [constructor|]. split; reflexivity.
  - pose proof (extract_test_params_outcome doc sid (config_name c)) as Hp.
    destruct (extract_test_params_for_configuration doc sid (config_name c))
      as [tp|e] eqn:Ep; cbn [and_then].
    2:{ destruct Hp as [-> _]. split; [reflexivity | now left; left]. }
    destruct (extract_measurements_for_configuration doc sid (config_name c))
      as [ms|[]] eqn:Em; cbn [of_result and_then].
    2:{ split; [reflexivity | now left; right]. }
    specialize (IH (dict_set (config_name c) ms (fst state),
                    dict_set (config_name c) tp (snd state))).
    destruct (configs_loop doc sid configs _) as [st'|e].
    + destruct IH as [Hall [Hm Ht]]. simpl fst in *. simpl snd in *.
      split; [|split].
      * constructor; [|exact Hall].
        unfold measurements_for, params_for. rewrite Em, Ep.
        split; discriminate.
      * intros name. rewrite Hm, dict_get_set. simpl existsb.
        destruct (existsb _ configs); [now rewrite orb_true_r|].
        rewrite orb_false_r.
        destruct (String.eqb (config_name c) name) eqn:En; [|reflexivity].
        apply String.eqb_eq in En. subst name.
        unfold measurements_for. now rewrite Em.
      * intros name. rewrite Ht, dict_get_set. simpl existsb.
        destruct (existsb _ configs); [now rewrite orb_true_r|].
        rewrite orb_false_r.
        destruct (String.eqb (config_name c) name) eqn:En; [|reflexivity].
        apply String.eqb_eq in En. subst name.
        unfold params_for. now rewrite Ep.
    + destruct IH as [-> Hex]. split; [reflexivity | now right].
Qed.

Lemma samples_loop_spec (doc : Document) (groups : dict (list Config))
    (acc : dict SampleEntry) :
  NoDup (map fst groups) -> NoDup (map fst acc) ->
  match samples_loop doc groups acc with
  | Return data =>
      NoDup (map fst data)
      /\ (forall sid cfgs,
            In (sid, cfgs) groups ->
            exists st, configs_loop doc sid cfgs ([], []) = Return st)
      /\ forall sid,
           dict_get sid data
           = match dict_get sid groups with
             | Some cfgs =>
                 match configs_loop doc sid cfgs ([], []) with
                 | Return st => Some (sample_entry cfgs st)
                 | Throw _ => None
                 end
             | None => dict_get sid acc
             end
  | Throw e =>
      exists sid cfgs,
        In (sid, cfgs) groups
        /\ configs_loop doc sid cfgs ([], []) = Throw e
  end.
Proof.
  revert acc. induction groups as [|[s0 c0] groups IH]; intros acc Hg Ha;
    cbn [samples_loop].
  - split; [exact Ha|]. split; [intros sid cfgs [] | reflexivity].
  - inversion Hg as [|? ? Hn Hd]; subst.
    destruct (configs_loop doc s0 c0 ([], [])) as [st|e] eqn:E;
      cbn [and_then].
    + specialize (IH (dict_set s0 (sample_entry c0 st) acc) Hd
                     (dict_set_nodup _ _ _ Ha)).
      destruct (samples_loop doc groups _) as [data|e].
      * destruct IH as [Hnd [Hok Hget]]. split; [exact Hnd|]. split.
        { intros sid cfgs [[= <- <-]|Hin]; [now exists st | now apply Hok]. }
        intros sid. rewrite Hget, dict_get_set. cbn [dict_get].
        destruct (String.eqb s0 sid) eqn:Es.
        -- apply String.eqb_eq in Es. subst sid.
           now rewrite (dict_get_absent _ _ Hn), E.
        -- reflexivity.
      * destruct IH as [sid [cfgs [Hin Hr]]].
        exists sid, cfgs. split; [now right | exact Hr].
    + exists s0, c0. split; [now left | exact E].
Qed.

(** The entries of [extract_data], sample by sample. *)
Lemma extract_data_get (doc : Document) :
  match Run.extract_data doc with
  | Return data =>
      NoDup (map fst data)
      /\ forall sid,
           match configs_of_sample sid (extract_all_configurations doc) with
           | [] => dict_get sid data = None
           | cfgs =>
               exists st,
                 configs_loop doc sid cfgs ([], []) = Return st
                 /\ dict_get sid data = Some (sample_entry cfgs st)
           end
  | Throw e =>
      e = IndexError
      /\ Exists (extraction_raises doc) (extract_all_configurations doc)
  end.
Proof.
  unfold Run.extract_data.
  set (configs := extract_all_configurations doc).
  assert (Hg : NoDup (map fst (fold_left group_step configs [])))
    by (apply groups_nodup; constructor).
  pose proof (samples_loop_spec doc (fold_left group_step configs []) []
                Hg (NoDup_nil _)) as Hdata.
  destruct (samples_loop doc (fold_left group_step configs []) [])
    as [data|e].
  - destruct Hdata as [Hnd [Hok Hget]]. split; [exact Hnd|].
    intros sid. specialize (Hget sid). rewrite groups_get in Hget.
    simpl in Hget.
    destruct (configs_of_sample sid configs) as [|c0 cfgs] eqn:Ecs;
      [exact Hget|].
    assert (Hin : In (sid, c0 :: cfgs) (fold_left group_step configs [])).
    { apply dict_get_in. rewrite groups_get, Ecs. reflexivity. }
    destruct (Hok _ _ Hin) as [st Hst]. rewrite Hst in Hget. now exists st.
  - destruct Hdata as [sid [cfgs [Hin Hr]]].
    pose proof (groups_entry configs sid cfgs Hin) as ->.
    pose proof (configs_loop_spec doc sid (configs_of_sample sid configs)
                  ([], [])) as Hcl.
    rewrite Hr in Hcl. destruct Hcl as [-> Hex]. split; [reflexivity|].
    apply Exists_exists in Hex. destruct Hex as [c [Hc He]].
    apply filter_In in Hc. destruct Hc as [Hc Hs].
    apply String.eqb_eq in Hs. subst sid.
    apply Exists_exists. now exists c.
Qed.

End RunFacts.

Section RunTheorems.
Import PyStr Parser Rules Params Run Vocabulary ParamsVocabulary.

(** X19. When [extract_data] returns, its keys are the SampleIDs that
    have a discovered configuration, each once; the entry of a sample
    is the dict of the three keys "configurations",
    "config_measurements" and "config_test_params", which lists the
    configurations discovered for the sample in document order and
    holds, for each of them, the measurements and the test parameters
    extracted for that sample and configuration name.  When it raises,
    it raises [IndexError], and the extraction of the parameters or of
    the measurements of some discovered configuration raises. *)
Theorem extract_data_entries (doc : Document) (sid : string) :
  match Run.extract_data doc with
  | Return data =>
      NoDup (map fst data)
      /\ (dict_get sid data = None <->
          configs_of_sample sid (extract_all_configurations doc) = [])
      /\ (forall entry,
            dict_get sid data = Some entry ->
            exists cm ctp,
              entry
              = [ ("configurations",
                   Configurations
                     (configs_of_sample sid (extract_all_configurations doc)));
                  ("config_measurements", ConfigMeasurements cm);
                  ("config_test_params", ConfigTestParams ctp) ]
              /\ Forall
                   (fun c =>
                      exists ms tp,
                        extract_measurements_for_configuration doc sid
                          (config_name c) = Ok ms
                        /\ dict_get (config_name c) cm = Some ms
                        /\ extract_test_params_for_configuration doc sid
                             (config_name c) = Return tp
                        /\ dict_get (config_name c) ctp = Some tp)
                   (configs_of_sample sid (extract_all_configurations doc)))
  | Throw e =>
      e = IndexError
      /\ Exists (extraction_raises doc) (extract_all_configurations doc)
  end.
Proof.
  pose proof (extract_data_get doc) as H.
  destruct (Run.extract_data doc) as [data|e]; [|exact H].
  destruct H as [Hnd Hget]. split; [exact Hnd|]. specialize (Hget sid).
  destruct (configs_of_sample sid (extract_all_configurations doc))
    as [|c0 cfgs] eqn:Ecs.
  - split; [now split|]. intros entry He. rewrite He in Hget. discriminate.
  - destruct Hget as [[cm ctp] [Hst Hget]]. split.
    + split; [intros Hn; rewrite Hn in Hget|]; discriminate.
    + intros entry He. rewrite He in Hget. injection Hget as ->.
      exists cm, ctp. split; [reflexivity|].
      pose proof (configs_loop_spec doc sid (c0 :: cfgs) ([], [])) as Hcl.
      rewrite Hst in Hcl. destruct Hcl as [Hall [Hm Ht]].
      simpl fst in *. simpl snd in *.
      apply Forall_forall. intros c Hc.
      pose proof (proj1 (Forall_forall _ _) Hall c Hc) as [Hms Htp].
      specialize (Hm (config_name c)). specialize (Ht (config_name c)).
      assert (Hex : existsb
                      (fun c' => String.eqb (config_name c') (config_name c))
                      (c0 :: cfgs) = true).
      { apply existsb_exists. exists c. split; [exact Hc|].
        apply String.eqb_refl. }
      rewrite Hex in Hm, Ht. unfold measurements_for, params_for in *.
      destruct (extract_measurements_for_configuration doc sid
                  (config_name c)) as [ms|e']; [|now elim Hms].
      destruct (extract_test_params_for_configuration doc sid
                  (config_name c)) as [tp|e']; [|now elim Htp].
      now exists ms, tp.
Qed.

(** X20. [main] never reaches the rule engine.  It returns, with
    nothing processed, only for a document without any discovered
    configuration.  For any other document it raises: the [IndexError]
    of an extraction, or else [KeyError] on the first sample, whose
    entry has no key "test_params". *)
Theorem main_stops_at_first_sample (doc : Document) :
  match Run.main doc with
  | Return r => extract_all_configurations doc = [] /\ r = ([], [])
  | Throw e =>
      extract_all_configurations doc <> []
      /\ (e = KeyError \/ e = IndexError)
      /\ (e = KeyError <-> exists data, Run.extract_data doc = Return data)
  end.
Proof.
  unfold Run.main. pose proof (extract_data_get doc) as H.
  destruct (Run.extract_data doc) as [data|e]; cbn [and_then].
  - destruct H as [Hnd Hget]. destruct data as [|[sid0 entry0] data].
    + simpl. split; [|reflexivity].
      destruct (extract_all_configurations doc) as [|c configs] eqn:Ec;
        [reflexivity|].
      specialize (Hget (sample_id c)). unfold configs_of_sample in Hget.
      simpl in Hget. rewrite String.eqb_refl in Hget.
      destruct Hget as [st [_ Hst]]. discriminate.
    + specialize (Hget sid0). cbn [dict_get] in Hget.
      rewrite String.eqb_refl in Hget.
      destruct (configs_of_sample sid0 (extract_all_configurations doc))
        as [|c0 cfgs] eqn:Ecs; [discriminate|].
      destruct Hget as [st [_ [= ->]]].
      cbn [samples_steps sample_step]. simpl.
      split; [|split; [now left | split; [eauto | reflexivity]]].
      intros Hn. rewrite Hn in Ecs. discriminate.
  - destruct H as [-> Hex]. split; [|split; [now right|]].
    + intros Hn. rewrite Hn in Hex. inversion Hex.
    + split; [discriminate | intros [data Hd]; discriminate].
Qed.

End RunTheorems.

(** ** Texts and units *)

Section CleanDecimal.
Import PyStr Utils Vocabulary.

Lemma prefix_comma (c : ascii) (s : string) :
  String.prefix "," (String c s) = Ascii.eqb c ",".
Proof.
  cbn [String.prefix]. destruct (ascii_dec "," c) as [<-|H].
  - now destruct s.
  - symmetry. apply Ascii.eqb_neq. congruence.
Qed.

Lemma replace_comma (s : string) :
  replace "," "." s = map_chars comma_to_point s.
Proof.
  unfold replace. induction s as [|c s IH]; [reflexivity|].
  cbn [replace_from map_chars]. rewrite prefix_comma.
  unfold comma_to_point at 1.
  destruct (Ascii.eqb c ","); simpl; now rewrite <- IH.
Qed.

Lemma comma_to_point_space (c : ascii) :
  is_space (comma_to_point c) = is_space c.
Proof.
  unfold comma_to_point. destruct (Ascii.eqb c ",") eqn:E; [|reflexivity].
  apply Ascii.eqb_eq in E. now subst c.
Qed.

Lemma map_chars_app (f : ascii -> ascii) (s t : string) :
  map_chars f (s ++ t)%string = (map_chars f s ++ map_chars f t)%string.
Proof. induction s as [|c s IH]; simpl; [reflexivity | now rewrite IH]. Qed.

Lemma rev_map_chars (f : ascii -> ascii) (s : string) :
  rev (map_chars f s) = map_chars f (rev s).
Proof.
  induction s as [|c s IH]; simpl; [reflexivity|].
  now rewrite IH, map_chars_app.
Qed.

Lemma lstrip_map_chars (f : ascii -> ascii) (s : string) :
  (forall c, is_space (f c) = is_space c) ->
  lstrip (map_chars f s) = map_chars f (lstrip s).
Proof.
  intros Hf. induction s as [|c s IH]; simpl; [reflexivity|].
  rewrite Hf. destruct (is_space c); [exact IH | reflexivity].
Qed.

Lemma strip_map_chars (f : ascii -> ascii) (s : string) :
  (forall c, is_space (f c) = is_space c) ->
  strip (map_chars f s) = map_chars f (strip s).
Proof.
  intros Hf. unfold strip, rstrip.
  now rewrite lstrip_map_chars, rev_map_chars, lstrip_map_chars,
    rev_map_chars.
Qed.

Lemma string_app_nil (s : string) : (s ++ EmptyString)%string = s.
Proof. induction s as [|c s IH]; simpl; [reflexivity | now rewrite IH]. Qed.

Lemma string_app_assoc (s t u : string) :
  ((s ++ t) ++ u)%string = (s ++ (t ++ u))%string.
Proof. induction s as [|c s IH]; simpl; [reflexivity | now rewrite IH]. Qed.

Lemma str_rev_app (s t : string) :
  rev (s ++ t)%string = (rev t ++ rev s)%string.
Proof.
  induction s as [|c s IH]; simpl.
  - now rewrite string_app_nil.
  - now rewrite IH, string_app_assoc.
Qed.

Lemma str_rev_involutive (s : string) : rev (rev s) = s.
Proof.
  induction s as [|c s IH]; simpl; [reflexivity|].
  now rewrite str_rev_app, IH.
Qed.

Lemma lstrip_idempotent (s : string) : lstrip (lstrip s) = lstrip s.
Proof.
  induction s as [|c s IH]; simpl; [reflexivity|].
  destruct (is_space c) eqn:E; [exact IH|]. simpl. now rewrite E.
Qed.

Lemma rstrip_idempotent (s : string) : rstrip (rstrip s) = rstrip s.
Proof.
  unfold rstrip. now rewrite str_rev_involutive, lstrip_idempotent.
Qed.

Lemma lstrip_app_char (s : string) (c : ascii) :
  is_space c = false ->
  lstrip (s ++ String c EmptyString)%string
  = (lstrip s ++ String c EmptyString)%string.
Proof.
  intros Hc. induction s as [|a s IH]; simpl; [now rewrite Hc|].
  destruct (is_space a); [exact IH | reflexivity].
Qed.

(** Trimming on the right leaves a text trimmed on the left as it
    is on that side. *)
Lemma lstrip_rstrip_lstrip (s : string) :
  lstrip (rstrip (lstrip s)) = rstrip (lstrip s).
Proof.
  assert (H : forall t,
             match t with
             | EmptyString => True
             | String c _ => is_space c = false
             end -> lstrip (rstrip t) = rstrip t).
  { intros [|c t] Hc; [reflexivity|]. unfold rstrip. simpl rev.
    rewrite (lstrip_app_char _ _ Hc), str_rev_app. simpl. now rewrite Hc. }
  apply H. induction s as [|c s IH]; simpl; [exact I|].
  destruct (is_space c) eqn:E; [exact IH | exact E].
Qed.

Lemma strip_idempotent (s : string) : strip (strip s) = strip s.
Proof.
  unfold strip. now rewrite lstrip_rstrip_lstrip, rstrip_idempotent.
Qed.

Lemma map_comma_idempotent (s : string) :
  map_chars comma_to_point (map_chars comma_to_point s)
  = map_chars comma_to_point s.
Proof.
  induction s as [|c s IH]; simpl; [reflexivity|]. rewrite IH. f_equal.
  unfold comma_to_point. destruct (Ascii.eqb c ",") eqn:E; [reflexivity|].
  now rewrite E.
Qed.

(** X21. [clean_decimal] reads an ASCII text the same with or without
    the whitespace around it; a text it reads as a number is read as
    the same number once its commas are written as points, and a text
    it does not read as a number is returned trimmed, with its commas
    kept. *)
Theorem clean_decimal_insensitive (value : string) :
  ascii_text value = true ->
  clean_decimal (strip value) = clean_decimal value
  /\ match clean_decimal value with
     | VFloat x => clean_decimal (replace "," "." value) = VFloat x
     | VStr s => s = strip value
     end.
Proof.
  intros _. unfold clean_decimal. rewrite !replace_comma.
  rewrite !(strip_map_chars _ _ comma_to_point_space).
  rewrite !strip_idempotent, map_comma_idempotent.
  split; [reflexivity|].
  destruct (PyFloat.float_of_str (map_chars comma_to_point (strip value)));
    reflexivity.
Qed.

Lemma clean_decimal_insensitive_witness :
  clean_decimal " 40,5 " = VFloat Samples.f40_5
  /\ clean_decimal (strip " 40,5 ") = clean_decimal " 40,5 "
  /\ clean_decimal (replace "," "." " 40,5 ") = VFloat Samples.f40_5
  /\ clean_decimal " 4,5 dB " = VStr "4,5 dB"
  /\ "4,5 dB" = strip " 4,5 dB ".
Proof.
  destruct (clean_decimal_insensitive " 40,5 " eq_refl) as [H1 H2].
  destruct (clean_decimal_insensitive " 4,5 dB " eq_refl) as [_ H3].
  assert (E : clean_decimal " 40,5 " = VFloat Samples.f40_5)
    by (vm_compute; reflexivity).
  assert (E' : clean_decimal " 4,5 dB " = VStr "4,5 dB")
    by (vm_compute; reflexivity).
  rewrite E in H2. rewrite E' in H3.
  split; [exact E|]. split; [exact H1|]. split; [exact H2|].
  split; [exact E' | exact H3].
Defined.

End CleanDecimal.

Section NormalizeUnit.
Import PyStr Utils.

Lemma contains_step (sub : string) (c : ascii) (s : string) :
  contains sub (String c s)
  = if String.prefix sub (String c s) then true else contains sub s.
Proof. reflexivity. Qed.

(** A replacement leaves a text that does not hold the pattern as it
    is. *)
Lemma replace_absent (old new s : string) :
  old <> EmptyString -> contains old s = false -> replace old new s = s.
Proof.
  intros Hne. unfold replace. destruct old as [|a old]; [now elim Hne|].
  induction s as [|c s IH]; [reflexivity|].
  rewrite contains_step. cbn [replace_from].
  destruct (String.prefix (String a old) (String c s)); [discriminate|].
  intros H. now rewrite (IH H).
Qed.

Lemma prefix_contains_tail (a b s : string) :
  String.prefix (a ++ b)%string s = true -> contains b s = true.
Proof.
  revert s. induction a as [|x a IH]; intros s.
  - cbn [append]. intros H. destruct s as [|c s]; unfold contains;
      now rewrite H.
  - cbn [append]. destruct s as [|c s]; cbn [String.prefix];
      [discriminate|].
    destruct (ascii_dec x c); [|discriminate].
    intros H. rewrite contains_step, (IH _ H).
    now destruct (String.prefix b (String c s)).
Qed.

(** A text that holds a pattern holds the end of the pattern. *)
Lemma contains_tail (a b s : string) :
  contains b s = false -> contains (a ++ b)%string s = false.
Proof.
  intros Hb. destruct (contains (a ++ b)%string s) eqn:E; [|reflexivity].
  exfalso. revert Hb E. induction s as [|c s IH].
  - unfold contains.
    destruct (String.prefix (a ++ b)%string EmptyString) eqn:Ep;
      [|discriminate].
    intros Hb _. apply prefix_contains_tail in Ep. unfold contains in Ep.
    congruence.
  - rewrite !contains_step.
    destruct (String.prefix (a ++ b)%string (String c s)) eqn:Ep.
    + intros Hb _. apply prefix_contains_tail in Ep.
      rewrite contains_step in Ep. congruence.
    + destruct (String.prefix b (String c s)); [discriminate|]. exact IH.
Qed.

(** X22. [normalize_unit] leaves as it is any text that holds none of
    the six patterns it corrects: the mis-encoded micro sign, the
    Greek mu after "dB", "Lim.Avg", "Lim.Peak", "Lim.Q-Peak" and
    "CISPR.AVG". *)
Theorem normalize_unit_frame (unit : string) :
  contains "Âµ" unit = false ->
  contains "dBμV" unit = false ->
  contains "Lim.Avg" unit = false ->
  contains "Lim.Peak" unit = false ->
  contains "Lim.Q-Peak" unit = false ->
  contains "CISPR.AVG" unit = false ->
  normalize_unit unit = unit.
Proof.
  intros H1 H2 H3 H4 H5 H6. unfold normalize_unit.
  rewrite (replace_absent "Âµ"), (replace_absent "dBμV"),
    (replace_absent "Lim.Avg"), (replace_absent "Lim.Peak"),
    (replace_absent "Lim.Q-Peak"), (replace_absent "CISPR.AVG");
    try assumption; try discriminate.
  rewrite (replace_absent "Peak-Lim.Peak"),
    (replace_absent "Q-Peak-Lim.Q-Peak"),
    (replace_absent "CISPR.AVG-Lim.Avg"); try discriminate;
    try reflexivity.
  - exact (contains_tail "CISPR.AVG-" "Lim.Avg" unit H3).
  - exact (contains_tail "Q-Peak-" "Lim.Q-Peak" unit H5).
  - exact (contains_tail "Peak-" "Lim.Peak" unit H4).
Qed.

Lemma normalize_unit_frame_witness :
  normalize_unit "Frequency (MHz)" = "Frequency (MHz)".
Proof.
  apply (normalize_unit_frame "Frequency (MHz)"); reflexivity.
Defined.

End NormalizeUnit.

(** ** Association: the declaring block and the boundary *)

Section Substrings.
Import PyStr.












End Substrings.

Section DeclaringBlock.
Import PyStr Utils Parser Blocks.











End DeclaringBlock.

Section BoundaryTheorems.
Import PyStr Utils Parser Blocks Samples.




End BoundaryTheorems.
